(** * The power monitor plugin (src/power.c)

    A shallow embedding of the event monitoring and decision engine of the
    plugin: the start-up checks, the two udev callbacks, the icon driver and
    the life cycle of the plugin context, followed by the properties the
    specification states about them.

    Conventions.
    - A C [int] is a [Z]; where the source can leave the 32-bit range the
      wrap-around is written out ([to_int]).
    - Text is a [string] whose characters are the bytes of the C string; an
      open [FILE *] is the [string] of the bytes still to be read.
    - The panel, the file system, the shell and the message catalogue are
      the environment [Env]; what the plugin asks the panel to do is the
      list of [sink_call]s it produces, in order.
    - The [PowerPlugin] block is threaded through every function ([Act]);
      the functions that create and release handles run over a [Host] that
      also records which main-loop sources and libudev objects are alive. *)

From Stdlib Require Import ZArith Bool Ascii String.
From stdpp Require Import gmap strings list fin_maps.

Local Open Scope Z_scope.

(* ------------------------------------------------------------------------- *)
(** ** C library and GLib helpers *)
(* ------------------------------------------------------------------------- *)

Module C.

(** Conversion of an integer to a 32-bit [int] (two's complement). *)
Definition to_int (z : Z) : Z := (z + 2 ^ 31) mod 2 ^ 32 - 2 ^ 31.

(** Conversion of an [int] to [unsigned char]. *)
Definition to_uchar (z : Z) : Z := z mod 256.

(** [strtol] saturates at the bounds of a 64-bit [long]. *)
Definition strtol_clamp (z : Z) : Z := Z.max (- 2 ^ 63) (Z.min (2 ^ 63 - 1) z).

Definition code (c : ascii) : Z := Z.of_N (N_of_ascii c).

Definition NUL : ascii := "000"%char.
Definition LF : ascii := "010"%char.

(** The one-character string holding a line break, written "\n" in C. *)
Definition nl : string := String LF "".

(** [isspace] in the C locale: space and the controls 9 to 13. *)
Definition isspace (c : ascii) : bool :=
  (code c =? 32) || ((9 <=? code c) && (code c <=? 13)).

(** [g_ascii_isspace]: space, tab, line feed, form feed, carriage return
    (GLib leaves the vertical tab, 11, out). *)
Definition g_ascii_isspace (c : ascii) : bool :=
  (code c =? 32) || (code c =? 9) || (code c =? 10) || (code c =? 12)
  || (code c =? 13).

Definition isdigit (c : ascii) : bool := (48 <=? code c) && (code c <=? 57).

Definition strlen (s : string) : Z := Z.of_nat (String.length s).

(** The C string held in a buffer: the bytes before the first NUL. *)
Fixpoint c_str (buf : string) : string :=
  match buf with
  | "" => ""
  | String c rest => if Ascii.eqb c NUL then "" else String c (c_str rest)
  end.

(** [strncmp (a, b, n) == 0]. *)
Definition strncmp_eq (a b : string) (n : nat) : bool :=
  String.eqb (substring 0 n a) (substring 0 n b).

(** [g_strcmp0 (a, b) == 0], where [a] may be NULL. *)
Definition g_strcmp0_eq (a : option string) (b : string) : bool :=
  match a with
  | Some s => String.eqb s b
  | None => false
  end.

(** The text [printf] substitutes for a "%s" argument; glibc prints a NULL
    argument as "(null)". *)
Definition printf_s (arg : option string) : string :=
  match arg with
  | Some s => s
  | None => "(null)"
  end.

(** *** stdio streams *)

Definition EOF : Z := -1.

Definition fgetc (fp : string) : Z * string :=
  match fp with
  | "" => (EOF, "")
  | String c rest => (code c, rest)
  end.

(** The bytes up to and including the next line feed, and the rest. *)
Fixpoint read_line (fp : string) : string * string :=
  match fp with
  | "" => ("", "")
  | String c rest =>
      if Ascii.eqb c LF then (String c "", rest)
      else let '(line, rest') := read_line rest in (String c line, rest')
  end.

(** [getline]: [None] stands for the result -1 (nothing left to read),
    [Some (line, fp')] for a positive result. *)
Definition getline (fp : string) : option (string * string) :=
  match fp with
  | "" => None
  | _ => Some (read_line fp)
  end.

(** Every line [getline] returns until it fails, in order. *)
Fixpoint getlines (fp : string) : list string :=
  match fp with
  | "" => []
  | String c rest =>
      if Ascii.eqb c LF then String c "" :: getlines rest
      else match getlines rest with
           | [] => [String c ""]
           | line :: more => String c line :: more
           end
  end.

(** *** sscanf *)

Fixpoint skip_space (s : string) : string :=
  match s with
  | String c rest => if isspace c then skip_space rest else s
  | "" => ""
  end.

Fixpoint scan_digits (acc : Z) (s : string) : Z * string :=
  match s with
  | String c rest =>
      if isdigit c then scan_digits (10 * acc + (code c - 48)) rest
      else (acc, s)
  | "" => (acc, "")
  end.

Definition scan_sign (s : string) : bool * string :=
  match s with
  | String "-" rest => (true, rest)
  | String "+" rest => (false, rest)
  | _ => (false, s)
  end.

(** The directive "%d": white space, an optional sign, at least one digit.
    glibc converts with [strtol] and stores the result as an [int]. *)
Definition scan_d (s : string) : option (Z * string) :=
  let '(neg, s1) := scan_sign (skip_space s) in
  match s1 with
  | String c _ =>
      if isdigit c then
        let '(v, rest) := scan_digits 0 s1 in
        Some (to_int (strtol_clamp (if neg then - v else v)), rest)
      else None
  | "" => None
  end.

(** [sscanf (s, "%d", &v) == 1], with the value stored. *)
Definition sscanf_d (s : string) : option Z :=
  match scan_d s with
  | Some (v, _) => Some v
  | None => None
  end.

(** [sscanf (s, "%dx%d", &w, &h) == 2], with the values stored. *)
Definition sscanf_dxd (s : string) : option (Z * Z) :=
  match scan_d s with
  | Some (w, String "x" rest) =>
      match scan_d rest with
      | Some (h, _) => Some (w, h)
      | None => None
      end
  | _ => None
  end.

(** *** GLib strings *)

Fixpoint g_strchug (s : string) : string :=
  match s with
  | String c rest => if g_ascii_isspace c then g_strchug rest else s
  | "" => ""
  end.

Fixpoint g_strchomp (s : string) : string :=
  match s with
  | String c rest =>
      match g_strchomp rest with
      | "" => if g_ascii_isspace c then "" else String c ""
      | kept => String c kept
      end
  | "" => ""
  end.

Definition g_strstrip (buf : string) : string := g_strchomp (g_strchug (c_str buf)).

Definition g_strconcat (parts : list string) : string :=
  fold_right String.append "" parts.

End C.

(* ------------------------------------------------------------------------- *)
(** ** The plugin's data *)
(* ------------------------------------------------------------------------- *)

(** Reasons to show the icon. *)
Definition ICON_LOW_VOLTAGE : Z := 0x01.
Definition ICON_OVER_CURRENT : Z := 0x02.
Definition ICON_BROWNOUT : Z := 0x04.

Definition POWER_PATH : string := "/proc/device-tree/chosen/power/".
Definition WARN_FILE : string := "/proc/device-tree/chosen/user-warnings".
Definition MEM_WARN_THRESHOLD : Z := 2048.
Definition RES_HEIGHT_THRESHOLD : Z := 1200.

Definition NULL : Z := 0.
Definition G_SOURCE_CONTINUE : bool := true.
Definition G_SOURCE_REMOVE : bool := false.

(** Modelled from the spec: the declaration of the [PowerPlugin] structure
    is in power.h, which is not among the sources. The record holds the
    fields power.c reads and writes, the MonitorContext of the
    specification: the hazard flags, the last overcurrent counter, the
    handles of the event source and of the two subscriptions, and the ids
    of the three main-loop sources. A pointer is its address, [NULL] being
    0. The widgets of the structure only ever reach the panel, which is
    the sink. *)
Record PowerPlugin : Type := mkPowerPlugin {
  show_icon : Z;
  udev : Z;
  udev_mon_oc : Z;
  udev_mon_lv : Z;
  overcurrent_id : Z;
  lowvoltage_id : Z;
  last_oc : Z;
  startup_id : Z
}.

Definition set_show_icon (v : Z) (pt : PowerPlugin) : PowerPlugin :=
  mkPowerPlugin v (udev pt) (udev_mon_oc pt) (udev_mon_lv pt)
    (overcurrent_id pt) (lowvoltage_id pt) (last_oc pt) (startup_id pt).
Definition set_udev (v : Z) (pt : PowerPlugin) : PowerPlugin :=
  mkPowerPlugin (show_icon pt) v (udev_mon_oc pt) (udev_mon_lv pt)
    (overcurrent_id pt) (lowvoltage_id pt) (last_oc pt) (startup_id pt).
Definition set_udev_mon_oc (v : Z) (pt : PowerPlugin) : PowerPlugin :=
  mkPowerPlugin (show_icon pt) (udev pt) v (udev_mon_lv pt)
    (overcurrent_id pt) (lowvoltage_id pt) (last_oc pt) (startup_id pt).
Definition set_udev_mon_lv (v : Z) (pt : PowerPlugin) : PowerPlugin :=
  mkPowerPlugin (show_icon pt) (udev pt) (udev_mon_oc pt) v
    (overcurrent_id pt) (lowvoltage_id pt) (last_oc pt) (startup_id pt).
Definition set_overcurrent_id (v : Z) (pt : PowerPlugin) : PowerPlugin :=
  mkPowerPlugin (show_icon pt) (udev pt) (udev_mon_oc pt) (udev_mon_lv pt)
    v (lowvoltage_id pt) (last_oc pt) (startup_id pt).
Definition set_lowvoltage_id (v : Z) (pt : PowerPlugin) : PowerPlugin :=
  mkPowerPlugin (show_icon pt) (udev pt) (udev_mon_oc pt) (udev_mon_lv pt)
    (overcurrent_id pt) v (last_oc pt) (startup_id pt).
Definition set_last_oc (v : Z) (pt : PowerPlugin) : PowerPlugin :=
  mkPowerPlugin (show_icon pt) (udev pt) (udev_mon_oc pt) (udev_mon_lv pt)
    (overcurrent_id pt) (lowvoltage_id pt) v (startup_id pt).
Definition set_startup_id (v : Z) (pt : PowerPlugin) : PowerPlugin :=
  mkPowerPlugin (show_icon pt) (udev pt) (udev_mon_oc pt) (udev_mon_lv pt)
    (overcurrent_id pt) (lowvoltage_id pt) (last_oc pt) v.

(** A device record received from a udev monitor. *)
Record udev_device : Type := mkDevice {
  action : option string;
  sysname : string;
  syspath : string;
  properties : gmap string string
}.

Definition udev_device_get_action (dev : udev_device) : option string := action dev.
Definition udev_device_get_sysname (dev : udev_device) : string := sysname dev.
Definition udev_device_get_syspath (dev : udev_device) : string := syspath dev.
Definition udev_device_get_property_value (dev : udev_device) (key : string)
  : option string := properties dev !! key.

(** What lies outside the plugin when one of its functions runs: the
    message catalogue behind the macro [_], the exit status of a [system]
    command, whether [access (path, F_OK)] succeeds, the bytes of the file
    [fopen] opens ([None]: the open fails), the output of the pipeline
    [popen] starts ([None]: the launch fails), and [is_pi]. *)
Record Env : Type := mkEnv {
  gettext : string -> string;
  system : string -> Z;
  access : string -> bool;
  fopen : string -> option string;
  popen : string -> option string;
  is_pi : bool
}.

(** The calls the plugin makes on the panel and its widgets. [Notify] is
    an advisory ([wrap_notify]), [Critical] a critical notification
    ([wrap_critical]). *)
Inductive sink_call : Type :=
| Notify (msg : string)
| Critical (msg : string)
| SetTaskbarIcon (icon : string)
| SetSensitive (sensitive : bool)
| Hide
| ShowAll
| SetTooltipText (text : string).

(** Ways in which the C program leaves defined behaviour. *)
Inductive fault : Type :=
| OutOfBounds
| NullPointer
| UseAfterFree
| NotAlive (what : string) (handle : Z).

Inductive result (A : Type) : Type :=
| Ok (a : A)
| Crash (f : fault).
Arguments Ok {A} a.
Arguments Crash {A} f.

(** An action on the plugin block: it returns a value, the block as it
    leaves it and the calls it made on the sink, or it crashes. *)
Definition Act (A : Type) : Type := PowerPlugin -> result (A * PowerPlugin * list sink_call).

#[global] Instance Act_ret : MRet Act := fun A a pt => Ok (a, pt, []).
#[global] Instance Act_bind : MBind Act := fun A B k m pt =>
  match m pt with
  | Ok (a, pt1, out1) =>
      match k a pt1 with
      | Ok (b, pt2, out2) => Ok (b, pt2, out1 ++ out2)
      | Crash f => Crash f
      end
  | Crash f => Crash f
  end.

Definition get {A : Type} (field : PowerPlugin -> A) : Act A :=
  fun pt => Ok (field pt, pt, []).
Definition put (set : PowerPlugin -> PowerPlugin) : Act unit :=
  fun pt => Ok (tt, set pt, []).
Definition emit (c : sink_call) : Act unit :=
  fun pt => Ok (tt, pt, [c]).
Definition crash {A : Type} (f : fault) : Act A :=
  fun _ => Crash f.
Definition skip : Act unit := mret tt.

Definition wrap_notify (msg : string) : Act unit := emit (Notify msg).
Definition wrap_critical (msg : string) : Act unit := emit (Critical msg).
Definition wrap_set_taskbar_icon (icon : string) : Act unit := emit (SetTaskbarIcon icon).
Definition gtk_widget_set_sensitive (sensitive : bool) : Act unit := emit (SetSensitive sensitive).
Definition gtk_widget_hide : Act unit := emit Hide.
Definition gtk_widget_show_all : Act unit := emit ShowAll.
Definition gtk_widget_set_tooltip_text (text : string) : Act unit := emit (SetTooltipText text).

(** A C condition: an integer is true when it is not 0. *)
Definition truthy (z : Z) : bool := negb (z =? 0).

(* ------------------------------------------------------------------------- *)
(** ** Update the icon to show current status *)
(* ------------------------------------------------------------------------- *)

(** [buf[i] = 0] on the buffer of the C string [s], which holds
    [strlen s + 1] bytes: within the buffer the string now ends at [i],
    outside it the store is out of bounds. *)
Definition store_nul (s : string) (i : Z) : Act string :=
  if (0 <=? i) && (i <=? C.strlen s) then mret (substring 0 (Z.to_nat i) s)
  else crash OutOfBounds.

(** [strlen (tooltip) - 1]. In [size_t] the difference of an empty string
    wraps to [SIZE_MAX], far beyond the buffer; the model keeps -1, which
    is outside the buffer as well. *)
Definition last_index (s : string) : Z := C.strlen s - 1.

(** The [g_strconcat] call of [update_icon]. *)
Definition tooltip_concat (E : Env) (flags : Z) : string :=
  C.g_strconcat [
    if truthy (Z.land flags ICON_LOW_VOLTAGE)
      then gettext E ("PSU low voltage detected" +:+ C.nl) else "";
    if truthy (Z.land flags ICON_OVER_CURRENT)
      then gettext E ("USB over current detected" +:+ C.nl) else "";
    if truthy (Z.land flags ICON_BROWNOUT)
      then gettext E ("Low power reset has occurred" +:+ C.nl) else "" ].

Definition update_icon (E : Env) : Act unit :=
  wrap_set_taskbar_icon "under-volt" ;;
  flags ← get show_icon ;
  gtk_widget_set_sensitive (truthy flags) ;;
  if negb (truthy flags) then gtk_widget_hide
  else
    gtk_widget_show_all ;;
    let tooltip := tooltip_concat E flags in
    tooltip ← store_nul tooltip (last_index tooltip) ;
    gtk_widget_set_tooltip_text tooltip.

(** Handler for system config changed message from panel. *)
Definition power_update_display (E : Env) : Act unit := update_icon E.

(* ------------------------------------------------------------------------- *)
(** ** Tests *)
(* ------------------------------------------------------------------------- *)

(** The loop [for (int i = 3; i >= 0; i--) cptr[i] = fgetc (fp);] of
    [check_psu] and [check_brownout], started at [i = n - 1]; [cptr] holds
    the four bytes of [val]. *)
Fixpoint read_bytes (n : nat) (cptr : list Z) (fp : string) : list Z :=
  match n with
  | O => cptr
  | S i => let '(c, fp') := C.fgetc fp in read_bytes i (<[i := C.to_uchar c]> cptr) fp'
  end.

(** The [int] whose object representation is [cptr]: the target is
    little-endian, [cptr[0]] is the least significant byte. *)
Definition int_of_bytes (cptr : list Z) : Z :=
  C.to_int (fold_right (fun byte acc => byte + 256 * acc) 0 cptr).

(** [val] after the loop has run over a freshly opened file. *)
Definition read_val (fp : string) : Z := int_of_bytes (read_bytes 4 [0; 0; 0; 0] fp).

Definition check_psu (E : Env) : Act unit :=
  if system E "raspi-config nonint is_cmfive" =? 0 then skip
  else
    match fopen E (POWER_PATH +:+ "max_current") with
    | Some fp =>
        let val := read_val fp in
        if val <? 5000 then
          wrap_notify (gettext E ("This power supply is not capable of supplying 5A"
            +:+ C.nl +:+ "Power to peripherals will be restricted"))
        else skip
    | None => skip
    end.

Definition check_brownout (E : Env) : Act unit :=
  match fopen E (POWER_PATH +:+ "power_reset") with
  | Some fp =>
      let val := read_val fp in
      if truthy (Z.land val 0x02) then
        wrap_critical (gettext E ("Reset due to low power event"
          +:+ C.nl +:+ "Please check your power supply")) ;;
        flags ← get show_icon ;
        put (set_show_icon (Z.lor flags ICON_BROWNOUT)) ;;
        update_icon E
      else skip
  | None => skip
  end.

Definition check_user_warnings (E : Env) : Act unit :=
  if access E WARN_FILE then
    match fopen E WARN_FILE with
    | Some fp =>
        foldr (fun buf rest => wrap_notify (C.g_strstrip buf) ;; rest) skip (C.getlines fp)
    | None => skip
    end
  else skip.

(** The loop [while ( *res) { if (g_ascii_isspace ( *res)) *res = 0; res++; }]
    of [get_string] over the bytes of [line]. *)
Fixpoint erase_space (line : string) : string :=
  match line with
  | "" => ""
  | String c rest =>
      if Ascii.eqb c C.NUL then line
      else String (if C.g_ascii_isspace c then C.NUL else c) (erase_space rest)
  end.

(** [None] is the NULL result; [g_strdup] copies the C string at [line]. *)
Definition get_string (E : Env) (cmd : string) : option string :=
  match popen E cmd with
  | None => None
  | Some fp =>
      match C.getline fp with
      | Some (line, _) => Some (C.c_str (erase_space line))
      | None => None
      end
  end.

Definition total_mem_cmd : string := "vcgencmd get_config total_mem | cut -d = -f 2".
Definition hdmi_1_cmd : string :=
  "wlr-randr | sed -n '/^HDMI-A-1/,/Position/{/current/p}' | sed 's/ //g' | sed 's/px.*//'".
Definition hdmi_2_cmd : string :=
  "wlr-randr | sed -n '/^HDMI-A-2/,/Position/{/current/p}' | sed 's/ //g' | sed 's/px.*//'".

(** The block [check_memres] runs for each of the two outputs: [max_h]
    after it. *)
Definition probe_height (E : Env) (cmd : string) (max_h : Z) : Z :=
  match get_string E cmd with
  | Some res =>
      match C.sscanf_dxd res with
      | Some (width, height) => if height >? max_h then height else max_h
      | None => max_h
      end
  | None => max_h
  end.

Definition check_memres (E : Env) : Act unit :=
  match get_string E total_mem_cmd with
  | None => skip
  | Some res =>
      match C.sscanf_d res with
      | None => skip
      | Some mem =>
          if (mem <? 256) || (mem >? MEM_WARN_THRESHOLD) then skip
          else
            let max_h := 0 in
            let max_h := probe_height E hdmi_1_cmd max_h in
            let max_h := probe_height E hdmi_2_cmd max_h in
            if max_h >? RES_HEIGHT_THRESHOLD then
              wrap_notify (gettext E ("High display resolution is using large amounts of memory."
                +:+ C.nl +:+ "Consider reducing screen resolution."))
            else skip
      end
  end.

(* ------------------------------------------------------------------------- *)
(** ** Monitoring callbacks *)
(* ------------------------------------------------------------------------- *)

Definition startup_checks (E : Env) : Act bool :=
  check_psu E ;;
  check_brownout E ;;
  check_memres E ;;
  check_user_warnings E ;;
  put (set_startup_id 0) ;;
  mret G_SOURCE_REMOVE.

(** [sscanf (s, "%d", &val) == 1] where [s] is a property value: reading
    through the NULL of a missing property is a fault. *)
Definition sscanf_property (s : option string) : Act (option Z) :=
  match s with
  | Some s => mret (C.sscanf_d s)
  | None => crash NullPointer
  end.

(** [dev] is what [udev_monitor_receive_device (pt->udev_mon_oc)] returned,
    [None] being NULL. *)
Definition cb_overcurrent_fd (E : Env) (dev : option udev_device) : Act bool :=
  match dev with
  | Some dev =>
      (if C.g_strcmp0_eq (udev_device_get_action dev) "change" then
         let path := "/sys/"
           +:+ C.printf_s (udev_device_get_property_value dev "OVER_CURRENT_PORT")
           +:+ "/disable" in
         match fopen E path with
         | Some fp =>
             if fst (C.fgetc fp) =? 0x31 then
               scanned ← sscanf_property (udev_device_get_property_value dev "OVER_CURRENT_COUNT") ;
               last ← get last_oc ;
               match scanned with
               | Some val =>
                   if negb (val =? last) then
                     wrap_critical (gettext E ("USB overcurrent"
                       +:+ C.nl +:+ "Please check your connected USB devices")) ;;
                     flags ← get show_icon ;
                     put (set_show_icon (Z.lor flags ICON_OVER_CURRENT)) ;;
                     update_icon E ;;
                     put (set_last_oc val)
                   else skip
               | None => skip
               end
             else skip
         | None => skip
         end
       else skip) ;;
      mret G_SOURCE_CONTINUE
  | None => mret G_SOURCE_CONTINUE
  end.

(** [dev] is what [udev_monitor_receive_device (pt->udev_mon_lv)] returned. *)
Definition cb_lowvoltage_fd (E : Env) (dev : option udev_device) : Act bool :=
  match dev with
  | Some dev =>
      (if C.g_strcmp0_eq (udev_device_get_action dev) "change"
          && C.strncmp_eq (udev_device_get_sysname dev) "hwmon" 5 then
         let path := udev_device_get_syspath dev +:+ "/in0_lcrit_alarm" in
         match fopen E path with
         | Some fp =>
             if fst (C.fgetc fp) =? 0x31 then
               wrap_critical (gettext E ("Low voltage warning"
                 +:+ C.nl +:+ "Please check your power supply")) ;;
               flags ← get show_icon ;
               put (set_show_icon (Z.lor flags ICON_LOW_VOLTAGE)) ;;
               update_icon E
             else skip
         | None => skip
         end
       else skip) ;;
      mret G_SOURCE_CONTINUE
  | None => mret G_SOURCE_CONTINUE
  end.

(* ------------------------------------------------------------------------- *)
(** ** The plugin block and its handles *)
(* ------------------------------------------------------------------------- *)

(** The callbacks the plugin attaches to the main loop. *)
Inductive handler : Type :=
| StartupChecks
| OvercurrentFd
| LowvoltageFd.

#[global] Instance handler_eq_dec : EqDecision handler.
Proof. solve_decision. Defined.

(** What the process holds while the plugin lives: the block of the plugin
    ([None] once it has been freed), the sources attached to the main loop
    (the callback of each id), the live libudev objects (by address), the
    next source id GLib will hand out, the address of the next object, and
    the calls the panel has received. *)
Record Host : Type := mkHost {
  block : option PowerPlugin;
  sources : gmap Z handler;
  objects : gset Z;
  next_id : Z;
  next_object : Z;
  panel : list sink_call
}.

(** Which of the libudev constructors [power_init] calls succeed. *)
Record Udev : Type := mkUdev {
  udev_new_ok : bool;
  monitor_oc_ok : bool;
  monitor_lv_ok : bool
}.

Definition Life (A : Type) : Type := Host -> result (A * Host).

#[global] Instance Life_ret : MRet Life := fun A a h => Ok (a, h).
#[global] Instance Life_bind : MBind Life := fun A B k m h =>
  match m h with
  | Ok (a, h1) => k a h1
  | Crash f => Crash f
  end.

(** [pt->field] *)
Definition load {A : Type} (field : PowerPlugin -> A) : Life A :=
  fun h =>
    match block h with
    | Some pt => Ok (field pt, h)
    | None => Crash UseAfterFree
    end.

(** [pt->field = v] *)
Definition store (set : PowerPlugin -> PowerPlugin) : Life unit :=
  fun h =>
    match block h with
    | Some pt =>
        Ok (tt, mkHost (Some (set pt)) (sources h) (objects h) (next_id h) (next_object h) (panel h))
    | None => Crash UseAfterFree
    end.

(** [g_free (pt)] *)
Definition g_free : Life unit :=
  fun h =>
    match block h with
    | Some _ => Ok (tt, mkHost None (sources h) (objects h) (next_id h) (next_object h) (panel h))
    | None => Crash UseAfterFree
    end.

(** [g_unix_fd_add (fd, G_IO_IN, cb, pt)] and [g_idle_add (cb, pt)]: the
    new source gets the next id. *)
Definition g_source_attach (cb : handler) : Life Z :=
  fun h =>
    Ok (next_id h,
        mkHost (block h) (<[ next_id h := cb ]> (sources h)) (objects h) (next_id h + 1)
          (next_object h) (panel h)).

(** [g_source_remove (id)]: removing an id that is not attached is an
    error GLib reports as critical. *)
Definition g_source_remove (id : Z) : Life unit :=
  fun h =>
    match sources h !! id with
    | Some _ =>
        Ok (tt, mkHost (block h) (delete id (sources h)) (objects h) (next_id h)
                  (next_object h) (panel h))
    | None => Crash (NotAlive "source" id)
    end.

(** [udev_new] and [udev_monitor_new_from_netlink]: a new object, or NULL. *)
Definition udev_create (ok : bool) : Life Z :=
  fun h =>
    if ok then
      Ok (next_object h,
          mkHost (block h) (sources h) ({[ next_object h ]} ∪ objects h) (next_id h)
            (next_object h + 1) (panel h))
    else Ok (NULL, h).

(** [udev_monitor_unref] and [udev_unref] of an object the plugin holds
    the only reference to: the object is released. *)
Definition udev_release (p : Z) : Life unit :=
  fun h =>
    if decide (p ∈ objects h) then
      Ok (tt, mkHost (block h) (sources h) (objects h ∖ {[ p ]}) (next_id h)
                (next_object h) (panel h))
    else Crash (NotAlive "udev object" p).

Definition when (c : bool) (m : Life unit) : Life unit := if c then m else mret tt.

(** The widgets [power_init] creates first (the icon, the button relief,
    the menu and its item) belong to the panel and are not modelled. *)
Definition power_init (E : Env) (U : Udev) : Life unit :=
  (* Set up variables *)
  store (set_show_icon 0) ;;
  store (set_udev_mon_oc NULL) ;;
  store (set_udev_mon_lv NULL) ;;
  store (set_udev NULL) ;;
  store (set_overcurrent_id 0) ;;
  store (set_lowvoltage_id 0) ;;
  store (set_startup_id 0) ;;
  (* Start timed events to monitor low voltage warnings *)
  when (is_pi E) (
    store (set_last_oc (-1)) ;;
    u ← udev_create (udev_new_ok U) ;
    store (set_udev u) ;;
    (* Configure udev monitors *)
    oc ← udev_create (monitor_oc_ok U) ;
    store (set_udev_mon_oc oc) ;;
    when (truthy oc) (id ← g_source_attach OvercurrentFd ; store (set_overcurrent_id id)) ;;
    lv ← udev_create (monitor_lv_ok U) ;
    store (set_udev_mon_lv lv) ;;
    when (truthy lv) (id ← g_source_attach LowvoltageFd ; store (set_lowvoltage_id id)) ;;
    id ← g_source_attach StartupChecks ;
    store (set_startup_id id)).

Definition power_destructor : Life unit :=
  id ← load overcurrent_id ;
  when (id >? 0) (g_source_remove id) ;;
  store (set_overcurrent_id 0) ;;
  id ← load lowvoltage_id ;
  when (id >? 0) (g_source_remove id) ;;
  store (set_lowvoltage_id 0) ;;
  id ← load startup_id ;
  when (id >? 0) (g_source_remove id) ;;
  store (set_startup_id 0) ;;
  p ← load udev_mon_oc ;
  when (truthy p) (udev_release p) ;;
  store (set_udev_mon_oc NULL) ;;
  p ← load udev_mon_lv ;
  when (truthy p) (udev_release p) ;;
  store (set_udev_mon_lv NULL) ;;
  p ← load udev ;
  when (truthy p) (udev_release p) ;;
  store (set_udev NULL) ;;
  g_free.

(** The block [g_new0] returns to the constructor: every field is 0. *)
Definition zeroed : PowerPlugin := mkPowerPlugin 0 0 0 0 0 0 0 0.

(** A process in which nothing of the plugin exists yet but its block. *)
Definition fresh_host : Host := mkHost (Some zeroed) ∅ ∅ 1 1 [].

(** *** The main loop *)

(** A callback of the plugin runs on its block; the panel receives what it
    emits. *)
Definition run_callback {A : Type} (m : Act A) : Life A :=
  fun h =>
    match block h with
    | Some pt =>
        match m pt with
        | Ok (a, pt', out) =>
            Ok (a, mkHost (Some pt') (sources h) (objects h) (next_id h) (next_object h)
                     (panel h ++ out))
        | Crash f => Crash f
        end
    | None => Crash UseAfterFree
    end.

Definition callback (E : Env) (cb : handler) (dev : option udev_device) : Act bool :=
  match cb with
  | StartupChecks => startup_checks E
  | OvercurrentFd => cb_overcurrent_fd E dev
  | LowvoltageFd => cb_lowvoltage_fd E dev
  end.

(** What happens to the plugin between [power_init] and
    [power_destructor]: the main loop dispatches the source [id], whose
    monitor delivers [dev], or the panel asks for the display to be
    updated. Each happens in the environment of its moment. *)
Inductive event : Type :=
| Dispatch (E : Env) (id : Z) (dev : option udev_device)
| Reconfigure (E : Env).

(** The main loop dispatches attached sources only, and destroys a source
    whose callback returns [G_SOURCE_REMOVE]. *)
Definition handle (ev : event) : Life unit :=
  match ev with
  | Dispatch E id dev =>
      fun h =>
        match sources h !! id with
        | Some cb =>
            (keep ← run_callback (callback E cb dev) ;
             when (negb keep) (g_source_remove id)) h
        | None => Ok (tt, h)
        end
  | Reconfigure E => run_callback (power_update_display E)
  end.

Definition handle_all (evs : list event) : Life unit :=
  foldr (fun ev rest => handle ev ;; rest) (mret tt) evs.

(** [alive h id cb]: the field [id] of the block is 0 or the id of the
    attached source that runs [cb]. *)
Definition alive (h : Host) (id : Z) (cb : handler) : bool :=
  implb (id >? 0) (bool_decide (sources h !! id = Some cb)).

(** [held h p]: the pointer [p] of the block is NULL or a live object. *)
Definition held (h : Host) (p : Z) : bool :=
  implb (truthy p) (bool_decide (p ∈ objects h)).

(** Two pointers of the block do not name the same object. *)
Definition apart (p q : Z) : bool :=
  implb (truthy p && truthy q) (negb (p =? q)).

(** The handles of the block [pt] are those of live resources of [h]. *)
Definition handles_alive (h : Host) (pt : PowerPlugin) : bool :=
  alive h (overcurrent_id pt) OvercurrentFd
  && alive h (lowvoltage_id pt) LowvoltageFd
  && alive h (startup_id pt) StartupChecks
  && held h (udev_mon_oc pt) && held h (udev_mon_lv pt) && held h (udev pt)
  && apart (udev_mon_oc pt) (udev_mon_lv pt)
  && apart (udev_mon_oc pt) (udev pt)
  && apart (udev_mon_lv pt) (udev pt).

(* ------------------------------------------------------------------------- *)
(** ** Vocabulary of the specification *)
(* ------------------------------------------------------------------------- *)

(** The hazards, in the order of the tooltip. *)
Inductive hazard : Type :=
| LowVoltage
| OverCurrent
| Brownout.

Definition hazards : list hazard := [LowVoltage; OverCurrent; Brownout].

Definition mask (f : hazard) : Z :=
  match f with
  | LowVoltage => ICON_LOW_VOLTAGE
  | OverCurrent => ICON_OVER_CURRENT
  | Brownout => ICON_BROWNOUT
  end.

(** The flag [f] is in the set [flags]. *)
Definition has_flag (flags : Z) (f : hazard) : bool := truthy (Z.land flags (mask f)).

(** Every flag of [before] is a flag of [after]; the second form speaks of
    every bit of [show_icon]. *)
Definition flags_kept (before after : Z) : Prop :=
  forall f, has_flag before f = true -> has_flag after f = true.
Definition bits_kept (before after : Z) : Prop :=
  forall i, Z.testbit before i = true -> Z.testbit after i = true.

(** The notifications among the calls on the sink. *)
Definition is_notification (c : sink_call) : bool :=
  match c with
  | Notify _ | Critical _ => true
  | _ => false
  end.
Definition notifications (out : list sink_call) : list sink_call :=
  filter (fun c => is_notification c = true) out.

(** Whether the text ends in a line break, and the text without its last
    character. *)
Fixpoint ends_with_nl (s : string) : bool :=
  match s with
  | "" => false
  | String c "" => Ascii.eqb c C.LF
  | String _ rest => ends_with_nl rest
  end.

Fixpoint drop_last (s : string) : string :=
  match s with
  | "" => ""
  | String _ "" => ""
  | String c rest => String c (drop_last rest)
  end.

(** A message catalogue keeps final line breaks when the translation of a
    message that ends in a line break ends in one too (what [msgfmt -c]
    checks of a catalogue). The untranslated catalogue does. *)
Definition keeps_line_breaks (tr : string -> string) : Prop :=
  forall msgid, ends_with_nl msgid = true -> ends_with_nl (tr msgid) = true.

Definition untranslated : string -> string := fun msgid => msgid.

(** The message of the tooltip for a hazard, as the source writes it. *)
Definition tooltip_msgid (f : hazard) : string :=
  match f with
  | LowVoltage => "PSU low voltage detected" +:+ C.nl
  | OverCurrent => "USB over current detected" +:+ C.nl
  | Brownout => "Low power reset has occurred" +:+ C.nl
  end.

(** The canned line of a hazard: its translated message less the line
    break. *)
Definition canned_line (E : Env) (f : hazard) : string :=
  drop_last (gettext E (tooltip_msgid f)).

(** The tooltip in the words of the specification: one canned line per set
    flag in the fixed order, each followed by a line break, the final line
    break dropped. *)
Definition spec_tooltip (E : Env) (flags : Z) : string :=
  drop_last (C.g_strconcat
    (map (fun f => canned_line E f +:+ C.nl) (filter (fun f => has_flag flags f = true) hazards))).

(** The calls [update_icon] makes when the icon is shown, and when it is
    hidden. *)
Definition icon_shown (E : Env) (flags : Z) : list sink_call :=
  [SetTaskbarIcon "under-volt"; SetSensitive true; ShowAll;
   SetTooltipText (drop_last (tooltip_concat E flags))].
Definition icon_hidden : list sink_call :=
  [SetTaskbarIcon "under-volt"; SetSensitive false; Hide].

Definition USB_OVERCURRENT : string :=
  "USB overcurrent" +:+ C.nl +:+ "Please check your connected USB devices".
Definition LOW_VOLTAGE_WARNING : string :=
  "Low voltage warning" +:+ C.nl +:+ "Please check your power supply".
Definition LOW_POWER_RESET : string :=
  "Reset due to low power event" +:+ C.nl +:+ "Please check your power supply".
Definition HIGH_RESOLUTION : string :=
  "High display resolution is using large amounts of memory."
  +:+ C.nl +:+ "Consider reducing screen resolution.".

(** The part of the tooltip a hazard contributes. *)
Definition tooltip_part (E : Env) (flags : Z) (f : hazard) : string :=
  if has_flag flags f then gettext E (tooltip_msgid f) else "".

(** The text [s] begins with the text [p]. *)
Definition begins_with (p s : string) : Prop := exists rest, s = p +:+ rest.

(** The first byte of the file at [path], when it can be opened and is not
    empty. *)
Definition first_byte (E : Env) (path : string) : option ascii :=
  match fopen E path with
  | Some (String c _) => Some c
  | _ => None
  end.

(** The low-voltage alarm of a hwmon device is asserted: the event is a
    change, the device is named hwmon..., and the first byte of its
    in0_lcrit_alarm file is the character 1. *)
Definition low_voltage_alarm (E : Env) (dev : udev_device) : Prop :=
  action dev = Some "change"
  /\ begins_with "hwmon" (sysname dev)
  /\ first_byte E (syspath dev +:+ "/in0_lcrit_alarm") = Some "1"%char.

(** The bit 0x02 of the value read from the power_reset file [fp]. *)
Definition low_power_reset (fp : string) : bool := truthy (Z.land (read_val fp) 0x02).

(** The file whose bytes are the codes [bytes]. *)
Definition file_of_bytes (bytes : list Z) : string :=
  fold_right (fun b rest => String (ascii_of_N (Z.to_N b)) rest) "" bytes.

(** The memory the probe reports, when it reports a number, and the height
    it reports for an output, when it reports a resolution. *)
Definition probed_mem (E : Env) : option Z :=
  get_string E total_mem_cmd ≫= C.sscanf_d.
Definition probed_height (E : Env) (cmd : string) : option Z :=
  get_string E cmd ≫= fun res => snd <$> C.sscanf_dxd res.

(** The greatest height probed over the two outputs (0 when none is). *)
Definition max_height (E : Env) : Z :=
  foldr Z.max 0 (omap (probed_height E) [hdmi_1_cmd; hdmi_2_cmd]).

(** The memory lies in the warning range. *)
Definition mem_in_range (mem : Z) : bool := (256 <=? mem) && (mem <=? MEM_WARN_THRESHOLD).

(** The probe in the words of the specification: the first line of the
    output with every white-space character removed. *)
Fixpoint remove_space (s : string) : string :=
  match s with
  | "" => ""
  | String c rest =>
      if C.g_ascii_isspace c then remove_space rest else String c (remove_space rest)
  end.

Definition spec_run_probe (E : Env) (cmd : string) : option string :=
  match popen E cmd with
  | Some output =>
      match C.getline output with
      | Some (line, _) => Some (remove_space line)
      | None => None
      end
  | None => None
  end.

(** The text before the first white-space character of [s] (or before a
    NUL, which ends a C string). *)
Fixpoint before_space (s : string) : string :=
  match s with
  | "" => ""
  | String c rest =>
      if C.g_ascii_isspace c || Ascii.eqb c C.NUL then "" else String c (before_space rest)
  end.

(** No character of [s] is white space or NUL. *)
Fixpoint plain_word (s : string) : bool :=
  match s with
  | "" => true
  | String c rest => negb (C.g_ascii_isspace c || Ascii.eqb c C.NUL) && plain_word rest
  end.

(** The byte [fgetc] stores at position [i] of the file: the byte there,
    or the end-of-file value narrowed to [unsigned char]. *)
Definition byte_at (fp : string) (i : nat) : Z :=
  match String.get i fp with
  | Some c => C.code c
  | None => C.to_uchar C.EOF
  end.

(** [(b0 << 24) | (b1 << 16) | (b2 << 8) | b3] *)
Definition big_endian (b0 b1 b2 b3 : Z) : Z :=
  Z.lor (Z.lor (Z.lor (Z.shiftl b0 24) (Z.shiftl b1 16)) (Z.shiftl b2 8)) b3.

(** An environment in which every pipeline prints [output], no file can
    be opened and the catalogue is the untranslated one. *)
Definition probe_env (output : string) : Env :=
  mkEnv untranslated (fun _ => 1) (fun _ => false) (fun _ => None)
    (fun _ => Some output) true.

(** The USB events of the overcurrent claim: the action is "change", the
    first byte of the disable file of the port is the character 1, and
    OVER_CURRENT_COUNT parses as the integer [count]. *)
Definition overcurrent_event (E : Env) (dev : udev_device) (count : Z) : Prop :=
  action dev = Some "change"
  /\ first_byte E ("/sys/" +:+ C.printf_s (properties dev !! "OVER_CURRENT_PORT")
                   +:+ "/disable") = Some "1"%char
  /\ exists s, properties dev !! "OVER_CURRENT_COUNT" = Some s /\ C.sscanf_d s = Some count.

(** The overcurrent callback run on each event of a sequence, each in its
    environment: the block at the end and what each run emitted. *)
Fixpoint deliver (evs : list (Env * udev_device)) (pt : PowerPlugin)
  : result (PowerPlugin * list (list sink_call)) :=
  match evs with
  | [] => Ok (pt, [])
  | (E, dev) :: rest =>
      match cb_overcurrent_fd E (Some dev) pt with
      | Ok (_, pt1, out) =>
          match deliver rest pt1 with
          | Ok (pt2, outs) => Ok (pt2, out :: outs)
          | Crash f => Crash f
          end
      | Crash f => Crash f
      end
  end.

(** For counters arriving in order after the stored counter [last]:
    whether each differs from the one stored when it arrives, and the
    counter stored at the end. *)
Fixpoint fires (last : Z) (counts : list Z) : list bool :=
  match counts with
  | [] => []
  | v :: rest => negb (v =? last) :: fires v rest
  end.

Definition stored (last : Z) (counts : list Z) : Z := foldl (fun _ v => v) last counts.

(** What the sequence is expected to emit: a Critical per firing event. *)
Definition expected (evs : list (Env * udev_device)) (fire : list bool)
  : list (list sink_call) :=
  zip_with (fun ev (b : bool) => if b then [Critical (gettext ev.1 USB_OVERCURRENT)] else [])
    evs fire.

(** A USB event whose counter is the text [count], and an environment in
    which the disable file of its port holds the byte [byte]. *)
Definition usb_event (count : string) : udev_device :=
  mkDevice (Some "change") "usb1-port1" "/sys/devices/usb1/1-0:1.0/usb1-port1"
    (<["OVER_CURRENT_PORT" := "/devices/usb1/1-0:1.0/usb1-port1"]>
       (<["OVER_CURRENT_COUNT" := count]> ∅)).

Definition usb_env (byte : string) : Env :=
  mkEnv untranslated (fun _ => 1) (fun _ => false)
    (fun path =>
       if String.eqb path "/sys//devices/usb1/1-0:1.0/usb1-port1/disable"
       then Some (byte +:+ C.nl) else None)
    (fun _ => None) true.

(** The block as [power_init] leaves it on a Pi on which every handle
    could be created. *)
Definition initial : PowerPlugin := mkPowerPlugin 0 1 2 3 1 2 (-1) 3.

(** The operations on the block after initialisation: the two callbacks,
    the start-up checks one by one and together, and the update of the
    display. *)
Inductive operation : Type :=
| OpOvercurrent (dev : option udev_device)
| OpLowVoltage (dev : option udev_device)
| OpCheckPsu
| OpCheckBrownout
| OpCheckMemres
| OpCheckUserWarnings
| OpStartupChecks
| OpUpdateDisplay.

Definition finish {A : Type} (m : Act A) : Act unit := m ;; skip.

Definition perform (E : Env) (op : operation) : Act unit :=
  match op with
  | OpOvercurrent dev => finish (cb_overcurrent_fd E dev)
  | OpLowVoltage dev => finish (cb_lowvoltage_fd E dev)
  | OpCheckPsu => check_psu E
  | OpCheckBrownout => check_brownout E
  | OpCheckMemres => check_memres E
  | OpCheckUserWarnings => check_user_warnings E
  | OpStartupChecks => finish (startup_checks E)
  | OpUpdateDisplay => power_update_display E
  end.

(** Operations one after the other, each in the environment of its
    moment. *)
Definition perform_all (ops : list (Env * operation)) : Act unit :=
  foldr (fun op rest => perform op.1 op.2 ;; rest) skip ops.

(** Whatever [m] returns from [pt], [Q] holds of the value and the block. *)
Definition post {A : Type} (m : Act A) (pt : PowerPlugin)
  (Q : A -> PowerPlugin -> Prop) : Prop :=
  forall a pt' out, m pt = Ok (a, pt', out) -> Q a pt'.

(** From [pt] to [pt'] no bit of the flags is lost and no handle changes,
    but for the id of the start-up task, which may have been cleared. *)
Record evolves (pt pt' : PowerPlugin) : Prop := mkEvolves {
  ev_flags : bits_kept (show_icon pt) (show_icon pt');
  ev_udev : udev pt' = udev pt;
  ev_udev_mon_oc : udev_mon_oc pt' = udev_mon_oc pt;
  ev_udev_mon_lv : udev_mon_lv pt' = udev_mon_lv pt;
  ev_overcurrent_id : overcurrent_id pt' = overcurrent_id pt;
  ev_lowvoltage_id : lowvoltage_id pt' = lowvoltage_id pt;
  ev_startup_id : startup_id pt' = startup_id pt \/ startup_id pt' = 0
}.

(** The bit of [show_icon] that stands for a hazard. *)
Definition bit_of (f : hazard) : Z :=
  match f with
  | LowVoltage => 0
  | OverCurrent => 1
  | Brownout => 2
  end.

(** The sources and objects left once the one a field names is released:
    a field that is 0 (or NULL) names none. *)
Definition drop_source (id : Z) (attached : gmap Z handler) : gmap Z handler :=
  if id >? 0 then delete id attached else attached.
Definition drop_object (p : Z) (live : gset Z) : gset Z :=
  if truthy p then live ∖ {[ p ]} else live.

(** The process after the plugin whose block is [pt] has been destroyed:
    the block is freed and each source and object it held is released. *)
Definition torn_down (h : Host) (pt : PowerPlugin) : Host :=
  mkHost None
    (drop_source (startup_id pt)
       (drop_source (lowvoltage_id pt) (drop_source (overcurrent_id pt) (sources h))))
    (drop_object (udev pt)
       (drop_object (udev_mon_lv pt) (drop_object (udev_mon_oc pt) (objects h))))
    (next_id h) (next_object h) (panel h).

(** [handles_alive] spelled out. *)
Definition handles_alive_prop (h : Host) (pt : PowerPlugin) : Prop :=
  (overcurrent_id pt > 0 -> sources h !! overcurrent_id pt = Some OvercurrentFd)
  /\ (lowvoltage_id pt > 0 -> sources h !! lowvoltage_id pt = Some LowvoltageFd)
  /\ (startup_id pt > 0 -> sources h !! startup_id pt = Some StartupChecks)
  /\ (udev_mon_oc pt <> NULL -> udev_mon_oc pt ∈ objects h)
  /\ (udev_mon_lv pt <> NULL -> udev_mon_lv pt ∈ objects h)
  /\ (udev pt <> NULL -> udev pt ∈ objects h)
  /\ (udev_mon_oc pt <> NULL -> udev_mon_lv pt <> NULL -> udev_mon_oc pt <> udev_mon_lv pt)
  /\ (udev_mon_oc pt <> NULL -> udev pt <> NULL -> udev_mon_oc pt <> udev pt)
  /\ (udev_mon_lv pt <> NULL -> udev pt <> NULL -> udev_mon_lv pt <> udev pt).

(** A change event of the device hwmon3, and an environment in which its
    alarm file holds the byte [byte]. *)
Definition hwmon_event : udev_device :=
  mkDevice (Some "change") "hwmon3" "/sys/devices/platform/rpi-hwmon/hwmon/hwmon3" ∅.

Definition hwmon_env (byte : string) : Env :=
  mkEnv untranslated (fun _ => 1) (fun _ => false)
    (fun path =>
       if String.eqb path "/sys/devices/platform/rpi-hwmon/hwmon/hwmon3/in0_lcrit_alarm"
       then Some (byte +:+ C.nl) else None)
    (fun _ => None) true.

(** An environment in which the power_reset file holds [bytes]. *)
Definition reset_env (bytes : list Z) : Env :=
  mkEnv untranslated (fun _ => 1) (fun _ => false)
    (fun path =>
       if String.eqb path "/proc/device-tree/chosen/power/power_reset"
       then Some (file_of_bytes bytes) else None)
    (fun _ => None) true.

(** An environment in which the memory probe prints [mem] and the probe of
    the first output prints [res]; the second output is not connected. *)
Definition display_env (mem res : string) : Env :=
  mkEnv untranslated (fun _ => 1) (fun _ => false) (fun _ => None)
    (fun cmd =>
       if String.eqb cmd total_mem_cmd then Some (mem +:+ C.nl)
       else if String.eqb cmd hdmi_1_cmd then Some (res +:+ C.nl)
       else Some "")
    true.

Definition is_cmfive_cmd : string := "raspi-config nonint is_cmfive".

Definition PSU_NOT_5A : string :=
  "This power supply is not capable of supplying 5A"
  +:+ C.nl +:+ "Power to peripherals will be restricted".

(** An environment in which the max_current file holds [bytes] and the
    hardware-variant command exits with [status]. *)
Definition psu_env (status : Z) (bytes : list Z) : Env :=
  mkEnv untranslated (fun _ => status) (fun _ => false)
    (fun path =>
       if String.eqb path "/proc/device-tree/chosen/power/max_current"
       then Some (file_of_bytes bytes) else None)
    (fun _ => None) true.

(** The character is white space for GLib, or NUL. *)
Definition ends_word (c : ascii) : bool := C.g_ascii_isspace c || Ascii.eqb c C.NUL.

(** The path of the disable file [cb_overcurrent_fd] builds for a device. *)
Definition disable_path (dev : udev_device) : string :=
  "/sys/" +:+ C.printf_s (properties dev !! "OVER_CURRENT_PORT") +:+ "/disable".

(** A USB change event that names its port but carries no counter. *)
Definition usb_event_without_count : udev_device :=
  mkDevice (Some "change") "usb1-port1" "/sys/devices/usb1/1-0:1.0/usb1-port1"
    (<["OVER_CURRENT_PORT" := "/devices/usb1/1-0:1.0/usb1-port1"]> ∅).

(** The low-voltage callback run on each event of a sequence. *)
Definition alarms (evs : list (Env * udev_device)) : list (Env * operation) :=
  map (fun ev => (ev.1, OpLowVoltage (Some ev.2))) evs.

(** The flags are a set of hazards: no bit outside the mask 7. *)
Definition flags_in_mask (flags : Z) : Prop := 0 <= flags < 8.

(** The operation is not a run of the overcurrent callback. *)
Definition not_overcurrent (op : operation) : bool :=
  match op with
  | OpOvercurrent _ => false
  | _ => true
  end.

(** The allocators of the process are sound: the next source id and the
    next object address are positive and beyond everything alive. *)
Definition allocator_ok (h : Host) : Prop :=
  0 < next_id h /\ 0 < next_object h
  /\ (forall id cb, sources h !! id = Some cb -> id < next_id h)
  /\ (forall p, p ∈ objects h -> p < next_object h).

(** Every attached source and every live object is one the block names:
    the process holds nothing of the plugin that the block has lost track
    of. *)
Definition owned (h : Host) (pt : PowerPlugin) : Prop :=
  map_Forall (fun id cb =>
      0 < id
      /\ (id = overcurrent_id pt /\ cb = OvercurrentFd
          \/ id = lowvoltage_id pt /\ cb = LowvoltageFd
          \/ id = startup_id pt /\ cb = StartupChecks)) (sources h)
  /\ set_Forall (fun p =>
      p <> NULL /\ (p = udev_mon_oc pt \/ p = udev_mon_lv pt \/ p = udev pt)) (objects h).

#[global] Instance owned_dec (h : Host) (pt : PowerPlugin) : Decision (owned h pt).
Proof. unfold owned. apply _. Defined.

(** The number of line breaks in a text. *)
Fixpoint count_nl (s : string) : nat :=
  match s with
  | "" => O
  | String c rest => if Ascii.eqb c C.LF then S (count_nl rest) else count_nl rest
  end.

(** The text begins, or ends, with a white-space character. *)
Definition begins_with_space (s : string) : bool :=
  match s with
  | String c _ => C.g_ascii_isspace c
  | "" => false
  end.

Fixpoint ends_with_space (s : string) : bool :=
  match s with
  | "" => false
  | String c "" => C.g_ascii_isspace c
  | String _ rest => ends_with_space rest
  end.

(** Every character of the text is white space. *)
Fixpoint all_space (s : string) : bool :=
  match s with
  | "" => true
  | String c rest => C.g_ascii_isspace c && all_space rest
  end.

(** The lines glued back together. *)
Definition glue (lines : list string) : string := foldr String.append "" lines.

(** An environment in which the user-warnings file exists and holds
    [text]. *)
Definition warnings_env (text : string) : Env :=
  mkEnv untranslated (fun _ => 1)
    (fun path => String.eqb path WARN_FILE)
    (fun path => if String.eqb path WARN_FILE then Some text else None)
    (fun _ => None) true.

(* ------------------------------------------------------------------------- *)
(** ** Properties *)
(* ------------------------------------------------------------------------- *)

(** *** The library model on examples *)

Example sscanf_d_examples :
  C.sscanf_d "2048" = Some 2048 /\ C.sscanf_d " -12ab" = Some (-12)
  /\ C.sscanf_d "+7" = Some 7 /\ C.sscanf_d "x12" = None /\ C.sscanf_d "-" = None
  /\ C.sscanf_d "" = None /\ C.sscanf_d "4294967295" = Some (-1).
Proof. repeat split. Qed.

Example sscanf_dxd_examples :
  C.sscanf_dxd "1920x1080" = Some (1920, 1080) /\ C.sscanf_dxd "1920 x1080" = None
  /\ C.sscanf_dxd "1920x" = None /\ C.sscanf_dxd "1920" = None
  /\ C.sscanf_dxd "3840x2160@60" = Some (3840, 2160).
Proof. repeat split. Qed.

Example getlines_example :
  C.getlines ("first" +:+ C.nl +:+ C.nl +:+ "last") = ["first" +:+ C.nl; C.nl; "last"]
  /\ C.getline ("first" +:+ C.nl +:+ "last") = Some ("first" +:+ C.nl, "last")
  /\ C.getline "" = None.
Proof. repeat split. Qed.

Example g_strstrip_example : C.g_strstrip ("  low power " +:+ C.nl) = "low power".
Proof. reflexivity. Qed.

Example read_val_examples :
  read_val (file_of_bytes [0; 0; 19; 135]) = 4999
  /\ read_val (file_of_bytes [1; 2; 3; 4]) = 0x01020304
  /\ read_val (file_of_bytes [0; 0]) = 0xFFFF
  /\ read_val "" = -1.
Proof. repeat split. Qed.

(** *** Strings *)

Lemma ends_with_nl_cons (c : ascii) (s : string) :
  s <> "" -> ends_with_nl (String c s) = ends_with_nl s.
Proof. destruct s; [congruence | reflexivity]. Qed.

Lemma append_nil (b : string) : "" +:+ b = b.
Proof. reflexivity. Qed.

Lemma append_cons (c : ascii) (a b : string) : String c a +:+ b = String c (a +:+ b).
Proof. reflexivity. Qed.

Lemma append_empty (a : string) : a +:+ "" = a.
Proof. induction a as [| c a IH]; [reflexivity |]. rewrite append_cons, IH. reflexivity. Qed.

Lemma ends_with_nl_app (a b : string) :
  ends_with_nl (a +:+ b) = if decide (b = "") then ends_with_nl a else ends_with_nl b.
Proof.
  destruct (decide (b = "")) as [-> | Hb].
  - rewrite append_empty. reflexivity.
  - induction a as [| c a IH]; [reflexivity |].
    rewrite append_cons. cbn [ends_with_nl]. rewrite IH.
    destruct a; [| reflexivity].
    rewrite append_nil. destruct b; [congruence | reflexivity].
Qed.

Lemma ends_with_nl_drop_last (s : string) :
  ends_with_nl s = true -> s = drop_last s +:+ C.nl.
Proof.
  induction s as [| c s IH]; [discriminate |].
  destruct s as [| d s].
  - cbn [ends_with_nl drop_last]. intros H. apply Ascii.eqb_eq in H. subst c. reflexivity.
  - intros H. change (drop_last (String c (String d s))) with (String c (drop_last (String d s))).
    rewrite append_cons. f_equal. apply IH. exact H.
Qed.

Lemma drop_last_app_nl (s : string) : drop_last (s +:+ C.nl) = s.
Proof.
  induction s as [| c s IH]; [reflexivity |].
  rewrite append_cons. cbn [drop_last]. rewrite IH.
  destruct s; reflexivity.
Qed.

Lemma substring_drop_last (s : string) :
  s <> "" -> substring 0 (Z.to_nat (C.strlen s - 1)) s = drop_last s.
Proof.
  unfold C.strlen. induction s as [| c s IH]; [congruence |]. intros _.
  destruct s as [| d s].
  - reflexivity.
  - replace (Z.to_nat (Z.of_nat (String.length (String c (String d s))) - 1))
      with (S (Z.to_nat (Z.of_nat (String.length (String d s)) - 1)))
      by (cbn [String.length]; lia).
    cbn [substring drop_last]. f_equal. apply IH. congruence.
Qed.

(** *** The icon driver *)

Ltac run_act :=
  cbv beta iota zeta delta
    [mbind mret Act_bind Act_ret get put emit skip crash wrap_notify wrap_critical
     wrap_set_taskbar_icon gtk_widget_set_sensitive gtk_widget_hide
     gtk_widget_show_all gtk_widget_set_tooltip_text].

Ltac run_act_in H :=
  cbv beta iota zeta delta
    [mbind mret Act_bind Act_ret get put emit skip crash wrap_notify wrap_critical
     wrap_set_taskbar_icon gtk_widget_set_sensitive gtk_widget_hide
     gtk_widget_show_all gtk_widget_set_tooltip_text] in H.

Lemma tooltip_concat_parts (E : Env) (flags : Z) :
  tooltip_concat E flags =
  tooltip_part E flags LowVoltage +:+ tooltip_part E flags OverCurrent
  +:+ tooltip_part E flags Brownout.
Proof.
  unfold tooltip_concat, C.g_strconcat. cbn [fold_right].
  rewrite append_empty. reflexivity.
Qed.

Lemma tooltip_msgid_ends (f : hazard) : ends_with_nl (tooltip_msgid f) = true.
Proof. destruct f; reflexivity. Qed.

Lemma tooltip_part_ends (E : Env) (flags : Z) (f : hazard) :
  keeps_line_breaks (gettext E) -> has_flag flags f = true ->
  ends_with_nl (tooltip_part E flags f) = true.
Proof.
  intros Hcat Hf. unfold tooltip_part. rewrite Hf.
  apply Hcat, tooltip_msgid_ends.
Qed.

Lemma tooltip_part_empty (E : Env) (flags : Z) (f : hazard) :
  has_flag flags f = false -> tooltip_part E flags f = "".
Proof. intros Hf. unfold tooltip_part. rewrite Hf. reflexivity. Qed.

Lemma ends_with_nl_nonempty (s : string) : ends_with_nl s = true -> s <> "".
Proof. destruct s; [discriminate | congruence]. Qed.

Lemma tooltip_concat_ends (E : Env) (flags : Z) :
  keeps_line_breaks (gettext E) ->
  (exists f, has_flag flags f = true) ->
  ends_with_nl (tooltip_concat E flags) = true.
Proof.
  intros Hcat [f Hf]. rewrite tooltip_concat_parts, !ends_with_nl_app.
  destruct (has_flag flags Brownout) eqn:Hbo.
  { pose proof (tooltip_part_ends E flags Brownout Hcat Hbo) as Hend.
    rewrite decide_False by (apply ends_with_nl_nonempty; rewrite ends_with_nl_app;
      rewrite decide_False by (apply ends_with_nl_nonempty, Hend); exact Hend).
    rewrite decide_False by (apply ends_with_nl_nonempty, Hend). exact Hend. }
  rewrite (tooltip_part_empty E flags Brownout Hbo), !append_empty.
  destruct (has_flag flags OverCurrent) eqn:Hoc.
  { pose proof (tooltip_part_ends E flags OverCurrent Hcat Hoc) as Hend.
    rewrite !decide_False by (apply ends_with_nl_nonempty, Hend). exact Hend. }
  rewrite (tooltip_part_empty E flags OverCurrent Hoc).
  rewrite !decide_True by reflexivity.
  destruct f; try congruence. apply tooltip_part_ends; assumption.
Qed.

Lemma has_flag_nonzero (flags : Z) (f : hazard) : has_flag flags f = true -> flags <> 0.
Proof.
  unfold has_flag, truthy. intros H ->. rewrite Z.land_0_l in H. discriminate.
Qed.

Lemma update_icon_hidden (E : Env) (pt : PowerPlugin) :
  show_icon pt = 0 -> update_icon E pt = Ok (tt, pt, icon_hidden).
Proof. intros H. unfold update_icon. run_act. rewrite H. reflexivity. Qed.

Lemma store_nul_last (s : string) (pt : PowerPlugin) :
  s <> "" -> store_nul s (last_index s) pt = Ok (drop_last s, pt, []).
Proof.
  intros Hs. unfold store_nul, last_index.
  assert (1 <= C.strlen s) by (unfold C.strlen; destruct s; [congruence | cbn [String.length]; lia]).
  replace ((0 <=? C.strlen s - 1) && (C.strlen s - 1 <=? C.strlen s)) with true
    by (symmetry; apply andb_true_iff; split; apply Z.leb_le; lia).
  rewrite substring_drop_last by assumption. reflexivity.
Qed.

Lemma store_nul_empty (pt : PowerPlugin) :
  store_nul "" (last_index "") pt = Crash OutOfBounds.
Proof. reflexivity. Qed.

Lemma update_icon_shown (E : Env) (pt : PowerPlugin) :
  keeps_line_breaks (gettext E) ->
  (exists f, has_flag (show_icon pt) f = true) ->
  update_icon E pt = Ok (tt, pt, icon_shown E (show_icon pt)).
Proof.
  intros Hcat Hf.
  pose proof (tooltip_concat_ends E _ Hcat Hf) as Hend.
  destruct Hf as [f Hf]. apply has_flag_nonzero in Hf.
  unfold update_icon. run_act.
  assert (truthy (show_icon pt) = true) as ->
    by (unfold truthy; apply negb_true_iff, Z.eqb_neq, Hf).
  cbn [negb]. rewrite store_nul_last by (apply ends_with_nl_nonempty, Hend).
  reflexivity.
Qed.

Lemma append_assoc (a b c : string) : (a +:+ b) +:+ c = a +:+ (b +:+ c).
Proof.
  induction a as [| x a IH]; [reflexivity |].
  rewrite !append_cons, IH. reflexivity.
Qed.

Lemma canned_line_nl (E : Env) (f : hazard) :
  keeps_line_breaks (gettext E) ->
  canned_line E f +:+ C.nl = gettext E (tooltip_msgid f).
Proof.
  intros Hcat. unfold canned_line. symmetry.
  apply ends_with_nl_drop_last, Hcat, tooltip_msgid_ends.
Qed.

Lemma spec_tooltip_concat (E : Env) (flags : Z) :
  keeps_line_breaks (gettext E) ->
  spec_tooltip E flags = drop_last (tooltip_concat E flags).
Proof.
  intros Hcat. unfold spec_tooltip, hazards. f_equal.
  rewrite tooltip_concat_parts. unfold tooltip_part.
  rewrite !filter_cons, filter_nil.
  destruct (has_flag flags LowVoltage), (has_flag flags OverCurrent),
    (has_flag flags Brownout);
    repeat first [ rewrite decide_True by reflexivity
                 | rewrite decide_False by discriminate ];
    cbn [map C.g_strconcat fold_right];
    rewrite ?canned_line_nl by assumption;
    rewrite ?append_empty, ?append_nil; reflexivity.
Qed.

Lemma flag_set_cases (flags : Z) :
  0 <= flags < 8 -> flags <> 0 -> exists f, has_flag flags f = true.
Proof.
  intros Hr Hn.
  assert (flags = 1 \/ flags = 2 \/ flags = 3 \/ flags = 4 \/ flags = 5
          \/ flags = 6 \/ flags = 7) as Hc by lia.
  destruct Hc as [-> | [-> | [-> | [-> | [-> | [-> | ->]]]]]];
    first [ exists LowVoltage; reflexivity
          | exists OverCurrent; reflexivity
          | exists Brownout; reflexivity ].
Qed.

(** C10. Whenever [update_icon] runs with at least one hazard flag set, the
    concatenated tooltip is not empty and ends in a line break, so the
    store at index length - 1 is within the string and removes exactly
    that line break; with no flag set the icon is hidden and the store,
    which would be out of bounds on the empty concatenation, is not
    reached; over the flag sets [update_icon] never crashes. The message
    catalogue is assumed to keep final line breaks. *)
Theorem tooltip_truncation_in_bounds (E : Env) (pt : PowerPlugin) :
  keeps_line_breaks (gettext E) ->
  ((exists f, has_flag (show_icon pt) f = true) ->
   let tooltip := tooltip_concat E (show_icon pt) in
   tooltip <> ""
   /\ ends_with_nl tooltip = true
   /\ 0 <= last_index tooltip < C.strlen tooltip
   /\ store_nul tooltip (last_index tooltip) pt = Ok (drop_last tooltip, pt, [])
   /\ drop_last tooltip +:+ C.nl = tooltip
   /\ update_icon E pt = Ok (tt, pt, icon_shown E (show_icon pt)))
  /\ (show_icon pt = 0 ->
      tooltip_concat E (show_icon pt) = ""
      /\ store_nul "" (last_index "") pt = Crash OutOfBounds
      /\ update_icon E pt = Ok (tt, pt, icon_hidden))
  /\ (0 <= show_icon pt < 8 -> exists out, update_icon E pt = Ok (tt, pt, out)).
Proof.
  intros Hcat. split; [| split].
  - intros Hf tooltip.
    pose proof (tooltip_concat_ends E _ Hcat Hf) as Hend. fold tooltip in Hend.
    pose proof (ends_with_nl_nonempty _ Hend) as Hne.
    repeat split.
    + exact Hne.
    + exact Hend.
    + unfold last_index, C.strlen. destruct tooltip; [congruence | cbn [String.length]; lia].
    + unfold last_index. lia.
    + apply store_nul_last, Hne.
    + symmetry. apply ends_with_nl_drop_last, Hend.
    + apply update_icon_shown; assumption.
  - intros H0. rewrite H0. repeat split. apply update_icon_hidden, H0.
  - intros Hr. destruct (decide (show_icon pt = 0)) as [H0 | Hn].
    + eexists. apply update_icon_hidden, H0.
    + eexists. apply update_icon_shown; [assumption |]. apply flag_set_cases; assumption.
Qed.

(** C4. For every set of hazard flags [update_icon] shows the icon exactly
    when the set is not empty. When it does, the tooltip is the
    concatenation, in the order LowVoltage, OverCurrent, Brownout, of the
    canned line of each set flag followed by a line break, less the final
    line break; for the set of LowVoltage and OverCurrent that is the
    low-voltage line, a line break and the overcurrent line. When the set
    is empty the icon is hidden and no tooltip is set. The message
    catalogue is assumed to keep final line breaks. *)
Theorem update_icon_contract (E : Env) (pt : PowerPlugin) :
  keeps_line_breaks (gettext E) ->
  0 <= show_icon pt < 8 ->
  let flags := show_icon pt in
  let out :=
    if flags =? 0 then [SetTaskbarIcon "under-volt"; SetSensitive false; Hide]
    else [SetTaskbarIcon "under-volt"; SetSensitive true; ShowAll;
          SetTooltipText (spec_tooltip E flags)] in
  update_icon E pt = Ok (tt, pt, out)
  /\ (In ShowAll out <-> flags <> 0)
  /\ (In Hide out <-> flags = 0)
  /\ ((exists text, In (SetTooltipText text) out) <-> flags <> 0)
  /\ (flags = Z.lor ICON_LOW_VOLTAGE ICON_OVER_CURRENT ->
      spec_tooltip E flags
      = canned_line E LowVoltage +:+ C.nl +:+ canned_line E OverCurrent).
Proof.
  intros Hcat Hr flags out. subst out.
  destruct (Z.eqb_spec flags 0) as [H0 | Hn].
  - split; [apply update_icon_hidden, H0 |].
    split; [cbn [In]; intuition discriminate |].
    split; [cbn [In]; intuition discriminate |].
    split.
    + split; [| contradiction].
      intros [text Hin]. cbn [In] in Hin. intuition discriminate.
    + intros H3. rewrite H3 in H0. discriminate.
  - split.
    { rewrite spec_tooltip_concat by assumption.
      apply update_icon_shown; [assumption |]. apply flag_set_cases; assumption. }
    split; [cbn [In]; intuition discriminate |].
    split; [cbn [In]; intuition discriminate |].
    split.
    + split; [intros _; assumption |].
      intros _. eexists. cbn [In]. do 3 right. left. reflexivity.
    + intros ->. unfold spec_tooltip, hazards.
      rewrite !filter_cons, filter_nil.
      rewrite !decide_True by reflexivity. rewrite decide_False by discriminate.
      cbn [map C.g_strconcat fold_right].
      rewrite append_empty, <- append_assoc, drop_last_app_nl.
      apply append_assoc.
Qed.

(** *** Raising a flag *)

Lemma land_lor_same (x m : Z) : Z.land (Z.lor x m) m = m.
Proof.
  apply Z.bits_inj'. intros i _. rewrite Z.land_spec, Z.lor_spec.
  destruct (Z.testbit x i), (Z.testbit m i); reflexivity.
Qed.

Lemma has_flag_raised (flags : Z) (f : hazard) : has_flag (Z.lor flags (mask f)) f = true.
Proof. unfold has_flag. rewrite land_lor_same. destruct f; reflexivity. Qed.

Lemma update_icon_raised (E : Env) (pt : PowerPlugin) (f : hazard) :
  keeps_line_breaks (gettext E) ->
  let pt' := set_show_icon (Z.lor (show_icon pt) (mask f)) pt in
  update_icon E pt' = Ok (tt, pt', icon_shown E (show_icon pt')).
Proof.
  intros Hcat pt'. apply update_icon_shown; [assumption |].
  exists f. apply has_flag_raised.
Qed.

Lemma code_inj (c d : ascii) : C.code c = C.code d -> c = d.
Proof.
  unfold C.code. intros H. apply N2Z.inj in H.
  rewrite <- (ascii_N_embedding c), <- (ascii_N_embedding d), H. reflexivity.
Qed.

Lemma fgetc_is (fp : string) (c : ascii) :
  (fst (C.fgetc fp) =? C.code c) = true <-> exists rest, fp = String c rest.
Proof.
  destruct fp as [| d rest]; cbn [C.fgetc fst].
  - split; [| intros [? ?]; discriminate].
    intros H. apply Z.eqb_eq in H. unfold C.EOF, C.code in H. lia.
  - rewrite Z.eqb_eq. split.
    + intros H. apply code_inj in H. subst. eauto.
    + intros [? H]. injection H as -> _. reflexivity.
Qed.

Lemma g_strcmp0_eq_spec (a : option string) (b : string) :
  C.g_strcmp0_eq a b = true <-> a = Some b.
Proof.
  destruct a as [s |]; cbn [C.g_strcmp0_eq].
  - rewrite String.eqb_eq. split; congruence.
  - split; discriminate.
Qed.

Lemma substring_whole (p : string) : substring 0 (String.length p) p = p.
Proof. induction p as [| c p IH]; [reflexivity |]. cbn. rewrite IH. reflexivity. Qed.

Lemma substring_0_0 (s : string) : substring 0 0 s = "".
Proof. destruct s; reflexivity. Qed.

Lemma strncmp_eq_spec (p s : string) :
  C.strncmp_eq s p (String.length p) = true <-> begins_with p s.
Proof.
  unfold C.strncmp_eq, begins_with. rewrite substring_whole. revert s.
  induction p as [| c p IH]; intros s.
  - rewrite substring_0_0. split; [| reflexivity]. intros _. exists s. reflexivity.
  - destruct s as [| d s].
    + split; [discriminate | intros [rest H]; discriminate].
    + cbn [String.length substring String.eqb].
      destruct (Ascii.eqb_spec d c) as [-> | Hne].
      * rewrite IH. split.
        -- intros [rest ->]. exists rest. reflexivity.
        -- intros [rest H]. rewrite append_cons in H. injection H as ->.
           exists rest. reflexivity.
      * split; [discriminate |]. intros [rest H].
        rewrite append_cons in H. congruence.
Qed.

(** *** The low-voltage callback *)

Lemma first_byte_spec (E : Env) (path : string) (c : ascii) :
  first_byte E path = Some c <->
  exists fp, fopen E path = Some fp /\ (fst (C.fgetc fp) =? C.code c) = true.
Proof.
  unfold first_byte. split.
  - destruct (fopen E path) as [[| d rest] |]; try discriminate.
    intros [= ->]. eexists. split; [reflexivity |]. apply fgetc_is. eauto.
  - intros (fp & -> & H). apply fgetc_is in H as [rest ->]. reflexivity.
Qed.

Lemma cb_lowvoltage_fd_quiet (E : Env) (dev : udev_device) (pt : PowerPlugin) :
  ~ low_voltage_alarm E dev ->
  cb_lowvoltage_fd E (Some dev) pt = Ok (G_SOURCE_CONTINUE, pt, []).
Proof.
  intros Hno. unfold cb_lowvoltage_fd, udev_device_get_action, udev_device_get_sysname,
    udev_device_get_syspath.
  destruct (C.g_strcmp0_eq (action dev) "change") eqn:Hact; [| reflexivity].
  destruct (C.strncmp_eq (sysname dev) "hwmon" 5) eqn:Hname; [| reflexivity].
  cbn [andb].
  destruct (fopen E (syspath dev +:+ "/in0_lcrit_alarm")) as [fp |] eqn:Hopen; [| reflexivity].
  destruct (fst (C.fgetc fp) =? 49) eqn:Hbyte; [| reflexivity].
  exfalso. apply Hno. split; [| split].
  - apply g_strcmp0_eq_spec, Hact.
  - apply (strncmp_eq_spec "hwmon"), Hname.
  - apply first_byte_spec. exists fp. split; assumption.
Qed.

Lemma cb_lowvoltage_fd_alarm (E : Env) (dev : udev_device) (pt : PowerPlugin) :
  keeps_line_breaks (gettext E) ->
  low_voltage_alarm E dev ->
  let pt' := set_show_icon (Z.lor (show_icon pt) ICON_LOW_VOLTAGE) pt in
  cb_lowvoltage_fd E (Some dev) pt
  = Ok (G_SOURCE_CONTINUE, pt',
        Critical (gettext E LOW_VOLTAGE_WARNING) :: icon_shown E (show_icon pt')).
Proof.
  intros Hcat (Hact & Hname & Hbyte) pt'.
  apply g_strcmp0_eq_spec in Hact. apply (strncmp_eq_spec "hwmon") in Hname.
  apply first_byte_spec in Hbyte as (fp & Hopen & Hbyte).
  unfold cb_lowvoltage_fd, udev_device_get_action, udev_device_get_sysname,
    udev_device_get_syspath.
  cbn [String.length] in Hname. rewrite Hact, Hname. cbn [andb].
  rewrite Hopen. change (C.code "1") with 49 in Hbyte. rewrite Hbyte.
  run_act. fold pt'.
  pose proof (update_icon_raised E pt LowVoltage Hcat) as Hicon.
  cbv zeta in Hicon. change (mask LowVoltage) with ICON_LOW_VOLTAGE in Hicon.
  fold pt' in Hicon. rewrite Hicon. cbn [app]. rewrite app_nil_r. reflexivity.
Qed.

(** C2. For every hwmon device event the low-voltage callback emits a
    Critical notification and sets the LowVoltage flag if and only if the
    action is "change", the sysname begins with "hwmon" and the first byte
    of <syspath>/in0_lcrit_alarm is the character 1; otherwise (the byte is
    not 1, or the action is not "change" whatever the byte) nothing is
    emitted and the state does not change. The message catalogue is
    assumed to keep final line breaks. *)
Theorem cb_lowvoltage_fd_filter (E : Env) (dev : udev_device) (pt : PowerPlugin) :
  keeps_line_breaks (gettext E) ->
  exists pt' out,
    cb_lowvoltage_fd E (Some dev) pt = Ok (G_SOURCE_CONTINUE, pt', out)
    /\ (notifications out = [Critical (gettext E LOW_VOLTAGE_WARNING)]
        /\ pt' = set_show_icon (Z.lor (show_icon pt) ICON_LOW_VOLTAGE) pt
        /\ has_flag (show_icon pt') LowVoltage = true
        <-> low_voltage_alarm E dev)
    /\ (~ low_voltage_alarm E dev -> out = [] /\ pt' = pt)
    /\ (action dev <> Some "change" -> out = [] /\ pt' = pt)
    /\ (first_byte E (syspath dev +:+ "/in0_lcrit_alarm") <> Some "1"%char ->
        out = [] /\ pt' = pt).
Proof.
  intros Hcat.
  assert (Hdec : low_voltage_alarm E dev \/ ~ low_voltage_alarm E dev).
  { unfold low_voltage_alarm.
    destruct (decide (action dev = Some "change")); [| tauto].
    destruct (C.strncmp_eq (sysname dev) "hwmon" 5) eqn:Hname.
    - apply (strncmp_eq_spec "hwmon") in Hname.
      destruct (decide (first_byte E (syspath dev +:+ "/in0_lcrit_alarm") = Some "1"%char));
        tauto.
    - right. intros (_ & Hn & _). apply (strncmp_eq_spec "hwmon") in Hn.
      cbn [String.length] in Hn. congruence. }
  destruct Hdec as [Hyes | Hno].
  - eexists _, _. split; [apply cb_lowvoltage_fd_alarm; assumption |].
    split; [| split; [| split]].
    + split; [intros _; exact Hyes |]. intros _.
      split; [reflexivity |]. split; [reflexivity |].
      apply (has_flag_raised _ LowVoltage).
    + intros Hn. contradiction.
    + intros Hn. destruct Hyes as (H & _). contradiction.
    + intros Hn. destruct Hyes as (_ & _ & H). contradiction.
  - eexists _, _. split; [apply cb_lowvoltage_fd_quiet; assumption |].
    split; [| split; [| split]]; try (intros _; split; reflexivity).
    split; [| intros H; contradiction].
    intros (H & _). discriminate.
Qed.

(** *** The start-up checks *)

Lemma check_psu_total (E : Env) (pt : PowerPlugin) :
  exists out, check_psu E pt = Ok (tt, pt, out).
Proof.
  unfold check_psu.
  destruct (system E _ =? 0); [eexists; reflexivity |].
  destruct (fopen E _) as [fp |]; [| eexists; reflexivity].
  destruct (read_val fp <? 5000); eexists; reflexivity.
Qed.

Lemma notify_each (lines : list string) (pt : PowerPlugin) :
  foldr (fun buf rest => wrap_notify (C.g_strstrip buf) ;; rest) skip lines pt
  = Ok (tt, pt, map (fun buf => Notify (C.g_strstrip buf)) lines).
Proof.
  induction lines as [| buf lines IH]; [reflexivity |].
  cbn [foldr map]. run_act. run_act_in IH. rewrite IH. reflexivity.
Qed.

Lemma check_user_warnings_total (E : Env) (pt : PowerPlugin) :
  exists out, check_user_warnings E pt = Ok (tt, pt, out).
Proof.
  unfold check_user_warnings.
  destruct (access E WARN_FILE); [| eexists; reflexivity].
  destruct (fopen E WARN_FILE) as [fp |]; [| eexists; reflexivity].
  eexists. apply notify_each.
Qed.

Lemma probe_height_max (E : Env) (cmd : string) (max_h : Z) :
  probe_height E cmd max_h
  = match probed_height E cmd with
    | Some h => Z.max h max_h
    | None => max_h
    end.
Proof.
  unfold probe_height, probed_height.
  destruct (get_string E cmd) as [res |]; [| reflexivity]. cbn.
  destruct (C.sscanf_dxd res) as [[width height] |]; [| reflexivity]. cbn.
  destruct (Z.gtb_spec height max_h); lia.
Qed.

Lemma probe_heights_max (E : Env) :
  probe_height E hdmi_2_cmd (probe_height E hdmi_1_cmd 0) = max_height E.
Proof.
  rewrite !probe_height_max. unfold max_height. cbn [omap list_omap].
  destruct (probed_height E hdmi_1_cmd), (probed_height E hdmi_2_cmd);
    cbn [foldr]; lia.
Qed.

Lemma check_memres_run (E : Env) (pt : PowerPlugin) :
  check_memres E pt
  = Ok (tt, pt,
        match probed_mem E with
        | Some mem =>
            if mem_in_range mem && (RES_HEIGHT_THRESHOLD <? max_height E)
            then [Notify (gettext E HIGH_RESOLUTION)] else []
        | None => []
        end).
Proof.
  unfold check_memres, probed_mem.
  destruct (get_string E total_mem_cmd) as [res |]; [| reflexivity]. cbn [mbind option_bind].
  destruct (C.sscanf_d res) as [mem |]; [| reflexivity].
  rewrite probe_heights_max. unfold mem_in_range.
  destruct (Z.ltb_spec mem 256), (Z.gtb_spec mem MEM_WARN_THRESHOLD),
    (Z.leb_spec 256 mem), (Z.leb_spec mem MEM_WARN_THRESHOLD); try lia;
    cbn [orb andb]; try reflexivity.
  destruct (Z.gtb_spec (max_height E) RES_HEIGHT_THRESHOLD),
    (Z.ltb_spec RES_HEIGHT_THRESHOLD (max_height E)); try lia; reflexivity.
Qed.

(** C8. For every probed memory value and maximum probed display height
    the check emits exactly one Advisory if and only if the memory lies in
    the warning range 256..2048 and the height exceeds 1200: one Advisory
    for 2048 and 1201, none for 2048 and 1200, none for 2049 or 255 at any
    height. A probe that returns no data or an unparseable field is
    skipped: the check still completes, without the reading. *)
Theorem check_memres_advisory (E : Env) (pt : PowerPlugin) :
  (forall mem, probed_mem E = Some mem ->
     exists out, check_memres E pt = Ok (tt, pt, out)
       /\ (out = [Notify (gettext E HIGH_RESOLUTION)]
           <-> 256 <= mem <= 2048 /\ max_height E > 1200)
       /\ (out = [] <-> ~ (256 <= mem <= 2048 /\ max_height E > 1200)))
  /\ (probed_mem E = Some 2048 -> max_height E = 1201 ->
      check_memres E pt = Ok (tt, pt, [Notify (gettext E HIGH_RESOLUTION)]))
  /\ (probed_mem E = Some 2048 -> max_height E = 1200 ->
      check_memres E pt = Ok (tt, pt, []))
  /\ (probed_mem E = Some 2049 -> check_memres E pt = Ok (tt, pt, []))
  /\ (probed_mem E = Some 255 -> check_memres E pt = Ok (tt, pt, []))
  /\ (probed_mem E = None -> check_memres E pt = Ok (tt, pt, []))
  /\ (forall cmd max_h, probed_height E cmd = None -> probe_height E cmd max_h = max_h).
Proof.
  rewrite check_memres_run. repeat apply conj.
  - intros mem ->. eexists. split; [reflexivity |].
    unfold mem_in_range, MEM_WARN_THRESHOLD, RES_HEIGHT_THRESHOLD.
    destruct (Z.leb_spec 256 mem) as [Ha | Ha], (Z.leb_spec mem 2048) as [Hb | Hb],
      (Z.ltb_spec 1200 (max_height E)) as [Hc | Hc]; cbn [andb];
      (split; split; intros Hx;
       first [ discriminate | reflexivity | lia | intros Hy; lia
             | exfalso; apply Hx; lia ]).
  - intros -> ->. reflexivity.
  - intros -> ->. reflexivity.
  - intros ->. reflexivity.
  - intros ->. reflexivity.
  - intros ->. reflexivity.
  - intros cmd max_h H. rewrite probe_height_max, H. reflexivity.
Qed.

Lemma check_brownout_reset (E : Env) (pt : PowerPlugin) (fp : string) :
  keeps_line_breaks (gettext E) ->
  fopen E (POWER_PATH +:+ "power_reset") = Some fp ->
  low_power_reset fp = true ->
  let pt' := set_show_icon (Z.lor (show_icon pt) ICON_BROWNOUT) pt in
  check_brownout E pt
  = Ok (tt, pt', Critical (gettext E LOW_POWER_RESET) :: icon_shown E (show_icon pt')).
Proof.
  intros Hcat Hopen Hbit pt'. unfold check_brownout. rewrite Hopen.
  unfold low_power_reset in Hbit. cbv zeta. rewrite Hbit.
  run_act. fold pt'.
  pose proof (update_icon_raised E pt Brownout Hcat) as Hicon.
  cbv zeta in Hicon. change (mask Brownout) with ICON_BROWNOUT in Hicon.
  fold pt' in Hicon. rewrite Hicon. reflexivity.
Qed.

Lemma check_brownout_quiet (E : Env) (pt : PowerPlugin) :
  (forall fp, fopen E (POWER_PATH +:+ "power_reset") = Some fp -> low_power_reset fp = false) ->
  check_brownout E pt = Ok (tt, pt, []).
Proof.
  intros Hno. unfold check_brownout.
  destruct (fopen E _) as [fp |]; [| reflexivity].
  specialize (Hno fp eq_refl). unfold low_power_reset in Hno. cbv zeta.
  rewrite Hno. reflexivity.
Qed.

(** C7. When the power_reset file can be read and bit 0x02 of its value is
    set, the brown-out check emits exactly one Critical notification and
    sets the Brownout flag (so for the value 0x02); when the bit is clear
    (so for the value 0x00) or the file is absent it emits nothing and
    changes nothing. The other start-up checks leave the whole block, and
    so the hazard flags, as they found it. The message catalogue is
    assumed to keep final line breaks. *)
Theorem check_brownout_flag (E : Env) (pt : PowerPlugin) :
  keeps_line_breaks (gettext E) ->
  (forall fp, fopen E (POWER_PATH +:+ "power_reset") = Some fp ->
     Z.land (read_val fp) 0x02 <> 0 ->
     exists out,
       check_brownout E pt
       = Ok (tt, set_show_icon (Z.lor (show_icon pt) ICON_BROWNOUT) pt, out)
       /\ notifications out = [Critical (gettext E LOW_POWER_RESET)]
       /\ has_flag (Z.lor (show_icon pt) ICON_BROWNOUT) Brownout = true)
  /\ (forall fp, fopen E (POWER_PATH +:+ "power_reset") = Some fp ->
        Z.land (read_val fp) 0x02 = 0 ->
        check_brownout E pt = Ok (tt, pt, []))
  /\ (fopen E (POWER_PATH +:+ "power_reset") = None ->
      check_brownout E pt = Ok (tt, pt, []))
  /\ Z.land (read_val (file_of_bytes [0; 0; 0; 2])) 0x02 <> 0
  /\ Z.land (read_val (file_of_bytes [0; 0; 0; 0])) 0x02 = 0
  /\ (exists out, check_psu E pt = Ok (tt, pt, out))
  /\ (exists out, check_memres E pt = Ok (tt, pt, out))
  /\ (exists out, check_user_warnings E pt = Ok (tt, pt, out)).
Proof.
  intros Hcat. repeat apply conj.
  - intros fp Hopen Hbit. eexists. split; [| split].
    + apply (check_brownout_reset E pt fp Hcat Hopen).
      unfold low_power_reset, truthy. apply negb_true_iff, Z.eqb_neq, Hbit.
    + reflexivity.
    + apply (has_flag_raised _ Brownout).
  - intros fp Hopen Hbit. apply check_brownout_quiet.
    intros fp' Hopen'. rewrite Hopen in Hopen'. injection Hopen' as <-.
    unfold low_power_reset, truthy. rewrite Hbit. reflexivity.
  - intros Hopen. apply check_brownout_quiet. intros fp Hfp. congruence.
  - discriminate.
  - reflexivity.
  - apply check_psu_total.
  - eexists. apply check_memres_run.
  - apply check_user_warnings_total.
Qed.

(** *** The shell probe *)

Lemma c_str_erase_space (line : string) :
  C.c_str (erase_space line) = before_space line.
Proof.
  induction line as [| c line IH]; [reflexivity |].
  cbn [erase_space before_space].
  destruct (Ascii.eqb c C.NUL) eqn:Hnul.
  - rewrite orb_true_r. cbn [C.c_str]. rewrite Hnul. reflexivity.
  - rewrite orb_false_r. destruct (C.g_ascii_isspace c); cbn [C.c_str].
    + reflexivity.
    + rewrite Hnul, IH. reflexivity.
Qed.

Lemma get_string_run (E : Env) (cmd : string) :
  get_string E cmd
  = match popen E cmd with
    | Some (String c rest) => Some (before_space (fst (C.read_line (String c rest))))
    | _ => None
    end.
Proof.
  unfold get_string. destruct (popen E cmd) as [[| c rest] |]; try reflexivity.
  cbn [C.getline]. destruct (C.read_line (String c rest)) as [line rest'].
  rewrite c_str_erase_space. reflexivity.
Qed.

Lemma before_space_plain (word rest : string) (c : ascii) :
  plain_word word = true -> C.g_ascii_isspace c = true ->
  before_space (word +:+ String c rest) = word.
Proof.
  intros Hw Hc. induction word as [| d word IH].
  - rewrite append_nil. cbn [before_space]. rewrite Hc. reflexivity.
  - cbn [plain_word] in Hw. apply andb_true_iff in Hw as [Hd Hw].
    apply negb_true_iff in Hd. rewrite append_cons. cbn [before_space].
    rewrite Hd, IH by assumption. reflexivity.
Qed.

Lemma read_line_plain (word rest : string) :
  plain_word word = true ->
  C.read_line (word +:+ C.nl +:+ rest) = (word +:+ C.nl, rest).
Proof.
  intros Hw. induction word as [| d word IH].
  - reflexivity.
  - cbn [plain_word] in Hw. apply andb_true_iff in Hw as [Hd Hw].
    rewrite !append_cons. cbn [C.read_line].
    destruct (Ascii.eqb_spec d C.LF) as [-> | _]; [discriminate |].
    rewrite IH by assumption. reflexivity.
Qed.

Lemma remove_space_plain (word : string) :
  plain_word word = true -> remove_space (word +:+ C.nl) = word.
Proof.
  intros Hw. induction word as [| d word IH]; [reflexivity |].
  cbn [plain_word] in Hw. apply andb_true_iff in Hw as [Hd Hw].
  apply negb_true_iff, orb_false_iff in Hd as [Hd _].
  rewrite append_cons. cbn [remove_space]. rewrite Hd, IH by assumption. reflexivity.
Qed.

(** C9, as the claim states it, fails: of the output "12 34" the probe
    returns "12", the text before the first white space, where removing
    all white space from the line gives "1234". *)
Lemma get_string_cuts_at_space :
  get_string (probe_env ("12 34" +:+ C.nl)) "probe" = Some "12"
  /\ spec_run_probe (probe_env ("12 34" +:+ C.nl)) "probe" = Some "1234"
  /\ get_string (probe_env ("12 34" +:+ C.nl)) "probe"
     <> spec_run_probe (probe_env ("12 34" +:+ C.nl)) "probe".
Proof. repeat split. discriminate. Qed.

(** C9, amended. The probe captures only the first line of the output and
    returns the text of that line before its first white-space character
    (the line break counts; a NUL byte ends the text too); it returns no
    value exactly when the pipeline fails to launch or the output is
    empty. When the line is a word followed by its line break, that is the
    word, as removing all white space gives. A string the caller cannot
    parse is a finding that does not apply: the memory check then emits
    nothing and the output is skipped, without error. *)
Theorem get_string_contract (E : Env) (cmd : string) :
  get_string E cmd
  = match popen E cmd with
    | Some (String c rest) => Some (before_space (fst (C.read_line (String c rest))))
    | _ => None
    end
  /\ (get_string E cmd = None <-> popen E cmd = None \/ popen E cmd = Some "")
  /\ (forall word rest, plain_word word = true ->
        popen E cmd = Some (word +:+ C.nl +:+ rest) ->
        get_string E cmd = Some word /\ spec_run_probe E cmd = Some word)
  /\ (forall pt res, get_string E total_mem_cmd = Some res -> C.sscanf_d res = None ->
        check_memres E pt = Ok (tt, pt, []))
  /\ (forall res max_h, get_string E cmd = Some res -> C.sscanf_dxd res = None ->
        probe_height E cmd max_h = max_h).
Proof.
  split; [| split; [| split; [| split]]].
  - apply get_string_run.
  - rewrite get_string_run. destruct (popen E cmd) as [[| c rest] |].
    + split; [intros _; right; reflexivity | reflexivity].
    + split; [discriminate | intros [H | H]; discriminate].
    + split; [intros _; left; reflexivity | reflexivity].
  - intros word rest Hw Hout.
    assert (Hline : C.getline (word +:+ C.nl +:+ rest) = Some (word +:+ C.nl, rest)).
    { unfold C.getline. rewrite read_line_plain by assumption.
      destruct word; reflexivity. }
    unfold get_string, spec_run_probe. rewrite Hout, Hline.
    rewrite c_str_erase_space, remove_space_plain by assumption.
    split; [| reflexivity]. f_equal.
    apply (before_space_plain word "" C.LF Hw). reflexivity.
  - intros pt res Hres Hscan. rewrite check_memres_run. unfold probed_mem.
    rewrite Hres. cbn [mbind option_bind]. rewrite Hscan. reflexivity.
  - intros res max_h Hres Hscan. unfold probe_height. rewrite Hres, Hscan. reflexivity.
Qed.

(** *** The 32-bit read *)

Lemma code_range (c : ascii) : 0 <= C.code c < 256.
Proof. unfold C.code. pose proof (N_ascii_bounded c). lia. Qed.

Lemma lor_low_byte (hi lo : Z) : 0 <= lo < 256 -> Z.lor (hi * 256) lo = lo + 256 * hi.
Proof.
  intros Hlo.
  assert (Hland : Z.land (hi * 256) lo = 0).
  { apply Z.bits_inj'. intros i Hi. rewrite Z.land_spec, Z.bits_0.
    rewrite <- (Z.mod_small lo (2 ^ 8)) by lia.
    rewrite Z.testbit_mod_pow2 by lia.
    destruct (Z.ltb_spec i 8) as [Hlt | Hge]; [| apply andb_false_r].
    change 256 with (2 ^ 8). rewrite Z.mul_pow2_bits_low by lia. reflexivity. }
  pose proof (Z.add_lor_land (hi * 256) lo) as Hadd. rewrite Hland in Hadd. lia.
Qed.

Lemma big_endian_sum (b0 b1 b2 b3 : Z) :
  0 <= b1 < 256 -> 0 <= b2 < 256 -> 0 <= b3 < 256 ->
  big_endian b0 b1 b2 b3 = b3 + 256 * (b2 + 256 * (b1 + 256 * (b0 + 256 * 0))).
Proof.
  intros H1 H2 H3. unfold big_endian.
  rewrite !Z.shiftl_mul_pow2 by lia.
  replace (b0 * 2 ^ 24) with ((b0 * 256) * 2 ^ 16) by lia.
  rewrite <- !Z.shiftl_mul_pow2 by lia. rewrite <- Z.shiftl_lor.
  rewrite lor_low_byte by assumption.
  rewrite !Z.shiftl_mul_pow2 by lia.
  replace ((b1 + 256 * b0) * 2 ^ 16) with (((b1 + 256 * b0) * 256) * 2 ^ 8) by lia.
  rewrite <- !Z.shiftl_mul_pow2 by lia. rewrite <- Z.shiftl_lor.
  rewrite lor_low_byte by assumption.
  rewrite Z.shiftl_mul_pow2 by lia. change (2 ^ 8) with 256.
  rewrite lor_low_byte by assumption. lia.
Qed.

Lemma byte_at_range (fp : string) (i : nat) : 0 <= byte_at fp i < 256.
Proof.
  unfold byte_at. destruct (String.get i fp); [apply code_range |].
  unfold C.to_uchar, C.EOF. apply Z.mod_pos_bound. lia.
Qed.

Lemma to_uchar_byte (b : Z) : 0 <= b < 256 -> C.to_uchar b = b.
Proof. intros H. unfold C.to_uchar. apply Z.mod_small, H. Qed.

Lemma read_val_bytes (fp : string) :
  read_val fp = C.to_int (big_endian (byte_at fp 0) (byte_at fp 1) (byte_at fp 2) (byte_at fp 3)).
Proof.
  rewrite big_endian_sum by apply byte_at_range.
  unfold read_val, int_of_bytes. f_equal.
  destruct fp as [| c0 [| c1 [| c2 [| c3 rest]]]];
    cbn [read_bytes C.fgetc byte_at String.get insert list_insert fold_right];
    repeat rewrite (to_uchar_byte (C.code _)) by apply code_range; reflexivity.
Qed.

Lemma to_int_mod (z : Z) : C.to_int z mod 2 ^ 32 = z mod 2 ^ 32.
Proof.
  unfold C.to_int. rewrite Zminus_mod_idemp_l. f_equal. lia.
Qed.

Lemma to_int_small (z : Z) : - 2 ^ 31 <= z < 2 ^ 31 -> C.to_int z = z.
Proof. intros H. unfold C.to_int. rewrite Z.mod_small by lia. lia. Qed.

Lemma big_endian_range (b0 b1 b2 b3 : Z) :
  0 <= b0 < 256 -> 0 <= b1 < 256 -> 0 <= b2 < 256 -> 0 <= b3 < 256 ->
  0 <= big_endian b0 b1 b2 b3 < 2 ^ 32
  /\ (b0 < 128 -> big_endian b0 b1 b2 b3 < 2 ^ 31).
Proof. intros H0 H1 H2 H3. rewrite big_endian_sum by assumption. lia. Qed.

Lemma byte_at_end (fp : string) (i : nat) :
  (String.length fp <= i)%nat -> byte_at fp i = 255.
Proof.
  unfold byte_at. revert i. induction fp as [| c fp IH]; intros i Hi.
  - destruct i; reflexivity.
  - destruct i as [| i]; cbn [String.length] in Hi; [lia |].
    cbn [String.get]. apply IH. lia.
Qed.

Lemma to_int_large (z : Z) : 2 ^ 31 <= z < 2 ^ 32 -> C.to_int z = z - 2 ^ 32.
Proof.
  intros H. unfold C.to_int.
  rewrite <- (Z.mod_unique (z + 2 ^ 31) (2 ^ 32) 1 (z - 2 ^ 31)) by lia. lia.
Qed.

Lemma big_endian_top (b0 b1 b2 b3 : Z) :
  128 <= b0 < 256 -> 0 <= b1 < 256 -> 0 <= b2 < 256 -> 0 <= b3 < 256 ->
  2 ^ 31 <= big_endian b0 b1 b2 b3.
Proof. intros H0 H1 H2 H3. rewrite big_endian_sum by assumption. lia. Qed.

(** C6, as the claim states it, fails: of the file 80 00 00 00 the checks
    read -2147483648, where (b0<<24)|(b1<<16)|(b2<<8)|b3 is 2147483648.
    The variable the bytes are stored into is an [int], so a first byte
    with its top bit set gives a negative value. The difference shows in
    what the plugin does: of the file ff ff ff fe, whose big-endian number
    4294967294 is not below 5000, the PSU check reads -2 and emits its
    Advisory. *)
Lemma read_val_top_bit_is_negative :
  read_val (file_of_bytes [128; 0; 0; 0]) = -2147483648
  /\ big_endian 128 0 0 0 = 2147483648
  /\ ~ (forall c0 c1 c2 c3 rest,
          read_val (String c0 (String c1 (String c2 (String c3 rest))))
          = big_endian (C.code c0) (C.code c1) (C.code c2) (C.code c3))
  /\ read_val (file_of_bytes [255; 255; 255; 254]) = -2
  /\ ~ big_endian 255 255 255 254 < 5000
  /\ check_psu (psu_env 1 [255; 255; 255; 254]) initial
     = Ok (tt, initial, [Notify PSU_NOT_5A]).
Proof.
  split; [vm_compute; reflexivity |]. split; [vm_compute; reflexivity |].
  split; [| split; [vm_compute; reflexivity | split; [vm_compute; discriminate |]]].
  - intros Hall.
    specialize (Hall "128"%char "000"%char "000"%char "000"%char "").
    vm_compute in Hall. discriminate Hall.
  - vm_compute. reflexivity.
Qed.

(** C6, amended. For every file whose first four bytes are b0 b1 b2 b3 the
    value the PSU and brown-out checks read is the signed 32-bit integer
    with the bits of (b0<<24)|(b1<<16)|(b2<<8)|b3: that number when b0 is
    below 128, and that number less 2^32 when it is not, so the value is
    negative exactly when the first byte has its top bit set. When the
    file cannot be opened nothing is read and the check does nothing. A
    short read is no error: the end-of-file value, narrowed to a byte,
    fills the lower positions. *)
Theorem read_val_big_endian (E : Env) (pt : PowerPlugin) :
  (forall c0 c1 c2 c3 rest,
     let val := read_val (String c0 (String c1 (String c2 (String c3 rest)))) in
     let be := big_endian (C.code c0) (C.code c1) (C.code c2) (C.code c3) in
     val = C.to_int be
     /\ val mod 2 ^ 32 = be
     /\ (C.code c0 < 128 -> val = be)
     /\ (128 <= C.code c0 -> val = be - 2 ^ 32)
     /\ (val < 0 <-> 128 <= C.code c0))
  /\ (forall fp,
        read_val fp
        = C.to_int (big_endian (byte_at fp 0) (byte_at fp 1) (byte_at fp 2) (byte_at fp 3)))
  /\ (forall fp i, (String.length fp <= i)%nat -> byte_at fp i = C.to_uchar C.EOF)
  /\ (fopen E (POWER_PATH +:+ "max_current") = None -> check_psu E pt = Ok (tt, pt, []))
  /\ (fopen E (POWER_PATH +:+ "power_reset") = None -> check_brownout E pt = Ok (tt, pt, [])).
Proof.
  split; [| split; [| split; [| split]]].
  - intros c0 c1 c2 c3 rest val be.
    assert (Hval : val = C.to_int be) by apply read_val_bytes.
    pose proof (code_range c0) as H0. pose proof (code_range c1) as H1.
    pose proof (code_range c2) as H2. pose proof (code_range c3) as H3.
    destruct (big_endian_range (C.code c0) (C.code c1) (C.code c2) (C.code c3))
      as [Hr Hs]; try assumption.
    fold be in Hr, Hs.
    assert (Hlow : C.code c0 < 128 -> val = be).
    { intros Hb. rewrite Hval. apply to_int_small. specialize (Hs Hb). lia. }
    assert (Hhigh : 128 <= C.code c0 -> val = be - 2 ^ 32).
    { intros Hb. rewrite Hval. apply to_int_large. split; [| apply Hr].
      apply big_endian_top; try assumption. lia. }
    split; [exact Hval |]. split; [| split; [exact Hlow | split; [exact Hhigh |]]].
    + rewrite Hval, to_int_mod. apply Z.mod_small, Hr.
    + split.
      * intros Hneg. destruct (Z.lt_ge_cases (C.code c0) 128) as [Hb | Hb]; [| exact Hb].
        rewrite (Hlow Hb) in Hneg. lia.
      * intros Hb. rewrite (Hhigh Hb). lia.
  - apply read_val_bytes.
  - apply byte_at_end.
  - intros Hopen. unfold check_psu. rewrite Hopen.
    destruct (system E _ =? 0); reflexivity.
  - intros Hopen. unfold check_brownout. rewrite Hopen. reflexivity.
Qed.

(** *** The overcurrent callback *)

Lemma cb_overcurrent_fd_step (E : Env) (dev : udev_device) (v : Z) (pt : PowerPlugin) :
  keeps_line_breaks (gettext E) ->
  overcurrent_event E dev v ->
  cb_overcurrent_fd E (Some dev) pt
  = if v =? last_oc pt then Ok (G_SOURCE_CONTINUE, pt, [])
    else
      let pt' := set_show_icon (Z.lor (show_icon pt) ICON_OVER_CURRENT) pt in
      Ok (G_SOURCE_CONTINUE, set_last_oc v pt',
          Critical (gettext E USB_OVERCURRENT) :: icon_shown E (show_icon pt')).
Proof.
  intros Hcat (Hact & Hbyte & s & Hprop & Hscan).
  apply g_strcmp0_eq_spec in Hact.
  apply first_byte_spec in Hbyte as (fp & Hopen & Hbyte).
  unfold cb_overcurrent_fd, udev_device_get_action, udev_device_get_property_value.
  rewrite Hact, Hopen. change (C.code "1") with 49 in Hbyte. rewrite Hbyte.
  rewrite Hprop. unfold sscanf_property. rewrite Hscan. run_act.
  destruct (v =? last_oc pt); [reflexivity |]. cbn [negb].
  pose proof (update_icon_raised E pt OverCurrent Hcat) as Hicon.
  cbv zeta in Hicon. change (mask OverCurrent) with ICON_OVER_CURRENT in Hicon.
  rewrite Hicon. cbn [app]. rewrite !app_nil_r. reflexivity.
Qed.

Lemma lor_twice (x m : Z) : Z.lor (Z.lor x m) m = Z.lor x m.
Proof. rewrite <- Z.lor_assoc, Z.lor_diag. reflexivity. Qed.

Lemma fires_none_stored (last : Z) (counts : list Z) :
  existsb id (fires last counts) = false -> stored last counts = last.
Proof.
  unfold stored. revert last. induction counts as [| v counts IH]; intros last H.
  - reflexivity.
  - cbn [fires existsb id] in H. apply orb_false_iff in H as [Hv H].
    apply negb_false_iff, Z.eqb_eq in Hv. subst v. cbn [foldl]. apply IH, H.
Qed.

Lemma deliver_dedup (evs : list (Env * udev_device)) (counts : list Z) :
  Forall2 (fun ev v => keeps_line_breaks (gettext ev.1) /\ overcurrent_event ev.1 ev.2 v)
    evs counts ->
  forall pt, exists pt' outs,
    deliver evs pt = Ok (pt', outs)
    /\ map notifications outs = expected evs (fires (last_oc pt) counts)
    /\ last_oc pt' = stored (last_oc pt) counts
    /\ show_icon pt'
       = (if existsb id (fires (last_oc pt) counts)
          then Z.lor (show_icon pt) ICON_OVER_CURRENT else show_icon pt)
    /\ (existsb id (fires (last_oc pt) counts) = false -> pt' = pt).
Proof.
  induction 1 as [| [E dev] v evs counts [Hcat Hev] _ IH]; intros pt.
  - exists pt, []. repeat split.
  - cbn [deliver fires]. cbn [fst snd] in Hcat, Hev.
    rewrite (cb_overcurrent_fd_step E dev v pt Hcat Hev).
    destruct (Z.eqb_spec v (last_oc pt)) as [-> | Hne].
    + destruct (IH pt) as (pt' & outs & -> & Hn & Hl & Hs & Hq).
      exists pt', ([] :: outs). cbn [negb existsb id orb].
      split; [reflexivity |]. split; [| auto].
      unfold expected. cbn [map zip_with]. f_equal. exact Hn.
    + cbv zeta.
      destruct (IH (set_last_oc v (set_show_icon (Z.lor (show_icon pt) ICON_OVER_CURRENT) pt)))
        as (pt' & outs & -> & Hn & Hl & Hs & Hq).
      cbn [last_oc set_last_oc show_icon set_show_icon] in Hn, Hl, Hs.
      eexists pt', (_ :: outs). cbn [negb existsb id orb].
      split; [reflexivity |]. split; [| split; [| split]].
      * unfold expected. cbn [map zip_with fst]. f_equal. exact Hn.
      * exact Hl.
      * rewrite Hs, lor_twice. destruct (existsb id (fires v counts)); reflexivity.
      * discriminate.
Qed.

Lemma power_init_fresh (E : Env) (U : Udev) :
  exists h pt,
    power_init E U fresh_host = Ok (tt, h)
    /\ block h = Some pt
    /\ show_icon pt = 0
    /\ (is_pi E = true -> last_oc pt = -1)
    /\ handles_alive h pt = true.
Proof.
  unfold power_init. destruct (is_pi E), U as [[] [] []];
    eexists _, _; (split; [vm_compute; reflexivity |]);
    (split; [reflexivity |]); repeat split; discriminate.
Qed.

(** C1, as the claim states it, fails: the stored counter starts at -1, an
    integer OVER_CURRENT_COUNT can parse as, and the first event after
    [power_init], a change with disable byte 1 whose counter is -1, emits
    nothing and sets nothing. *)
Lemma first_event_with_counter_minus_one_is_dropped :
  (exists h, power_init (usb_env "1") (mkUdev true true true) fresh_host = Ok (tt, h)
             /\ block h = Some initial)
  /\ overcurrent_event (usb_env "1") (usb_event "-1") (-1)
  /\ cb_overcurrent_fd (usb_env "1") (Some (usb_event "-1")) initial
     = Ok (G_SOURCE_CONTINUE, initial, []).
Proof.
  split; [| split].
  - eexists. split; vm_compute; reflexivity.
  - split; [reflexivity |]. split; [vm_compute; reflexivity |].
    exists "-1". split; vm_compute; reflexivity.
  - vm_compute. reflexivity.
Qed.

(** C1, amended. For every sequence of USB events with action "change"
    whose disable byte is the character 1 and whose OVER_CURRENT_COUNT
    parses as an integer, the callback emits a Critical notification, sets
    the OverCurrent flag and stores the counter exactly when the parsed
    counter differs from the stored one; the stored counter starts at -1,
    so the first such event fires unless its counter parses as -1; a
    repeat of the stored counter emits nothing and changes no state. The
    message catalogue is assumed to keep final line breaks. *)
Theorem cb_overcurrent_fd_dedup :
  (forall E dev v pt,
     keeps_line_breaks (gettext E) -> overcurrent_event E dev v ->
     exists pt' out,
       cb_overcurrent_fd E (Some dev) pt = Ok (G_SOURCE_CONTINUE, pt', out)
       /\ (v <> last_oc pt ->
           notifications out = [Critical (gettext E USB_OVERCURRENT)]
           /\ pt' = set_last_oc v (set_show_icon (Z.lor (show_icon pt) ICON_OVER_CURRENT) pt)
           /\ has_flag (show_icon pt') OverCurrent = true
           /\ last_oc pt' = v)
       /\ (v = last_oc pt -> out = [] /\ pt' = pt))
  /\ (forall E U, is_pi E = true ->
        exists h pt, power_init E U fresh_host = Ok (tt, h)
                     /\ block h = Some pt /\ last_oc pt = -1)
  /\ (forall evs counts pt,
        Forall2 (fun ev v => keeps_line_breaks (gettext ev.1)
                             /\ overcurrent_event ev.1 ev.2 v) evs counts ->
        exists pt' outs,
          deliver evs pt = Ok (pt', outs)
          /\ map notifications outs = expected evs (fires (last_oc pt) counts)
          /\ last_oc pt' = stored (last_oc pt) counts
          /\ show_icon pt'
             = (if existsb id (fires (last_oc pt) counts)
                then Z.lor (show_icon pt) ICON_OVER_CURRENT else show_icon pt)
          /\ (existsb id (fires (last_oc pt) counts) = false -> pt' = pt)).
Proof.
  split; [| split].
  - intros E dev v pt Hcat Hev.
    rewrite (cb_overcurrent_fd_step E dev v pt Hcat Hev).
    destruct (Z.eqb_spec v (last_oc pt)) as [Heq | Hne].
    + eexists _, _. split; [reflexivity |]. split; [contradiction |].
      intros _. split; reflexivity.
    + eexists _, _. split; [reflexivity |]. split; [| contradiction].
      intros _. split; [reflexivity |]. split; [reflexivity |].
      split; [| reflexivity]. apply (has_flag_raised _ OverCurrent).
  - intros E U Hpi. destruct (power_init_fresh E U) as (h & pt & Hrun & Hb & _ & Hl & _).
    exists h, pt. auto.
  - intros evs counts pt H. apply deliver_dedup, H.
Qed.

(** *** What every operation leaves in place *)

Section Post.
Context {A : Type}.

Lemma post_ret (a : A) pt (Q : A -> PowerPlugin -> Prop) :
  Q a pt -> post (mret a) pt Q.
Proof. intros H a' pt' out [= <- <- _]. exact H. Qed.

Lemma post_bind {B : Type} (m : Act B) (k : B -> Act A) pt (Q : A -> PowerPlugin -> Prop) :
  post m pt (fun b pt1 => post (k b) pt1 Q) -> post (m ≫= k) pt Q.
Proof.
  intros H a pt' out. unfold mbind, Act_bind.
  destruct (m pt) as [[[b pt1] out1] |] eqn:Hm; [| discriminate].
  destruct (k b pt1) as [[[a' pt2] out2] |] eqn:Hk; [| discriminate].
  intros [= <- <- _]. exact (H b pt1 out1 Hm a' pt2 out2 Hk).
Qed.

Lemma post_crash (f : fault) pt (Q : A -> PowerPlugin -> Prop) : post (crash f) pt Q.
Proof. intros a pt' out. discriminate. Qed.

Lemma post_conseq (m : Act A) pt (Q Q' : A -> PowerPlugin -> Prop) :
  post m pt Q -> (forall a pt', Q a pt' -> Q' a pt') -> post m pt Q'.
Proof. intros H HQ a pt' out Hm. apply HQ, (H a pt' out Hm). Qed.
End Post.

Lemma post_get {A : Type} (field : PowerPlugin -> A) pt (Q : A -> PowerPlugin -> Prop) :
  Q (field pt) pt -> post (get field) pt Q.
Proof. intros H a pt' out [= <- <- _]. exact H. Qed.

Lemma post_put (set : PowerPlugin -> PowerPlugin) pt (Q : unit -> PowerPlugin -> Prop) :
  Q tt (set pt) -> post (put set) pt Q.
Proof. intros H a pt' out [= <- <- _]. exact H. Qed.

Lemma post_emit (c : sink_call) pt (Q : unit -> PowerPlugin -> Prop) :
  Q tt pt -> post (emit c) pt Q.
Proof. intros H a pt' out [= <- <- _]. exact H. Qed.

Lemma post_store_nul (s : string) (i : Z) pt (Q : string -> PowerPlugin -> Prop) :
  (forall s', Q s' pt) -> post (store_nul s i) pt Q.
Proof.
  intros H a pt' out. unfold store_nul.
  destruct ((0 <=? i) && (i <=? C.strlen s)); [| discriminate].
  intros [= <- <- _]. apply H.
Qed.

(** One step of the calculus on the goal [post m pt Q]. *)
Ltac post_step :=
  lazymatch goal with
  | |- post (mret _) _ _ => apply post_ret
  | |- post skip _ _ => apply post_ret
  | |- post (_ ≫= _) _ _ => apply post_bind
  | |- post (get _) _ _ => apply post_get
  | |- post (put _) _ _ => apply post_put
  | |- post (emit _) _ _ => apply post_emit
  | |- post (wrap_notify _) _ _ => apply post_emit
  | |- post (wrap_critical _) _ _ => apply post_emit
  | |- post (wrap_set_taskbar_icon _) _ _ => apply post_emit
  | |- post (gtk_widget_set_sensitive _) _ _ => apply post_emit
  | |- post gtk_widget_hide _ _ => apply post_emit
  | |- post gtk_widget_show_all _ _ => apply post_emit
  | |- post (gtk_widget_set_tooltip_text _) _ _ => apply post_emit
  | |- post (crash _) _ _ => apply post_crash
  | |- post (store_nul _ _) _ _ => apply post_store_nul; intros ?
  | |- post (if ?c then _ else _) _ _ => destruct c
  | |- post (match ?x with _ => _ end) _ _ => destruct x
  | |- post (let x := _ in _) _ _ => cbv zeta
  end.

Lemma post_update_icon (E : Env) pt (Q : unit -> PowerPlugin -> Prop) :
  Q tt pt -> post (update_icon E) pt Q.
Proof. intros H. unfold update_icon. repeat post_step; exact H. Qed.

Lemma post_check_psu (E : Env) pt (Q : unit -> PowerPlugin -> Prop) :
  Q tt pt -> post (check_psu E) pt Q.
Proof. intros H. unfold check_psu. repeat post_step; exact H. Qed.

Lemma post_check_memres (E : Env) pt (Q : unit -> PowerPlugin -> Prop) :
  Q tt pt -> post (check_memres E) pt Q.
Proof. intros H. unfold check_memres. repeat post_step; exact H. Qed.

Lemma post_check_user_warnings (E : Env) pt (Q : unit -> PowerPlugin -> Prop) :
  Q tt pt -> post (check_user_warnings E) pt Q.
Proof.
  intros H a pt' out. destruct (check_user_warnings_total E pt) as [out' ->].
  intros [= <- <- _]. exact H.
Qed.

Lemma post_check_brownout (E : Env) pt (Q : unit -> PowerPlugin -> Prop) :
  Q tt pt -> Q tt (set_show_icon (Z.lor (show_icon pt) ICON_BROWNOUT) pt) ->
  post (check_brownout E) pt Q.
Proof.
  intros H H'. unfold check_brownout.
  repeat first [ apply post_update_icon | post_step ]; assumption.
Qed.

Lemma post_cb_overcurrent_fd (E : Env) dev pt (Q : bool -> PowerPlugin -> Prop) :
  Q G_SOURCE_CONTINUE pt ->
  (forall val, Q G_SOURCE_CONTINUE
     (set_last_oc val (set_show_icon (Z.lor (show_icon pt) ICON_OVER_CURRENT) pt))) ->
  post (cb_overcurrent_fd E dev) pt Q.
Proof.
  intros H H'. unfold cb_overcurrent_fd, sscanf_property.
  repeat first [ apply post_update_icon | post_step ]; first [ exact H | apply H' ].
Qed.

Lemma post_cb_lowvoltage_fd (E : Env) dev pt (Q : bool -> PowerPlugin -> Prop) :
  Q G_SOURCE_CONTINUE pt ->
  Q G_SOURCE_CONTINUE (set_show_icon (Z.lor (show_icon pt) ICON_LOW_VOLTAGE) pt) ->
  post (cb_lowvoltage_fd E dev) pt Q.
Proof.
  intros H H'. unfold cb_lowvoltage_fd.
  repeat first [ apply post_update_icon | post_step ]; assumption.
Qed.

Lemma post_startup_checks (E : Env) pt (Q : bool -> PowerPlugin -> Prop) :
  Q G_SOURCE_REMOVE (set_startup_id 0 pt) ->
  Q G_SOURCE_REMOVE
    (set_startup_id 0 (set_show_icon (Z.lor (show_icon pt) ICON_BROWNOUT) pt)) ->
  post (startup_checks E) pt Q.
Proof.
  intros H H'. unfold startup_checks.
  apply post_bind, post_check_psu, post_bind, post_check_brownout;
    apply post_bind, post_check_memres, post_bind, post_check_user_warnings;
    repeat post_step; assumption.
Qed.

Lemma bits_kept_refl (flags : Z) : bits_kept flags flags.
Proof. intros i H. exact H. Qed.

Lemma bits_kept_trans (a b c : Z) : bits_kept a b -> bits_kept b c -> bits_kept a c.
Proof. intros Hab Hbc i H. apply Hbc, Hab, H. Qed.

Lemma bits_kept_lor (flags m : Z) : bits_kept flags (Z.lor flags m).
Proof. intros i H. rewrite Z.lor_spec, H. reflexivity. Qed.

Lemma evolves_refl (pt : PowerPlugin) : evolves pt pt.
Proof. split; auto using bits_kept_refl. Qed.

Lemma evolves_trans (a b c : PowerPlugin) : evolves a b -> evolves b c -> evolves a c.
Proof.
  intros [] []. split; try congruence.
  - eapply bits_kept_trans; eassumption.
  - destruct ev_startup_id1 as [H | H]; [| right; exact H].
    rewrite H. assumption.
Qed.

Lemma evolves_raise (pt : PowerPlugin) (m : Z) :
  evolves pt (set_show_icon (Z.lor (show_icon pt) m) pt).
Proof. split; cbn; auto using bits_kept_lor. Qed.

Lemma perform_evolves (E : Env) (op : operation) (pt : PowerPlugin) :
  post (perform E op) pt (fun _ pt' => evolves pt pt').
Proof.
  destruct op; unfold perform, finish, power_update_display.
  - apply post_bind, post_cb_overcurrent_fd; [| intros val]; apply post_ret.
    + apply evolves_refl.
    + split; cbn; auto using bits_kept_lor.
  - apply post_bind, post_cb_lowvoltage_fd; apply post_ret.
    + apply evolves_refl.
    + apply evolves_raise.
  - apply post_check_psu, evolves_refl.
  - apply post_check_brownout; [apply evolves_refl | apply evolves_raise].
  - apply post_check_memres, evolves_refl.
  - apply post_check_user_warnings, evolves_refl.
  - apply post_bind, post_startup_checks; apply post_ret.
    + split; cbn; auto using bits_kept_refl.
    + split; cbn; auto using bits_kept_lor.
  - apply post_update_icon, evolves_refl.
Qed.

Lemma perform_all_evolves (ops : list (Env * operation)) (pt : PowerPlugin) :
  post (perform_all ops) pt (fun _ pt' => evolves pt pt').
Proof.
  revert pt. induction ops as [| [E op] ops IH]; intros pt.
  - apply post_ret, evolves_refl.
  - unfold perform_all. cbn [foldr fst snd]. apply post_bind.
    eapply post_conseq; [apply perform_evolves |].
    intros ? pt1 H1. eapply post_conseq; [apply IH |].
    intros ? pt2 H2. cbv beta in H1, H2. exact (evolves_trans _ _ _ H1 H2).
Qed.

Lemma land_pow2 (a k : Z) :
  0 <= k -> Z.land a (2 ^ k) = if Z.testbit a k then 2 ^ k else 0.
Proof.
  intros Hk. apply Z.bits_inj'. intros i Hi.
  rewrite Z.land_spec, Z.pow2_bits_eqb by assumption.
  destruct (Z.eqb_spec k i) as [-> | Hne].
  - destruct (Z.testbit a i); [| rewrite Z.bits_0; reflexivity].
    rewrite Z.pow2_bits_true by assumption. reflexivity.
  - rewrite andb_false_r. destruct (Z.testbit a k); [| rewrite Z.bits_0; reflexivity].
    rewrite Z.pow2_bits_false by assumption. reflexivity.
Qed.

Lemma has_flag_testbit (flags : Z) (f : hazard) :
  has_flag flags f = Z.testbit flags (bit_of f).
Proof.
  unfold has_flag, truthy.
  replace (mask f) with (2 ^ bit_of f) by (destruct f; reflexivity).
  rewrite land_pow2 by (destruct f; cbn; lia).
  destruct (Z.testbit flags (bit_of f)); destruct f; reflexivity.
Qed.

Lemma bits_kept_flags (before after : Z) : bits_kept before after -> flags_kept before after.
Proof. intros H f. rewrite !has_flag_testbit. apply H. Qed.

(** C3. Every operation after initialisation, the two device-event
    callbacks, each start-up check, the start-up task and the update of the
    display, leaves every hazard flag that was set (and every bit of
    [show_icon]) set; so does every sequence of them, in whatever
    environments: no operation ever clears a flag. *)
Theorem flags_are_sticky :
  (forall E op pt pt' out,
     perform E op pt = Ok (tt, pt', out) ->
     flags_kept (show_icon pt) (show_icon pt') /\ bits_kept (show_icon pt) (show_icon pt'))
  /\ (forall ops pt pt' out,
        perform_all ops pt = Ok (tt, pt', out) ->
        flags_kept (show_icon pt) (show_icon pt') /\ bits_kept (show_icon pt) (show_icon pt')).
Proof.
  split.
  - intros E op pt pt' out Hrun.
    pose proof (perform_evolves E op pt tt pt' out Hrun) as [Hb].
    split; [apply bits_kept_flags |]; exact Hb.
  - intros ops pt pt' out Hrun.
    pose proof (perform_all_evolves ops pt tt pt' out Hrun) as [Hb].
    split; [apply bits_kept_flags |]; exact Hb.
Qed.

(** *** The life cycle *)

Lemma alive_spec (h : Host) (id : Z) (cb : handler) :
  alive h id cb = true <-> (id > 0 -> sources h !! id = Some cb).
Proof.
  unfold alive. destruct (Z.gtb_spec id 0) as [Hpos | Hneg]; cbn [implb].
  - rewrite bool_decide_eq_true. split; [auto | intros H; apply H; lia].
  - split; [lia | reflexivity].
Qed.

Lemma held_spec (h : Host) (p : Z) :
  held h p = true <-> (p <> NULL -> p ∈ objects h).
Proof.
  unfold held, truthy, NULL. destruct (Z.eqb_spec p 0) as [-> | Hne]; cbn [negb implb].
  - split; [congruence | reflexivity].
  - rewrite bool_decide_eq_true. split; auto.
Qed.

Lemma apart_spec (p q : Z) :
  apart p q = true <-> (p <> NULL -> q <> NULL -> p <> q).
Proof.
  unfold apart, truthy, NULL.
  destruct (Z.eqb_spec p 0), (Z.eqb_spec q 0), (Z.eqb_spec p q);
    cbn [negb andb implb]; split; try reflexivity; try congruence; intros; lia.
Qed.

Lemma release_source_step {A : Type} (field : PowerPlugin -> Z)
  (set : PowerPlugin -> PowerPlugin) (cb : handler) (k : Life A) (h : Host)
  (pt : PowerPlugin) :
  block h = Some pt ->
  alive h (field pt) cb = true ->
  (id ← load field ; when (id >? 0) (g_source_remove id) ;; store set ;; k) h
  = k (mkHost (Some (set pt)) (drop_source (field pt) (sources h)) (objects h)
         (next_id h) (next_object h) (panel h)).
Proof.
  intros Hb Ha. rewrite alive_spec in Ha.
  destruct h as [b attached live ni no pn]. cbn [block sources] in Hb, Ha. subst b.
  unfold mbind, Life_bind, load, store, when, drop_source, g_source_remove.
  cbn [block sources objects next_id next_object panel].
  destruct (Z.gtb_spec (field pt) 0) as [Hpos | Hneg]; [| reflexivity].
  cbn [block sources objects next_id next_object panel].
  rewrite Ha by lia. reflexivity.
Qed.

Lemma release_object_step {A : Type} (field : PowerPlugin -> Z)
  (set : PowerPlugin -> PowerPlugin) (k : Life A) (h : Host) (pt : PowerPlugin) :
  block h = Some pt ->
  held h (field pt) = true ->
  (p ← load field ; when (truthy p) (udev_release p) ;; store set ;; k) h
  = k (mkHost (Some (set pt)) (sources h) (drop_object (field pt) (objects h))
         (next_id h) (next_object h) (panel h)).
Proof.
  intros Hb Hh. rewrite held_spec in Hh.
  destruct h as [b attached live ni no pn]. cbn [block objects] in Hb, Hh. subst b.
  unfold mbind, Life_bind, load, store, when, drop_object, udev_release.
  cbn [block sources objects next_id next_object panel].
  unfold truthy, NULL in *. destruct (Z.eqb_spec (field pt) 0) as [Hz | Hnz]; cbn [negb];
    [reflexivity |].
  cbn [block sources objects next_id next_object panel].
  rewrite decide_True by auto. reflexivity.
Qed.

Lemma lookup_drop_source (id id' : Z) (cb cb' : handler) (attached : gmap Z handler) :
  cb <> cb' ->
  (id' > 0 -> attached !! id' = Some cb') ->
  attached !! id = Some cb ->
  drop_source id' attached !! id = Some cb.
Proof.
  intros Hne Hid' Hid. unfold drop_source.
  destruct (Z.gtb_spec id' 0) as [Hpos | _]; [| exact Hid].
  rewrite lookup_delete_ne; [exact Hid |].
  intros ->. rewrite Hid' in Hid by lia. congruence.
Qed.

Lemma elem_of_drop_object (p q : Z) (live : gset Z) :
  (q <> NULL -> p <> q) -> p ∈ live -> p <> NULL -> p ∈ drop_object q live.
Proof.
  intros Hne Hp Hnz. unfold drop_object, truthy.
  destruct (Z.eqb_spec q 0) as [_ | Hq]; cbn [negb]; [exact Hp |].
  apply elem_of_difference. split; [exact Hp |].
  rewrite elem_of_singleton. apply Hne. exact Hq.
Qed.

Lemma power_destructor_run (h : Host) (pt : PowerPlugin) :
  block h = Some pt ->
  handles_alive h pt = true ->
  power_destructor h = Ok (tt, torn_down h pt).
Proof.
  intros Hb Ha. unfold handles_alive in Ha.
  rewrite !andb_true_iff in Ha.
  destruct Ha as [[[[[[[[Hoc Hlv] Hst] Hmoc] Hmlv] Hu] Hocl] Hocu] Hlvu].
  rewrite alive_spec in Hoc, Hlv, Hst. rewrite held_spec in Hmoc, Hmlv, Hu.
  rewrite apart_spec in Hocl, Hocu, Hlvu.
  unfold power_destructor.
  erewrite (release_source_step overcurrent_id _ OvercurrentFd);
    [| exact Hb | apply alive_spec; assumption ].
  erewrite (release_source_step lowvoltage_id _ LowvoltageFd);
    [| reflexivity
     | apply alive_spec; cbn; intros Hpos;
       apply (lookup_drop_source _ _ _ OvercurrentFd); auto; discriminate ].
  erewrite (release_source_step startup_id _ StartupChecks);
    [| reflexivity
     | apply alive_spec; cbn; intros Hpos;
       apply (lookup_drop_source _ _ _ LowvoltageFd); [discriminate | |];
       [ intros Hlvpos; apply (lookup_drop_source _ _ _ OvercurrentFd); auto; discriminate
       | apply (lookup_drop_source _ _ _ OvercurrentFd); auto; discriminate ] ].
  erewrite (release_object_step udev_mon_oc); [| reflexivity | apply held_spec; cbn; assumption ].
  erewrite (release_object_step udev_mon_lv);
    [| reflexivity
     | apply held_spec; cbn; intros Hnz; apply elem_of_drop_object;
       [ intros Hq Heq; apply (Hocl Hq Hnz); congruence | auto | exact Hnz ] ].
  erewrite (release_object_step udev);
    [| reflexivity
     | apply held_spec; cbn; intros Hnz;
       apply elem_of_drop_object;
       [ intros Hq Heq; apply (Hlvu Hq Hnz); congruence
       | apply elem_of_drop_object;
         [ intros Hq Heq; apply (Hocu Hq Hnz); congruence | auto | exact Hnz ]
       | exact Hnz ] ].
  reflexivity.
Qed.

Lemma handles_alive_spec (h : Host) (pt : PowerPlugin) :
  handles_alive h pt = true <-> handles_alive_prop h pt.
Proof.
  unfold handles_alive, handles_alive_prop.
  rewrite !andb_true_iff, !alive_spec, !held_spec, !apart_spec. tauto.
Qed.

Lemma power_destructor_freed (h : Host) :
  block h = None -> power_destructor h = Crash UseAfterFree.
Proof.
  intros Hb. unfold power_destructor, mbind, Life_bind, load. rewrite Hb. reflexivity.
Qed.

Lemma drop_source_self (id : Z) (attached : gmap Z handler) :
  id > 0 -> drop_source id attached !! id = None.
Proof.
  intros Hpos. unfold drop_source.
  destruct (Z.gtb_spec id 0); [apply lookup_delete_eq | lia].
Qed.

Lemma drop_source_gone (id id' : Z) (attached : gmap Z handler) :
  attached !! id = None -> drop_source id' attached !! id = None.
Proof.
  intros H. unfold drop_source. destruct (id' >? 0); [| exact H].
  apply lookup_delete_None. right. exact H.
Qed.

Lemma drop_object_self (p : Z) (live : gset Z) :
  p <> NULL -> p ∉ drop_object p live.
Proof.
  intros Hnz. unfold drop_object, truthy.
  destruct (Z.eqb_spec p 0); [contradiction |]. cbn [negb].
  rewrite elem_of_difference, elem_of_singleton. tauto.
Qed.

Lemma drop_object_gone (p q : Z) (live : gset Z) :
  p ∉ live -> p ∉ drop_object q live.
Proof.
  intros H. unfold drop_object. destruct (truthy q); [| exact H].
  rewrite elem_of_difference. tauto.
Qed.

Lemma startup_checks_done (E : Env) (pt : PowerPlugin) :
  post (startup_checks E) pt
    (fun keep pt' => keep = G_SOURCE_REMOVE /\ evolves pt pt' /\ startup_id pt' = 0).
Proof.
  apply post_startup_checks; (split; [reflexivity |]); (split; [| reflexivity]);
    split; cbn; auto using bits_kept_refl, bits_kept_lor.
Qed.

Lemma cb_overcurrent_fd_continues (E : Env) dev (pt : PowerPlugin) :
  post (cb_overcurrent_fd E dev) pt
    (fun keep pt' => keep = G_SOURCE_CONTINUE /\ evolves pt pt'
                     /\ startup_id pt' = startup_id pt).
Proof.
  apply post_cb_overcurrent_fd; [| intros val]; (split; [reflexivity |]);
    (split; [| reflexivity]); split; cbn; auto using bits_kept_refl, bits_kept_lor.
Qed.

Lemma cb_lowvoltage_fd_continues (E : Env) dev (pt : PowerPlugin) :
  post (cb_lowvoltage_fd E dev) pt
    (fun keep pt' => keep = G_SOURCE_CONTINUE /\ evolves pt pt'
                     /\ startup_id pt' = startup_id pt).
Proof.
  apply post_cb_lowvoltage_fd; (split; [reflexivity |]);
    (split; [| reflexivity]); split; cbn; auto using bits_kept_refl, bits_kept_lor.
Qed.

Lemma handles_alive_evolves (h h' : Host) (pt pt' : PowerPlugin) :
  handles_alive_prop h pt -> evolves pt pt' ->
  sources h' = sources h -> objects h' = objects h ->
  handles_alive_prop h' pt'.
Proof.
  intros (Hoc & Hlv & Hst & Hmoc & Hmlv & Hu & Hocl & Hocu & Hlvu) [] Hs Ho.
  unfold handles_alive_prop.
  rewrite Hs, Ho, ev_udev0, ev_udev_mon_oc0, ev_udev_mon_lv0, ev_overcurrent_id0,
    ev_lowvoltage_id0.
  repeat split; try assumption.
  intros Hpos. destruct ev_startup_id0 as [Heq | Heq]; rewrite Heq in *; [auto | lia].
Qed.

Lemma handles_alive_startup_done (h h' : Host) (pt pt' : PowerPlugin) (id : Z) :
  handles_alive_prop h pt -> evolves pt pt' -> startup_id pt' = 0 ->
  sources h !! id = Some StartupChecks ->
  sources h' = delete id (sources h) -> objects h' = objects h ->
  handles_alive_prop h' pt'.
Proof.
  intros (Hoc & Hlv & Hst & Hmoc & Hmlv & Hu & Hocl & Hocu & Hlvu) [] H0 Hid Hs Ho.
  unfold handles_alive_prop.
  rewrite Hs, Ho, H0, ev_udev0, ev_udev_mon_oc0, ev_udev_mon_lv0, ev_overcurrent_id0,
    ev_lowvoltage_id0.
  repeat split; try assumption; try lia.
  - intros Hpos. rewrite lookup_delete_ne; [auto |].
    intros Heq. rewrite Heq, Hoc in Hid by assumption. discriminate.
  - intros Hpos. rewrite lookup_delete_ne; [auto |].
    intros Heq. rewrite Heq, Hlv in Hid by assumption. discriminate.
Qed.

Lemma handle_keeps_alive (ev : event) (h h' : Host) (pt : PowerPlugin) :
  block h = Some pt -> handles_alive_prop h pt ->
  handle ev h = Ok (tt, h') ->
  exists pt', block h' = Some pt' /\ handles_alive_prop h' pt' /\ evolves pt pt'.
Proof.
  intros Hb Ha. destruct h as [b attached live ni no pn]. cbn [block] in Hb. subst b.
  destruct ev as [E id dev | E]; unfold handle.
  - cbn [sources]. destruct (attached !! id) as [cb |] eqn:Hid.
    2:{ intros [= <-]. exists pt. auto using evolves_refl. }
    unfold mbind, Life_bind, run_callback. cbn [block].
    destruct (callback E cb dev pt) as [[[keep pt1] out] |] eqn:Hrun; [| discriminate].
    destruct cb; cbn [callback] in Hrun.
    + destruct (startup_checks_done E pt keep pt1 out Hrun) as (-> & Hev & H0).
      unfold when, g_source_remove. cbn [negb G_SOURCE_REMOVE sources block].
      rewrite Hid. intros [= <-]. exists pt1. split; [reflexivity |]. split; [| exact Hev].
      eapply handles_alive_startup_done; try eassumption; reflexivity.
    + destruct (cb_overcurrent_fd_continues E dev pt keep pt1 out Hrun) as (-> & Hev & _).
      cbn [when negb G_SOURCE_CONTINUE]. intros [= <-].
      exists pt1. split; [reflexivity |]. split; [| exact Hev].
      eapply handles_alive_evolves; try eassumption; reflexivity.
    + destruct (cb_lowvoltage_fd_continues E dev pt keep pt1 out Hrun) as (-> & Hev & _).
      cbn [when negb G_SOURCE_CONTINUE]. intros [= <-].
      exists pt1. split; [reflexivity |]. split; [| exact Hev].
      eapply handles_alive_evolves; try eassumption; reflexivity.
  - unfold run_callback, power_update_display. cbn [block].
    destruct (update_icon E pt) as [[[[] pt1] out] |] eqn:Hrun; [| discriminate].
    assert (Hev : evolves pt pt1).
    { apply (post_update_icon E pt (fun _ pt' => evolves pt pt') (evolves_refl pt) _ _ _ Hrun). }
    intros [= <-]. exists pt1. split; [reflexivity |]. split; [| exact Hev].
    eapply handles_alive_evolves; try eassumption; reflexivity.
Qed.

Lemma handle_all_keeps_alive (evs : list event) (h h' : Host) (pt : PowerPlugin) :
  block h = Some pt -> handles_alive_prop h pt ->
  handle_all evs h = Ok (tt, h') ->
  exists pt', block h' = Some pt' /\ handles_alive_prop h' pt' /\ evolves pt pt'.
Proof.
  revert h pt. induction evs as [| ev evs IH]; intros h pt Hb Ha.
  - intros [= <-]. exists pt. auto using evolves_refl.
  - unfold handle_all. cbn [foldr]. unfold mbind at 1, Life_bind at 1.
    destruct (handle ev h) as [[[] h1] |] eqn:Hev; [| discriminate].
    destruct (handle_keeps_alive ev h h1 pt Hb Ha Hev) as (pt1 & Hb1 & Ha1 & He1).
    intros Hrest. destruct (IH h1 pt1 Hb1 Ha1 Hrest) as (pt' & Hb' & Ha' & He').
    exists pt'. split; [exact Hb' |]. split; [exact Ha' |].
    eapply evolves_trans; eassumption.
Qed.

(** C5, as the claim states it, fails: [power_destructor] ends by freeing
    the block it was given, so a second call on the same block reads freed
    memory. Here the plugin is initialised with every handle created,
    destroyed once, which succeeds, and destroyed again. *)
Lemma power_destructor_twice_reads_freed_block :
  exists h h1,
    power_init (usb_env "0") (mkUdev true true true) fresh_host = Ok (tt, h)
    /\ power_destructor h = Ok (tt, h1)
    /\ power_destructor h1 = Crash UseAfterFree.
Proof. eexists _, _. split; [| split]; vm_compute; reflexivity. Qed.

(** C5, amended. A single call of destroy is safe at every point of the
    life of the plugin, also when some or all handles were never created
    and when the start-up task has completed and cleared its handle: it
    removes every source and releases every libudev object the block still
    names, each once, and frees the block. Destroy is not idempotent: the
    block being freed, a second call on it reads freed memory. *)
Theorem power_destructor_once :
  (forall h pt,
     block h = Some pt -> handles_alive h pt = true ->
     power_destructor h = Ok (tt, torn_down h pt)
     /\ block (torn_down h pt) = None
     /\ (overcurrent_id pt > 0 -> sources (torn_down h pt) !! overcurrent_id pt = None)
     /\ (lowvoltage_id pt > 0 -> sources (torn_down h pt) !! lowvoltage_id pt = None)
     /\ (startup_id pt > 0 -> sources (torn_down h pt) !! startup_id pt = None)
     /\ (udev_mon_oc pt <> NULL -> udev_mon_oc pt ∉ objects (torn_down h pt))
     /\ (udev_mon_lv pt <> NULL -> udev_mon_lv pt ∉ objects (torn_down h pt))
     /\ (udev pt <> NULL -> udev pt ∉ objects (torn_down h pt))
     /\ power_destructor (torn_down h pt) = Crash UseAfterFree)
  /\ (forall E U evs h,
        (power_init E U ;; handle_all evs) fresh_host = Ok (tt, h) ->
        exists pt, block h = Some pt /\ handles_alive h pt = true)
  /\ (forall h,
        block h = Some zeroed ->
        power_destructor h = Ok (tt, torn_down h zeroed)
        /\ sources (torn_down h zeroed) = sources h
        /\ objects (torn_down h zeroed) = objects h).
Proof.
  split; [| split].
  - intros h pt Hb Ha. split; [apply power_destructor_run; assumption |].
    split; [reflexivity |].
    split; [| split; [| split; [| split; [| split; [| split]]]]].
    + intros H. apply drop_source_gone, drop_source_gone, drop_source_self, H.
    + intros H. apply drop_source_gone, drop_source_self, H.
    + intros H. apply drop_source_self, H.
    + intros H. apply drop_object_gone, drop_object_gone, drop_object_self, H.
    + intros H. apply drop_object_gone, drop_object_self, H.
    + intros H. apply drop_object_self, H.
    + apply power_destructor_freed. reflexivity.
  - intros E U evs h. unfold mbind at 1, Life_bind at 1.
    destruct (power_init_fresh E U) as (h0 & pt0 & -> & Hb0 & _ & _ & Ha0).
    intros Hrun. apply handles_alive_spec in Ha0.
    destruct (handle_all_keeps_alive evs h0 h pt0 Hb0 Ha0 Hrun) as (pt & Hb & Ha & _).
    exists pt. split; [exact Hb |]. apply handles_alive_spec, Ha.
  - intros h Hb. split; [apply power_destructor_run; [exact Hb | reflexivity] |].
    split; reflexivity.
Qed.

(** *** The theorems at concrete inputs *)

Lemma untranslated_keeps_line_breaks : keeps_line_breaks untranslated.
Proof. intros msgid H. exact H. Qed.

(** Counters 7, 7, 8 after initialisation: a Critical, nothing, a Critical. *)
Lemma cb_overcurrent_fd_dedup_witness :
  let evs := [(usb_env "1", usb_event "7"); (usb_env "1", usb_event "7");
              (usb_env "1", usb_event "8")] in
  Forall2 (fun ev v => keeps_line_breaks (gettext ev.1) /\ overcurrent_event ev.1 ev.2 v)
    evs [7; 7; 8]
  /\ exists pt' outs,
       deliver evs initial = Ok (pt', outs)
       /\ map notifications outs
          = [[Critical USB_OVERCURRENT]; []; [Critical USB_OVERCURRENT]]
       /\ last_oc pt' = 8
       /\ show_icon pt' = ICON_OVER_CURRENT.
Proof.
  intros evs.
  assert (H7 : overcurrent_event (usb_env "1") (usb_event "7") 7).
  { split; [reflexivity |]. split; [vm_compute; reflexivity |].
    exists "7". split; vm_compute; reflexivity. }
  assert (H8 : overcurrent_event (usb_env "1") (usb_event "8") 8).
  { split; [reflexivity |]. split; [vm_compute; reflexivity |].
    exists "8". split; vm_compute; reflexivity. }
  assert (H : Forall2 (fun ev v => keeps_line_breaks (gettext ev.1)
                                   /\ overcurrent_event ev.1 ev.2 v) evs [7; 7; 8]).
  { constructor; [split; [exact untranslated_keeps_line_breaks | exact H7] |].
    constructor; [split; [exact untranslated_keeps_line_breaks | exact H7] |].
    constructor; [split; [exact untranslated_keeps_line_breaks | exact H8] |].
    constructor. }
  split; [exact H |].
  destruct (proj2 (proj2 cb_overcurrent_fd_dedup) evs [7; 7; 8] initial H)
    as (pt' & outs & Hrun & Hn & Hl & Hs & _).
  exists pt', outs.
  split; [exact Hrun |]. split; [exact Hn |]. split; [exact Hl |]. exact Hs.
Defined.

(** The device hwmon3 with its alarm asserted. *)
Lemma cb_lowvoltage_fd_filter_witness :
  keeps_line_breaks (gettext (hwmon_env "1"))
  /\ low_voltage_alarm (hwmon_env "1") hwmon_event
  /\ exists out,
       cb_lowvoltage_fd (hwmon_env "1") (Some hwmon_event) initial
       = Ok (G_SOURCE_CONTINUE, set_show_icon ICON_LOW_VOLTAGE initial, out)
       /\ notifications out = [Critical LOW_VOLTAGE_WARNING].
Proof.
  assert (Halarm : low_voltage_alarm (hwmon_env "1") hwmon_event).
  { split; [reflexivity |]. split; [exists "3"; reflexivity | vm_compute; reflexivity]. }
  split; [exact untranslated_keeps_line_breaks |]. split; [exact Halarm |].
  destruct (cb_lowvoltage_fd_filter (hwmon_env "1") hwmon_event initial
              untranslated_keeps_line_breaks)
    as (pt' & out & Hrun & Hiff & _).
  destruct (proj2 Hiff Halarm) as (Hn & Hpt & _).
  exists out. rewrite Hrun, Hpt. split; [reflexivity | exact Hn].
Defined.

(** The two callbacks, the start-up task and an update, in a row. *)
Lemma flags_are_sticky_witness :
  let ops := [(usb_env "1", OpOvercurrent (Some (usb_event "7")));
              (hwmon_env "1", OpLowVoltage (Some hwmon_event));
              (reset_env [0; 0; 0; 2], OpStartupChecks);
              (usb_env "0", OpUpdateDisplay)] in
  exists pt' out,
    perform_all ops initial = Ok (tt, pt', out)
    /\ show_icon pt' = 7
    /\ flags_kept (show_icon initial) (show_icon pt')
    /\ bits_kept (show_icon initial) (show_icon pt').
Proof.
  intros ops.
  assert (Hrun : exists pt' out,
             perform_all ops initial = Ok (tt, pt', out) /\ show_icon pt' = 7)
    by (eexists _, _; split; vm_compute; reflexivity).
  destruct Hrun as (pt' & out & Hrun & H7).
  exists pt', out. split; [exact Hrun |]. split; [exact H7 |].
  exact (proj2 flags_are_sticky ops initial pt' out Hrun).
Defined.

(** The flags LowVoltage and OverCurrent. *)
Lemma update_icon_contract_witness :
  keeps_line_breaks (gettext (usb_env "1"))
  /\ 0 <= show_icon (set_show_icon 3 initial) < 8
  /\ update_icon (usb_env "1") (set_show_icon 3 initial)
     = Ok (tt, set_show_icon 3 initial,
           [SetTaskbarIcon "under-volt"; SetSensitive true; ShowAll;
            SetTooltipText ("PSU low voltage detected" +:+ C.nl
                            +:+ "USB over current detected")]).
Proof.
  assert (Hr : 0 <= show_icon (set_show_icon 3 initial) < 8) by (cbn; lia).
  split; [exact untranslated_keeps_line_breaks |]. split; [exact Hr |].
  exact (proj1 (update_icon_contract (usb_env "1") (set_show_icon 3 initial)
                  untranslated_keeps_line_breaks Hr)).
Defined.

(** A Pi with every handle created, after its start-up task has run and a
    USB event has been handled. *)
Lemma power_destructor_once_witness :
  exists h pt,
    (power_init (usb_env "1") (mkUdev true true true)
       ;; handle_all [Dispatch (reset_env [0; 0; 0; 2]) 3 None;
                      Dispatch (usb_env "1") 1 (Some (usb_event "7"))]) fresh_host
    = Ok (tt, h)
    /\ block h = Some pt
    /\ startup_id pt = 0
    /\ handles_alive h pt = true
    /\ power_destructor h = Ok (tt, torn_down h pt)
    /\ sources (torn_down h pt) = ∅
    /\ objects (torn_down h pt) = ∅.
Proof.
  assert (Hrun : exists h pt,
             (power_init (usb_env "1") (mkUdev true true true)
                ;; handle_all [Dispatch (reset_env [0; 0; 0; 2]) 3 None;
                               Dispatch (usb_env "1") 1 (Some (usb_event "7"))]) fresh_host
             = Ok (tt, h)
             /\ block h = Some pt /\ startup_id pt = 0
             /\ sources (torn_down h pt) = ∅ /\ objects (torn_down h pt) = ∅)
    by (eexists _, _; split; [vm_compute; reflexivity |];
        split; [reflexivity |]; split; [reflexivity |]; split; vm_compute; reflexivity).
  destruct Hrun as (h & pt & Hrun & Hb & H0 & Hs & Ho).
  destruct (proj1 (proj2 power_destructor_once) _ _ _ h Hrun) as (pt' & Hb' & Ha).
  assert (pt' = pt) as -> by congruence.
  exists h, pt. split; [exact Hrun |]. split; [exact Hb |]. split; [exact H0 |].
  split; [exact Ha |].
  split; [exact (proj1 (proj1 power_destructor_once h pt Hb Ha)) |].
  split; assumption.
Defined.

(** The files 00 00 13 88 (5000) and ff ff ff fe (-2), and the empty
    file. *)
Lemma read_val_big_endian_witness :
  read_val (file_of_bytes [0; 0; 19; 136]) = 5000
  /\ read_val (file_of_bytes [255; 255; 255; 254]) = 4294967294 - 2 ^ 32
  /\ read_val (file_of_bytes [255; 255; 255; 254]) mod 2 ^ 32 = 4294967294
  /\ read_val (file_of_bytes [255; 255; 255; 254]) < 0
  /\ read_val "" = -1
  /\ check_psu (usb_env "1") initial = Ok (tt, initial, []).
Proof.
  pose proof (read_val_big_endian (usb_env "1") initial) as (H4 & Hshort & _ & Hpsu & _).
  destruct (H4 "000"%char "000"%char "019"%char "136"%char "") as (_ & _ & Hlow & _).
  destruct (H4 "255"%char "255"%char "255"%char "254"%char "")
    as (_ & Hmod & _ & Hhigh & Hneg).
  split; [| split; [| split; [| split; [| split]]]].
  - exact (Hlow eq_refl).
  - apply Hhigh. vm_compute. discriminate.
  - exact Hmod.
  - apply Hneg. vm_compute. discriminate.
  - exact (Hshort "").
  - exact (Hpsu eq_refl).
Defined.

(** The power_reset values 0x02 and 0x00, and no file. *)
Lemma check_brownout_flag_witness :
  keeps_line_breaks (gettext (reset_env [0; 0; 0; 2]))
  /\ (exists out,
        check_brownout (reset_env [0; 0; 0; 2]) initial
        = Ok (tt, set_show_icon ICON_BROWNOUT initial, out)
        /\ notifications out = [Critical LOW_POWER_RESET])
  /\ check_brownout (reset_env [0; 0; 0; 0]) initial = Ok (tt, initial, [])
  /\ check_brownout (usb_env "1") initial = Ok (tt, initial, []).
Proof.
  split; [exact untranslated_keeps_line_breaks |]. split; [| split].
  - destruct (proj1 (check_brownout_flag (reset_env [0; 0; 0; 2]) initial
                       untranslated_keeps_line_breaks) _ eq_refl)
      as (out & Hrun & Hn & _); [discriminate |].
    exists out. split; [exact Hrun | exact Hn].
  - exact (proj1 (proj2 (check_brownout_flag (reset_env [0; 0; 0; 0]) initial
                           untranslated_keeps_line_breaks)) _ eq_refl eq_refl).
  - exact (proj1 (proj2 (proj2 (check_brownout_flag (usb_env "1") initial
                                  untranslated_keeps_line_breaks))) eq_refl).
Defined.

(** 2048 MB at 1920x1201, and at 1920x1200. *)
Lemma check_memres_advisory_witness :
  probed_mem (display_env "2048" "1920x1201") = Some 2048
  /\ max_height (display_env "2048" "1920x1201") = 1201
  /\ check_memres (display_env "2048" "1920x1201") initial
     = Ok (tt, initial, [Notify HIGH_RESOLUTION])
  /\ check_memres (display_env "2048" "1920x1200") initial = Ok (tt, initial, [])
  /\ check_memres (display_env "2049" "1920x1201") initial = Ok (tt, initial, [])
  /\ check_memres (display_env "255" "1920x1201") initial = Ok (tt, initial, [])
  /\ check_memres (display_env "lots" "1920x1201") initial = Ok (tt, initial, []).
Proof.
  assert (Hm : probed_mem (display_env "2048" "1920x1201") = Some 2048)
    by (vm_compute; reflexivity).
  assert (Hh : max_height (display_env "2048" "1920x1201") = 1201)
    by (vm_compute; reflexivity).
  split; [exact Hm |]. split; [exact Hh |].
  split; [| split; [| split; [| split]]].
  - exact (proj1 (proj2 (check_memres_advisory (display_env "2048" "1920x1201") initial))
             Hm Hh).
  - refine (proj1 (proj2 (proj2 (check_memres_advisory (display_env "2048" "1920x1200")
                                   initial))) _ _); vm_compute; reflexivity.
  - refine (proj1 (proj2 (proj2 (proj2 (check_memres_advisory
              (display_env "2049" "1920x1201") initial)))) _); vm_compute; reflexivity.
  - refine (proj1 (proj2 (proj2 (proj2 (proj2 (check_memres_advisory
              (display_env "255" "1920x1201") initial))))) _); vm_compute; reflexivity.
  - refine (proj1 (proj2 (proj2 (proj2 (proj2 (proj2 (check_memres_advisory
              (display_env "lots" "1920x1201") initial)))))) _); vm_compute; reflexivity.
Defined.

(** The output "2048" and a line break. *)
Lemma get_string_contract_witness :
  plain_word "2048" = true
  /\ popen (probe_env ("2048" +:+ C.nl)) "probe" = Some ("2048" +:+ C.nl +:+ "")
  /\ get_string (probe_env ("2048" +:+ C.nl)) "probe" = Some "2048"
  /\ spec_run_probe (probe_env ("2048" +:+ C.nl)) "probe" = Some "2048".
Proof.
  split; [reflexivity |]. split; [reflexivity |].
  exact (proj1 (proj2 (proj2 (get_string_contract (probe_env ("2048" +:+ C.nl)) "probe")))
           "2048" "" eq_refl eq_refl).
Defined.

(** The flag Brownout alone. *)
Lemma tooltip_truncation_in_bounds_witness :
  keeps_line_breaks (gettext (usb_env "1"))
  /\ (exists f, has_flag (show_icon (set_show_icon 4 initial)) f = true)
  /\ tooltip_concat (usb_env "1") 4 = "Low power reset has occurred" +:+ C.nl
  /\ 0 <= last_index (tooltip_concat (usb_env "1") 4) < C.strlen (tooltip_concat (usb_env "1") 4)
  /\ update_icon (usb_env "1") (set_show_icon 4 initial)
     = Ok (tt, set_show_icon 4 initial, icon_shown (usb_env "1") 4).
Proof.
  assert (Hf : exists f, has_flag (show_icon (set_show_icon 4 initial)) f = true)
    by (exists Brownout; reflexivity).
  split; [exact untranslated_keeps_line_breaks |]. split; [exact Hf |].
  split; [reflexivity |].
  destruct (proj1 (tooltip_truncation_in_bounds (usb_env "1") (set_show_icon 4 initial)
                     untranslated_keeps_line_breaks) Hf)
    as (_ & _ & Hidx & _ & _ & Hrun).
  split; [exact Hidx | exact Hrun].
Defined.

(* ------------------------------------------------------------------------- *)
(** ** Further properties of the code *)
(* ------------------------------------------------------------------------- *)

(** *** The PSU check *)

Lemma check_psu_run (E : Env) (pt : PowerPlugin) :
  check_psu E pt
  = Ok (tt, pt,
        match fopen E (POWER_PATH +:+ "max_current") with
        | Some fp =>
            if negb (system E is_cmfive_cmd =? 0) && (read_val fp <? 5000)
            then [Notify (gettext E PSU_NOT_5A)] else []
        | None => []
        end).
Proof.
  unfold check_psu, is_cmfive_cmd.
  destruct (system E _ =? 0); cbn [negb andb].
  - destruct (fopen E _); reflexivity.
  - destruct (fopen E _) as [fp |]; [| reflexivity].
    cbv zeta. destruct (read_val fp <? 5000); reflexivity.
Qed.

Lemma read_val_below (fp : string) (limit : Z) :
  0 <= limit < 2 ^ 31 ->
  read_val fp < limit
  <-> 128 <= byte_at fp 0
      \/ big_endian (byte_at fp 0) (byte_at fp 1) (byte_at fp 2) (byte_at fp 3) < limit.
Proof.
  intros Hl. rewrite read_val_bytes.
  pose proof (byte_at_range fp 0) as H0. pose proof (byte_at_range fp 1) as H1.
  pose proof (byte_at_range fp 2) as H2. pose proof (byte_at_range fp 3) as H3.
  rewrite big_endian_sum by assumption.
  set (be := byte_at fp 3 + 256 * (byte_at fp 2 + 256 * (byte_at fp 1
               + 256 * (byte_at fp 0 + 256 * 0)))).
  assert (Hbe : 0 <= be < 2 ^ 32) by (unfold be; lia).
  destruct (Z_lt_ge_dec (byte_at fp 0) 128) as [Hlow | Hhigh].
  - rewrite to_int_small by (unfold be in *; lia). lia.
  - unfold C.to_int.
    replace ((be + 2 ^ 31) mod 2 ^ 32) with (be - 2 ^ 31).
    + unfold be in *. lia.
    + apply Z.mod_unique with (q := 1); unfold be in *; lia.
Qed.

(** X1. The PSU check emits exactly one Advisory when the hardware-variant
    command fails, the max_current file opens and the [int] read from it is
    below 5000, and nothing otherwise; it never changes the block. The
    comparison is signed: the value is below 5000 exactly when the first
    byte has its top bit set or the big-endian number of the four bytes is
    below 5000, so an empty file (four end-of-file bytes, -1) is reported
    as an under-powered supply. *)
Theorem check_psu_advisory (E : Env) (pt : PowerPlugin) :
  exists out,
    check_psu E pt = Ok (tt, pt, out)
    /\ (out = [Notify (gettext E PSU_NOT_5A)]
        <-> system E is_cmfive_cmd <> 0
            /\ exists fp, fopen E (POWER_PATH +:+ "max_current") = Some fp
                          /\ read_val fp < 5000)
    /\ (out = []
        <-> system E is_cmfive_cmd = 0
            \/ fopen E (POWER_PATH +:+ "max_current") = None
            \/ exists fp, fopen E (POWER_PATH +:+ "max_current") = Some fp
                          /\ 5000 <= read_val fp)
    /\ (forall fp,
          read_val fp < 5000
          <-> 128 <= byte_at fp 0
              \/ big_endian (byte_at fp 0) (byte_at fp 1) (byte_at fp 2) (byte_at fp 3)
                 < 5000)
    /\ read_val "" < 5000.
Proof.
  eexists. split; [apply check_psu_run |].
  split; [| split; [| split]].
  - destruct (fopen E _) as [fp |].
    + destruct (Z.eqb_spec (system E is_cmfive_cmd) 0) as [H0 | H0],
        (Z.ltb_spec (read_val fp) 5000) as [Hv | Hv]; cbn [negb andb]; split;
        try discriminate; try reflexivity.
      * intros (Hs & _). contradiction.
      * intros (Hs & _). contradiction.
      * intros _. split; [exact H0 |]. exists fp. split; [reflexivity | exact Hv].
      * intros (_ & fp' & [= <-] & Hlt). lia.
    + split; [discriminate |]. intros (_ & fp & Hfp & _). discriminate.
  - destruct (fopen E _) as [fp |].
    + destruct (Z.eqb_spec (system E is_cmfive_cmd) 0) as [H0 | H0],
        (Z.ltb_spec (read_val fp) 5000) as [Hv | Hv]; cbn [negb andb]; split;
        try discriminate; try reflexivity; try (intros _; left; exact H0).
      * intros [Hs | [Hn | (fp' & [= <-] & Hge)]]; [contradiction | discriminate | lia].
      * intros _. right. right. exists fp. split; [reflexivity | exact Hv].
    + split; [intros _; right; left; reflexivity | reflexivity].
  - intros fp. apply read_val_below. lia.
  - reflexivity.
Qed.

Lemma check_psu_advisory_witness :
  check_psu (psu_env 1 [0; 0; 19; 135]) initial = Ok (tt, initial, [Notify PSU_NOT_5A])
  /\ check_psu (psu_env 1 [0; 0; 19; 136]) initial = Ok (tt, initial, [])
  /\ check_psu (psu_env 1 []) initial = Ok (tt, initial, [Notify PSU_NOT_5A]).
Proof.
  split; [| split].
  - destruct (check_psu_advisory (psu_env 1 [0; 0; 19; 135]) initial)
      as (out & Hrun & Hyes & _).
    rewrite Hrun. do 2 f_equal. apply Hyes. split; [discriminate |].
    eexists. split; [reflexivity | vm_compute; reflexivity].
  - destruct (check_psu_advisory (psu_env 1 [0; 0; 19; 136]) initial)
      as (out & Hrun & _ & Hno & _).
    rewrite Hrun. do 2 f_equal. apply Hno. right. right.
    eexists. split; [reflexivity | vm_compute; discriminate].
  - destruct (check_psu_advisory (psu_env 1 []) initial) as (out & Hrun & Hyes & _).
    rewrite Hrun. do 2 f_equal. apply Hyes. split; [discriminate |].
    eexists. split; [reflexivity | vm_compute; reflexivity].
Defined.

(** *** The shell probe, further *)

Lemma before_space_first_line (s : string) :
  before_space (fst (C.read_line s)) = before_space s.
Proof.
  induction s as [| c s IH]; [reflexivity |].
  cbn [C.read_line]. destruct (Ascii.eqb_spec c C.LF) as [-> | Hne].
  - reflexivity.
  - destruct (C.read_line s) as [line rest]. cbn [fst] in *.
    cbn [before_space]. rewrite IH. reflexivity.
Qed.

Lemma before_space_word (s : string) : plain_word (before_space s) = true.
Proof.
  induction s as [| c s IH]; [reflexivity |].
  cbn [before_space]. destruct (C.g_ascii_isspace c || Ascii.eqb c C.NUL) eqn:Hc.
  - reflexivity.
  - cbn [plain_word]. rewrite Hc, IH. reflexivity.
Qed.

Lemma before_space_split (s : string) :
  exists rest,
    s = before_space s +:+ rest
    /\ (rest = "" \/ exists c rest', rest = String c rest' /\ ends_word c = true).
Proof.
  induction s as [| c s (rest & Hs & Hrest)].
  - exists "". split; [reflexivity | left; reflexivity].
  - cbn [before_space]. destruct (C.g_ascii_isspace c || Ascii.eqb c C.NUL) eqn:Hc.
    + exists (String c s). split; [reflexivity |]. right. exists c, s. split; [reflexivity | exact Hc].
    + exists rest. rewrite append_cons, <- Hs. split; [reflexivity | exact Hrest].
Qed.

(** X2. Whatever the pipeline prints, the string [get_string] returns is
    the longest prefix of the whole output that holds no white space and no
    NUL: it never contains a blank, a tab or a line break, the output
    continues after it with such a character or ends there, and taking the
    first line first changes nothing. An output that begins with white
    space gives the empty string, not NULL. *)
Theorem get_string_longest_word (E : Env) (cmd : string) :
  (forall res, get_string E cmd = Some res ->
     exists output rest,
       popen E cmd = Some output
       /\ output <> ""
       /\ res = before_space output
       /\ output = res +:+ rest
       /\ plain_word res = true
       /\ (rest = "" \/ exists c rest', rest = String c rest' /\ ends_word c = true))
  /\ (forall c rest, ends_word c = true -> popen E cmd = Some (String c rest) ->
        get_string E cmd = Some "").
Proof.
  split.
  - intros res. rewrite get_string_run.
    destruct (popen E cmd) as [[| c out] |]; try discriminate.
    rewrite before_space_first_line. intros [= <-].
    destruct (before_space_split (String c out)) as (rest & Hs & Hrest).
    exists (String c out), rest.
    split; [reflexivity |]. split; [discriminate |]. split; [reflexivity |].
    split; [exact Hs |]. split; [exact (before_space_word (String c out)) | exact Hrest].
  - intros c rest Hc Hout. rewrite get_string_run, Hout, before_space_first_line.
    cbn [before_space]. unfold ends_word in Hc. rewrite Hc. reflexivity.
Qed.

Lemma get_string_longest_word_witness :
  get_string (probe_env ("1920x1080 px" +:+ C.nl)) "probe" = Some "1920x1080"
  /\ exists output rest,
       popen (probe_env ("1920x1080 px" +:+ C.nl)) "probe" = Some output
       /\ output = "1920x1080" +:+ rest
       /\ plain_word "1920x1080" = true.
Proof.
  assert (Hrun : get_string (probe_env ("1920x1080 px" +:+ C.nl)) "probe" = Some "1920x1080")
    by reflexivity.
  split; [exact Hrun |].
  destruct (proj1 (get_string_longest_word (probe_env ("1920x1080 px" +:+ C.nl)) "probe")
              _ Hrun) as (output & rest & Hout & _ & _ & Hsplit & Hword & _).
  exists output, rest. split; [exact Hout |]. split; [exact Hsplit | exact Hword].
Defined.

(** *** The icon driver, further *)

Lemma update_icon_run (E : Env) (pt : PowerPlugin) :
  update_icon E pt
  = if show_icon pt =? 0 then Ok (tt, pt, icon_hidden)
    else if decide (tooltip_concat E (show_icon pt) = "") then Crash OutOfBounds
    else Ok (tt, pt, icon_shown E (show_icon pt)).
Proof.
  destruct (Z.eqb_spec (show_icon pt) 0) as [H0 | Hn].
  - apply update_icon_hidden, H0.
  - unfold update_icon. run_act.
    assert (truthy (show_icon pt) = true) as ->
      by (unfold truthy; apply negb_true_iff, Z.eqb_neq, Hn).
    cbn [negb]. destruct (decide (tooltip_concat E (show_icon pt) = "")) as [-> | Hne].
    + reflexivity.
    + rewrite store_nul_last by assumption. reflexivity.
Qed.

(** X3. [update_icon] never changes the block, and what it tells the panel
    depends only on the flags and the catalogue: two blocks with the same
    [show_icon] make the same calls, so a repeated update of the display
    repeats them. The one way it can fail is the store before an empty
    tooltip: flags that are not 0 while no message contributes a character
    (no bit of the mask 7 set, or empty translations). *)
Theorem update_icon_pure (E : Env) (pt : PowerPlugin) :
  (forall a pt' out, update_icon E pt = Ok (a, pt', out) -> pt' = pt)
  /\ (forall other a out,
        show_icon other = show_icon pt ->
        update_icon E pt = Ok (a, pt, out) -> update_icon E other = Ok (a, other, out))
  /\ (forall a out,
        update_icon E pt = Ok (a, pt, out) ->
        (update_icon E ;; power_update_display E) pt = Ok (tt, pt, out ++ out))
  /\ (forall f, update_icon E pt = Crash f ->
        f = OutOfBounds /\ show_icon pt <> 0 /\ tooltip_concat E (show_icon pt) = "")
  /\ (show_icon pt <> 0 -> Z.land (show_icon pt) 7 = 0 ->
      update_icon E pt = Crash OutOfBounds).
Proof.
  split; [| split; [| split; [| split]]].
  - intros a pt' out. rewrite update_icon_run. destruct (show_icon pt =? 0); [congruence |].
    destruct (decide _); [discriminate | congruence].
  - intros other a out Hsame. rewrite !update_icon_run, Hsame.
    destruct (show_icon pt =? 0); [congruence |].
    destruct (decide _); [discriminate | congruence].
  - intros a out Hrun. unfold power_update_display, mbind, Act_bind.
    rewrite Hrun. cbv beta iota. rewrite Hrun. destruct a. reflexivity.
  - intros f. rewrite update_icon_run. destruct (Z.eqb_spec (show_icon pt) 0); [discriminate |].
    destruct (decide _); [| discriminate]. intros [= <-]. auto.
  - intros Hn Hmask. rewrite update_icon_run.
    destruct (Z.eqb_spec (show_icon pt) 0); [contradiction |].
    rewrite decide_True; [reflexivity |].
    rewrite tooltip_concat_parts. unfold tooltip_part.
    assert (Hnone : forall f, has_flag (show_icon pt) f = false).
    { intros f. unfold has_flag, truthy. apply negb_false_iff, Z.eqb_eq.
      apply Z.bits_inj'. intros i Hi. rewrite Z.bits_0, Z.land_spec.
      assert (Hbit : Z.testbit (Z.land (show_icon pt) 7) i = false)
        by (rewrite Hmask; apply Z.bits_0).
      rewrite Z.land_spec in Hbit.
      destruct (Z.testbit (show_icon pt) i); [| reflexivity]. cbn [andb] in *.
      destruct f; cbn [mask].
      - change ICON_LOW_VOLTAGE with (2 ^ 0). rewrite Z.pow2_bits_eqb by lia.
        destruct (Z.eqb_spec 0 i) as [<- |]; [discriminate | reflexivity].
      - change ICON_OVER_CURRENT with (2 ^ 1). rewrite Z.pow2_bits_eqb by lia.
        destruct (Z.eqb_spec 1 i) as [<- |]; [discriminate | reflexivity].
      - change ICON_BROWNOUT with (2 ^ 2). rewrite Z.pow2_bits_eqb by lia.
        destruct (Z.eqb_spec 2 i) as [<- |]; [discriminate | reflexivity]. }
    rewrite !Hnone. reflexivity.
Qed.

Lemma update_icon_pure_witness :
  show_icon (set_show_icon 8 initial) <> 0
  /\ Z.land (show_icon (set_show_icon 8 initial)) 7 = 0
  /\ update_icon (usb_env "1") (set_show_icon 8 initial) = Crash OutOfBounds.
Proof.
  assert (Hn : show_icon (set_show_icon 8 initial) <> 0) by discriminate.
  assert (Hm : Z.land (show_icon (set_show_icon 8 initial)) 7 = 0) by reflexivity.
  split; [exact Hn |]. split; [exact Hm |].
  exact (proj2 (proj2 (proj2 (proj2 (update_icon_pure (usb_env "1")
           (set_show_icon 8 initial))))) Hn Hm).
Defined.

(** *** The overcurrent callback, further *)

(** X4. What the overcurrent callback does with events outside the ones it
    acts on. With no device record, an action other than "change", a
    disable file that cannot be opened, is empty or begins with another
    byte, or a counter that does not parse, it emits nothing, changes
    nothing and stays attached; the counter is not even looked at unless
    the disable byte is the character 1. A port that is not named is
    looked up as /sys/(null)/disable. A change event on a disabled port
    that carries no OVER_CURRENT_COUNT makes [sscanf] read through NULL. *)
Theorem cb_overcurrent_fd_edges (E : Env) (pt : PowerPlugin) :
  cb_overcurrent_fd E None pt = Ok (G_SOURCE_CONTINUE, pt, [])
  /\ (forall dev,
        action dev <> Some "change" ->
        cb_overcurrent_fd E (Some dev) pt = Ok (G_SOURCE_CONTINUE, pt, []))
  /\ (forall dev,
        first_byte E (disable_path dev) <> Some "1"%char ->
        cb_overcurrent_fd E (Some dev) pt = Ok (G_SOURCE_CONTINUE, pt, []))
  /\ (forall dev s,
        properties dev !! "OVER_CURRENT_COUNT" = Some s -> C.sscanf_d s = None ->
        cb_overcurrent_fd E (Some dev) pt = Ok (G_SOURCE_CONTINUE, pt, []))
  /\ (forall dev,
        action dev = Some "change" ->
        first_byte E (disable_path dev) = Some "1"%char ->
        properties dev !! "OVER_CURRENT_COUNT" = None ->
        cb_overcurrent_fd E (Some dev) pt = Crash NullPointer)
  /\ (forall dev,
        properties dev !! "OVER_CURRENT_PORT" = None ->
        disable_path dev = "/sys/(null)/disable").
Proof.
  split; [reflexivity |]. split; [| split; [| split; [| split]]].
  - intros dev Hact. unfold cb_overcurrent_fd, udev_device_get_action.
    destruct (C.g_strcmp0_eq (action dev) "change") eqn:Hcmp; [| reflexivity].
    apply g_strcmp0_eq_spec in Hcmp. contradiction.
  - intros dev Hbyte. unfold cb_overcurrent_fd, udev_device_get_property_value.
    fold (disable_path dev).
    destruct (C.g_strcmp0_eq _ "change"); [| reflexivity].
    destruct (fopen E (disable_path dev)) as [fp |] eqn:Hopen; [| reflexivity].
    destruct (fst (C.fgetc fp) =? 49) eqn:Hfp; [| reflexivity].
    exfalso. apply Hbyte. apply first_byte_spec. exists fp. split; assumption.
  - intros dev s Hs Hscan. unfold cb_overcurrent_fd, udev_device_get_property_value.
    destruct (C.g_strcmp0_eq _ "change"); [| reflexivity].
    destruct (fopen E _) as [fp |]; [| reflexivity].
    destruct (fst (C.fgetc fp) =? 49); [| reflexivity].
    rewrite Hs. unfold sscanf_property. rewrite Hscan. reflexivity.
  - intros dev Hact Hbyte Hnone.
    apply g_strcmp0_eq_spec in Hact.
    apply first_byte_spec in Hbyte as (fp & Hopen & Hbyte).
    unfold cb_overcurrent_fd, udev_device_get_action, udev_device_get_property_value.
    fold (disable_path dev). rewrite Hact, Hopen.
    change (C.code "1") with 49 in Hbyte. rewrite Hbyte, Hnone. reflexivity.
  - intros dev Hnone. unfold disable_path. rewrite Hnone. reflexivity.
Qed.

Lemma cb_overcurrent_fd_edges_witness :
  action usb_event_without_count = Some "change"
  /\ first_byte (usb_env "1") (disable_path usb_event_without_count) = Some "1"%char
  /\ properties usb_event_without_count !! "OVER_CURRENT_COUNT" = None
  /\ cb_overcurrent_fd (usb_env "1") (Some usb_event_without_count) initial
     = Crash NullPointer
  /\ cb_overcurrent_fd (usb_env "0") (Some usb_event_without_count) initial
     = Ok (G_SOURCE_CONTINUE, initial, []).
Proof.
  assert (Hb : first_byte (usb_env "1") (disable_path usb_event_without_count)
               = Some "1"%char) by (vm_compute; reflexivity).
  assert (Hn : properties usb_event_without_count !! "OVER_CURRENT_COUNT" = None)
    by (vm_compute; reflexivity).
  split; [reflexivity |]. split; [exact Hb |]. split; [exact Hn |]. split.
  - exact (proj1 (proj2 (proj2 (proj2 (proj2
             (cb_overcurrent_fd_edges (usb_env "1") initial)))))
             usb_event_without_count eq_refl Hb Hn).
  - refine (proj1 (proj2 (proj2 (cb_overcurrent_fd_edges (usb_env "0") initial)))
              usb_event_without_count _).
    vm_compute. discriminate.
Defined.

(** *** The low-voltage callback, further *)

Lemma notifications_app (a b : list sink_call) :
  notifications (a ++ b) = notifications a ++ notifications b.
Proof. unfold notifications. apply filter_app. Qed.

Lemma notifications_icon_shown (E : Env) (flags : Z) : notifications (icon_shown E flags) = [].
Proof. reflexivity. Qed.

Lemma alarms_run (evs : list (Env * udev_device)) :
  Forall (fun ev => keeps_line_breaks (gettext ev.1) /\ low_voltage_alarm ev.1 ev.2) evs ->
  forall pt, exists out,
    perform_all (alarms evs) pt
    = Ok (tt, match evs with
              | [] => pt
              | _ => set_show_icon (Z.lor (show_icon pt) ICON_LOW_VOLTAGE) pt
              end, out)
    /\ notifications out = map (fun ev => Critical (gettext ev.1 LOW_VOLTAGE_WARNING)) evs.
Proof.
  induction 1 as [| [E dev] evs [Hcat Halarm] _ IH]; intros pt.
  - exists []. split; reflexivity.
  - cbn [fst snd] in Hcat, Halarm.
    destruct (IH (set_show_icon (Z.lor (show_icon pt) ICON_LOW_VOLTAGE) pt))
      as (out & Hrun & Hn).
    eexists. split.
    + change (perform_all (alarms ((E, dev) :: evs)) pt)
        with ((finish (cb_lowvoltage_fd E (Some dev)) ;; perform_all (alarms evs)) pt).
      unfold finish, mbind, Act_bind.
      rewrite (cb_lowvoltage_fd_alarm E dev pt Hcat Halarm). cbv zeta beta iota.
      unfold skip at 1, mret, Act_ret. cbv beta iota.
      rewrite Hrun. destruct evs.
      * reflexivity.
      * cbn [show_icon set_show_icon]. rewrite lor_twice. reflexivity.
    + rewrite !notifications_app, Hn. reflexivity.
Qed.

(** X5. The low-voltage callback does not deduplicate: of any sequence of
    events with the alarm asserted every single one emits its Critical
    notification. The LowVoltage flag is set by the first and the block
    then stays as it is, so a repeated alarm changes what the user is told
    but not the state. *)
Theorem cb_lowvoltage_fd_repeats (evs : list (Env * udev_device)) (pt : PowerPlugin) :
  Forall (fun ev => keeps_line_breaks (gettext ev.1) /\ low_voltage_alarm ev.1 ev.2) evs ->
  exists out,
    perform_all (alarms evs) pt
    = Ok (tt, match evs with
              | [] => pt
              | _ => set_show_icon (Z.lor (show_icon pt) ICON_LOW_VOLTAGE) pt
              end, out)
    /\ notifications out = map (fun ev => Critical (gettext ev.1 LOW_VOLTAGE_WARNING)) evs
    /\ length (notifications out) = length evs.
Proof.
  intros H. destruct (alarms_run evs H pt) as (out & Hrun & Hn).
  exists out. split; [exact Hrun |]. split; [exact Hn |].
  rewrite Hn. apply length_map.
Qed.

Lemma cb_lowvoltage_fd_repeats_witness :
  let evs := [(hwmon_env "1", hwmon_event); (hwmon_env "1", hwmon_event);
              (hwmon_env "1", hwmon_event)] in
  Forall (fun ev => keeps_line_breaks (gettext ev.1) /\ low_voltage_alarm ev.1 ev.2) evs
  /\ exists out,
       perform_all (alarms evs) initial = Ok (tt, set_show_icon ICON_LOW_VOLTAGE initial, out)
       /\ notifications out
          = [Critical LOW_VOLTAGE_WARNING; Critical LOW_VOLTAGE_WARNING;
             Critical LOW_VOLTAGE_WARNING].
Proof.
  intros evs.
  assert (Halarm : low_voltage_alarm (hwmon_env "1") hwmon_event).
  { split; [reflexivity |]. split; [exists "3"; reflexivity | vm_compute; reflexivity]. }
  assert (H : Forall (fun ev => keeps_line_breaks (gettext ev.1)
                                /\ low_voltage_alarm ev.1 ev.2) evs).
  { constructor; [split; [exact untranslated_keeps_line_breaks | exact Halarm] |].
    constructor; [split; [exact untranslated_keeps_line_breaks | exact Halarm] |].
    constructor; [split; [exact untranslated_keeps_line_breaks | exact Halarm] |].
    constructor. }
  split; [exact H |].
  destruct (cb_lowvoltage_fd_repeats evs initial H) as (out & Hrun & Hn & _).
  exists out. split; [exact Hrun | exact Hn].
Defined.

(** *** The start-up task *)

Lemma check_brownout_run (E : Env) (pt : PowerPlugin) :
  keeps_line_breaks (gettext E) ->
  exists pt1 out,
    check_brownout E pt = Ok (tt, pt1, out)
    /\ (pt1 = pt /\ out = []
        \/ pt1 = set_show_icon (Z.lor (show_icon pt) ICON_BROWNOUT) pt
           /\ notifications out = [Critical (gettext E LOW_POWER_RESET)]).
Proof.
  intros Hcat.
  destruct (fopen E (POWER_PATH +:+ "power_reset")) as [fp |] eqn:Hopen.
  - destruct (low_power_reset fp) eqn:Hbit.
    + eexists _, _. split; [apply (check_brownout_reset E pt fp Hcat Hopen Hbit) |].
      right. split; reflexivity.
    + exists pt, []. split; [| left; split; reflexivity].
      apply check_brownout_quiet. intros fp' Hfp'. congruence.
  - exists pt, []. split; [| left; split; reflexivity].
    apply check_brownout_quiet. intros fp' Hfp'. congruence.
Qed.

(** X6. The start-up task is its four checks in the order PSU, brown-out,
    memory and resolution, user warnings: it emits what they emit, in that
    order, the later checks running on the block the brown-out check left;
    then it clears [startup_id] and returns G_SOURCE_REMOVE. It completes
    in every environment whose catalogue keeps final line breaks, and of
    the block it changes nothing but [startup_id] and, at most, the
    Brownout flag. *)
Theorem startup_checks_sequence (E : Env) (pt : PowerPlugin) :
  keeps_line_breaks (gettext E) ->
  exists psu brownout memres warnings pt1,
    check_psu E pt = Ok (tt, pt, psu)
    /\ check_brownout E pt = Ok (tt, pt1, brownout)
    /\ check_memres E pt1 = Ok (tt, pt1, memres)
    /\ check_user_warnings E pt1 = Ok (tt, pt1, warnings)
    /\ startup_checks E pt
       = Ok (G_SOURCE_REMOVE, set_startup_id 0 pt1, psu ++ brownout ++ memres ++ warnings)
    /\ (pt1 = pt \/ pt1 = set_show_icon (Z.lor (show_icon pt) ICON_BROWNOUT) pt).
Proof.
  intros Hcat.
  destruct (check_psu_total E pt) as (psu & Hpsu).
  destruct (check_brownout_run E pt Hcat) as (pt1 & brownout & Hbrown & Hpt1).
  pose proof (check_memres_run E pt1) as Hmem.
  destruct (check_user_warnings_total E pt1) as (warnings & Hwarn).
  exists psu, brownout; eexists; exists warnings, pt1.
  split; [exact Hpsu |]. split; [exact Hbrown |]. split; [exact Hmem |].
  split; [exact Hwarn |]. split.
  - unfold startup_checks, mbind, Act_bind.
    rewrite Hpsu, Hbrown, Hmem, Hwarn. unfold put, mret, Act_ret.
    rewrite !app_nil_r. reflexivity.
  - destruct Hpt1 as [[H _] | [H _]]; auto.
Qed.

Lemma startup_checks_sequence_witness :
  keeps_line_breaks (gettext (reset_env [0; 0; 0; 2]))
  /\ exists out,
       startup_checks (reset_env [0; 0; 0; 2]) initial
       = Ok (G_SOURCE_REMOVE, set_startup_id 0 (set_show_icon ICON_BROWNOUT initial), out)
       /\ notifications out = [Critical LOW_POWER_RESET].
Proof.
  split; [exact untranslated_keeps_line_breaks |].
  destruct (startup_checks_sequence (reset_env [0; 0; 0; 2]) initial
              untranslated_keeps_line_breaks)
    as (psu & brownout & memres & warnings & pt1 & Hpsu & Hbrown & Hmem & Hwarn & Hrun & _).
  vm_compute in Hpsu, Hbrown. injection Hpsu as <-. injection Hbrown as <- <-.
  vm_compute in Hmem, Hwarn. injection Hmem as <-. injection Hwarn as <-.
  eexists. split; [exact Hrun |]. reflexivity.
Defined.

(** *** The flags stay a set of hazards *)

Lemma flags_in_mask_lor (flags : Z) (f : hazard) :
  flags_in_mask flags -> flags_in_mask (Z.lor flags (mask f)).
Proof.
  unfold flags_in_mask. intros H.
  assert (flags = 0 \/ flags = 1 \/ flags = 2 \/ flags = 3 \/ flags = 4 \/ flags = 5
          \/ flags = 6 \/ flags = 7) as Hc by lia.
  destruct Hc as [-> | [-> | [-> | [-> | [-> | [-> | [-> | ->]]]]]]];
    destruct f; compute; (split; [discriminate | reflexivity]).
Qed.

Lemma perform_in_mask (E : Env) (op : operation) (pt : PowerPlugin) :
  flags_in_mask (show_icon pt) ->
  post (perform E op) pt (fun _ pt' => flags_in_mask (show_icon pt')).
Proof.
  intros H.
  pose proof (flags_in_mask_lor _ LowVoltage H) as Hlv.
  pose proof (flags_in_mask_lor _ OverCurrent H) as Hoc.
  pose proof (flags_in_mask_lor _ Brownout H) as Hbo.
  destruct op; unfold perform, finish, power_update_display.
  - apply post_bind, post_cb_overcurrent_fd; [| intros val]; apply post_ret; assumption.
  - apply post_bind, post_cb_lowvoltage_fd; apply post_ret; assumption.
  - apply post_check_psu, H.
  - apply post_check_brownout; assumption.
  - apply post_check_memres, H.
  - apply post_check_user_warnings, H.
  - apply post_bind, post_startup_checks; apply post_ret; assumption.
  - apply post_update_icon, H.
Qed.

Lemma perform_all_in_mask (ops : list (Env * operation)) (pt : PowerPlugin) :
  flags_in_mask (show_icon pt) ->
  post (perform_all ops) pt (fun _ pt' => flags_in_mask (show_icon pt')).
Proof.
  revert pt. induction ops as [| [E op] ops IH]; intros pt H.
  - apply post_ret, H.
  - unfold perform_all. cbn [foldr fst snd]. apply post_bind.
    eapply post_conseq; [apply perform_in_mask, H |].
    intros ? pt1 H1. apply IH, H1.
Qed.

(** X7. The flags stay a set of hazards: from a block whose [show_icon]
    has no bit outside the mask 7 (as [power_init] leaves it) no operation
    and no sequence of operations sets one. With such flags, and a
    catalogue that keeps final line breaks, the update of the icon cannot
    fail, so the store that shortens the tooltip is never out of bounds
    in a run of the plugin. *)
Theorem flags_stay_in_mask (ops : list (Env * operation)) (pt pt' : PowerPlugin)
  (out : list sink_call) :
  flags_in_mask (show_icon pt) ->
  perform_all ops pt = Ok (tt, pt', out) ->
  flags_in_mask (show_icon pt')
  /\ (forall E, keeps_line_breaks (gettext E) ->
        exists calls, power_update_display E pt' = Ok (tt, pt', calls)).
Proof.
  intros H Hrun.
  pose proof (perform_all_in_mask ops pt H tt pt' out Hrun) as H'. cbv beta in H'.
  split; [exact H' |]. intros E Hcat. unfold power_update_display.
  rewrite update_icon_run. destruct (Z.eqb_spec (show_icon pt') 0) as [H0 | Hn].
  - eexists. reflexivity.
  - rewrite decide_False; [eexists; reflexivity |].
    apply ends_with_nl_nonempty, tooltip_concat_ends; [exact Hcat |].
    apply flag_set_cases; assumption.
Qed.

Lemma flags_stay_in_mask_witness :
  let ops := [(usb_env "1", OpOvercurrent (Some (usb_event "7")));
              (reset_env [0; 0; 0; 2], OpStartupChecks)] in
  flags_in_mask (show_icon initial)
  /\ exists pt' out,
       perform_all ops initial = Ok (tt, pt', out)
       /\ flags_in_mask (show_icon pt').
Proof.
  intros ops.
  assert (H : flags_in_mask (show_icon initial)) by (unfold flags_in_mask; cbn; lia).
  assert (Hrun : exists pt' out, perform_all ops initial = Ok (tt, pt', out))
    by (eexists _, _; vm_compute; reflexivity).
  destruct Hrun as (pt' & out & Hrun).
  split; [exact H |]. exists pt', out. split; [exact Hrun |].
  exact (proj1 (flags_stay_in_mask ops initial pt' out H Hrun)).
Defined.

(** *** What the operations leave alone *)

Lemma perform_last_oc (E : Env) (op : operation) (pt : PowerPlugin) :
  not_overcurrent op = true ->
  post (perform E op) pt (fun _ pt' => last_oc pt' = last_oc pt).
Proof.
  intros Hop. destruct op; try discriminate; unfold perform, finish, power_update_display.
  - apply post_bind, post_cb_lowvoltage_fd; apply post_ret; reflexivity.
  - apply post_check_psu. reflexivity.
  - apply post_check_brownout; reflexivity.
  - apply post_check_memres. reflexivity.
  - apply post_check_user_warnings. reflexivity.
  - apply post_bind, post_startup_checks; apply post_ret; reflexivity.
  - apply post_update_icon. reflexivity.
Qed.

(** X8. No callback and no check ever writes a handle: over every sequence
    of operations the event source, the two monitors and the ids of the two
    event sources stay what [power_init] made them, and [startup_id] is
    either unchanged or 0. The stored overcurrent counter is written by
    the overcurrent callback alone. *)
Theorem handles_are_not_touched :
  (forall ops pt pt' out,
     perform_all ops pt = Ok (tt, pt', out) ->
     udev pt' = udev pt /\ udev_mon_oc pt' = udev_mon_oc pt
     /\ udev_mon_lv pt' = udev_mon_lv pt
     /\ overcurrent_id pt' = overcurrent_id pt /\ lowvoltage_id pt' = lowvoltage_id pt
     /\ (startup_id pt' = startup_id pt \/ startup_id pt' = 0))
  /\ (forall E op pt pt' out,
        not_overcurrent op = true ->
        perform E op pt = Ok (tt, pt', out) -> last_oc pt' = last_oc pt).
Proof.
  split.
  - intros ops pt pt' out Hrun.
    destruct (perform_all_evolves ops pt tt pt' out Hrun). auto 10.
  - intros E op pt pt' out Hop Hrun.
    exact (perform_last_oc E op pt Hop tt pt' out Hrun).
Qed.

Lemma handles_are_not_touched_witness :
  exists pt' out,
    perform_all [(usb_env "1", OpOvercurrent (Some (usb_event "7")));
                 (reset_env [0; 0; 0; 2], OpStartupChecks)] initial = Ok (tt, pt', out)
    /\ udev pt' = udev initial
    /\ overcurrent_id pt' = overcurrent_id initial
    /\ startup_id pt' = 0.
Proof.
  assert (Hrun : exists pt' out,
             perform_all [(usb_env "1", OpOvercurrent (Some (usb_event "7")));
                          (reset_env [0; 0; 0; 2], OpStartupChecks)] initial
             = Ok (tt, pt', out) /\ startup_id pt' = 0)
    by (eexists _, _; split; vm_compute; reflexivity).
  destruct Hrun as (pt' & out & Hrun & H0).
  destruct (proj1 handles_are_not_touched _ _ _ _ Hrun) as (Hu & _ & _ & Hoc & _).
  exists pt', out. auto.
Defined.

(** *** Initialisation *)

Lemma truthy_pos (x : Z) : 0 < x -> truthy x = true.
Proof. intros H. unfold truthy. destruct (Z.eqb_spec x 0); [lia | reflexivity]. Qed.

Ltac run_init :=
  repeat first
    [ progress cbv [mbind Life_bind mret Life_ret store when udev_create g_source_attach
                    block sources objects next_id next_object panel
                    udev_new_ok monitor_oc_ok monitor_lv_ok]
    | rewrite truthy_pos by lia
    | change (truthy NULL) with false ].

Ltac init_fields :=
  unfold NULL;
  cbn [show_icon last_oc overcurrent_id lowvoltage_id startup_id udev_mon_oc udev_mon_lv
       udev set_show_icon set_udev set_udev_mon_oc set_udev_mon_lv set_overcurrent_id
       set_lowvoltage_id set_last_oc set_startup_id block sources objects next_id
       next_object panel].

Ltac init_lookup :=
  repeat (rewrite lookup_insert_ne by lia);
  first [ apply lookup_insert_eq | assumption ].

Lemma power_init_on_pi (E : Env) (U : Udev) (h : Host) (pt0 : PowerPlugin) :
  block h = Some pt0 -> allocator_ok h -> is_pi E = true ->
  exists h' pt,
    power_init E U h = Ok (tt, h') /\ block h' = Some pt
    /\ show_icon pt = 0 /\ last_oc pt = -1
    /\ handles_alive_prop h' pt /\ allocator_ok h'
    /\ (forall id cb, sources h !! id = Some cb -> sources h' !! id = Some cb)
    /\ objects h ⊆ objects h'
    /\ panel h' = panel h
    /\ 0 < startup_id pt
    /\ (0 < overcurrent_id pt <-> monitor_oc_ok U = true)
    /\ (0 < lowvoltage_id pt <-> monitor_lv_ok U = true)
    /\ (udev_mon_oc pt <> NULL <-> monitor_oc_ok U = true)
    /\ (udev_mon_lv pt <> NULL <-> monitor_lv_ok U = true)
    /\ (udev pt <> NULL <-> udev_new_ok U = true).
Proof.
  intros Hb (Hid & Hobj & Hsrc & Hlive) Hpi.
  destruct h as [b attached live ni no pn].
  cbn [block next_id next_object sources objects] in *. subst b.
  unfold power_init. rewrite Hpi.
  destruct U as [[] [] []]; run_init;
    eexists _, _; (split; [reflexivity |]); (split; [reflexivity |]);
    init_fields; (split; [reflexivity |]); (split; [reflexivity |]).
  all: split; [unfold handles_alive_prop; init_fields;
               repeat split; intros; try lia; try congruence; try init_lookup;
               try (set_unfold; lia) |].
  all: split; [unfold allocator_ok; init_fields;
               split; [lia |]; split; [lia |]; split;
               [ intros id cb Hl;
                 repeat (apply lookup_insert_Some in Hl as [[<- _] | [_ Hl]]; [lia |]);
                 specialize (Hsrc _ _ Hl); lia
               | intros p Hp; set_unfold;
                 repeat (destruct Hp as [-> | Hp]; [lia |]);
                 first [ specialize (Hlive _ Hp); lia | lia ] ] |].
  all: split; [intros id cb Hl; pose proof (Hsrc _ _ Hl);
               repeat (rewrite lookup_insert_ne by lia); exact Hl |].
  all: split; [set_solver |].
  all: split; [reflexivity |].
  all: repeat split; intros; try lia; try congruence; try discriminate.
Qed.

Lemma power_init_off_pi (E : Env) (U : Udev) (h : Host) (pt0 : PowerPlugin) :
  block h = Some pt0 -> is_pi E = false ->
  power_init E U h
  = Ok (tt, mkHost (Some (mkPowerPlugin 0 0 0 0 0 0 (last_oc pt0) 0))
              (sources h) (objects h) (next_id h) (next_object h) (panel h)).
Proof.
  intros Hb Hpi. destruct h as [b attached live ni no pn]. cbn [block] in Hb. subst b.
  unfold power_init. rewrite Hpi. reflexivity.
Qed.

(** X9. [power_init] succeeds on every block, whatever it held, in a
    process whose allocators are sound: it leaves the flags empty, every
    handle of the block alive and distinct, and everything that was
    attached or alive before in place. On a Pi the counter is -1, the
    start-up task is scheduled, and each event source is attached exactly
    when its monitor could be created. Off a Pi nothing is created or
    attached, every handle is 0 and [last_oc] is left as it was found. *)
Theorem power_init_handles (E : Env) (U : Udev) (h : Host) (pt0 : PowerPlugin) :
  block h = Some pt0 -> allocator_ok h ->
  exists h' pt,
    power_init E U h = Ok (tt, h') /\ block h' = Some pt
    /\ show_icon pt = 0
    /\ handles_alive h' pt = true
    /\ allocator_ok h'
    /\ (forall id cb, sources h !! id = Some cb -> sources h' !! id = Some cb)
    /\ objects h ⊆ objects h'
    /\ (is_pi E = true ->
        last_oc pt = -1 /\ 0 < startup_id pt
        /\ (0 < overcurrent_id pt <-> monitor_oc_ok U = true)
        /\ (0 < lowvoltage_id pt <-> monitor_lv_ok U = true)
        /\ (udev_mon_oc pt <> NULL <-> monitor_oc_ok U = true)
        /\ (udev_mon_lv pt <> NULL <-> monitor_lv_ok U = true)
        /\ (udev pt <> NULL <-> udev_new_ok U = true))
    /\ (is_pi E = false ->
        sources h' = sources h /\ objects h' = objects h
        /\ pt = mkPowerPlugin 0 0 0 0 0 0 (last_oc pt0) 0).
Proof.
  intros Hb Hok. destruct (is_pi E) eqn:Hpi.
  - destruct (power_init_on_pi E U h pt0 Hb Hok Hpi)
      as (h' & pt & Hrun & Hb' & Hs & Hl & Ha & Hok' & Hsrc & Hobj & _ & Hrest).
    exists h', pt. split; [exact Hrun |]. split; [exact Hb' |]. split; [exact Hs |].
    split; [apply handles_alive_spec, Ha |]. split; [exact Hok' |].
    split; [exact Hsrc |]. split; [exact Hobj |].
    split; [intros _; split; [exact Hl | exact Hrest] | discriminate].
  - eexists _, _. split; [apply (power_init_off_pi E U h pt0 Hb Hpi) |].
    split; [reflexivity |]. split; [reflexivity |]. split; [reflexivity |].
    split; [destruct h; exact Hok |]. split; [auto |]. split; [reflexivity |].
    split; [discriminate |]. intros _. split; [reflexivity |]. split; reflexivity.
Qed.

Lemma power_init_handles_witness :
  block fresh_host = Some zeroed /\ allocator_ok fresh_host
  /\ exists h pt,
       power_init (usb_env "1") (mkUdev true false true) fresh_host = Ok (tt, h)
       /\ block h = Some pt
       /\ handles_alive h pt = true
       /\ overcurrent_id pt = 0 /\ 0 < lowvoltage_id pt /\ 0 < startup_id pt.
Proof.
  assert (Hok : allocator_ok fresh_host).
  { split; [reflexivity |]. split; [reflexivity |]. split.
    - intros id cb Hl. cbn in Hl. rewrite lookup_empty in Hl. discriminate.
    - intros p Hp. cbn in Hp. apply not_elem_of_empty in Hp. contradiction. }
  split; [reflexivity |]. split; [exact Hok |].
  destruct (power_init_handles (usb_env "1") (mkUdev true false true) fresh_host zeroed
              eq_refl Hok)
    as (h & pt & Hrun & Hb & _ & Ha & _ & _ & _ & Hpi & _).
  destruct (Hpi eq_refl) as (_ & Hst & Hoc & Hlv & _).
  exists h, pt. split; [exact Hrun |]. split; [exact Hb |]. split; [exact Ha |].
  split; [| split; [apply Hlv; reflexivity | exact Hst]].
  vm_compute in Hrun. injection Hrun as <-. injection Hb as <-. reflexivity.
Defined.

(** *** The main loop *)

(** X10. The start-up task runs once: when the main loop dispatches the
    idle source, [startup_checks] returns G_SOURCE_REMOVE, the source is
    gone and [startup_id] is 0, so dispatching that id again does nothing.
    The two event callbacks always return G_SOURCE_CONTINUE: whatever the
    event, their sources stay attached. An id that is not attached is not
    dispatched. *)
Theorem startup_task_runs_once (E : Env) (id : Z) (dev : option udev_device) (h h' : Host) :
  handle (Dispatch E id dev) h = Ok (tt, h') ->
  (sources h !! id = Some StartupChecks ->
   sources h' = delete id (sources h)
   /\ (exists pt', block h' = Some pt' /\ startup_id pt' = 0)
   /\ (forall E' dev', handle (Dispatch E' id dev') h' = Ok (tt, h')))
  /\ (sources h !! id = Some OvercurrentFd \/ sources h !! id = Some LowvoltageFd ->
      sources h' = sources h)
  /\ (sources h !! id = None -> h' = h)
  /\ objects h' = objects h.
Proof.
  destruct h as [b attached live ni no pn]. unfold handle. cbn [sources objects].
  destruct (attached !! id) as [cb |] eqn:Hid.
  2:{ intros [= <-]. split; [discriminate |]. split; [intros [H | H]; discriminate |].
      split; reflexivity. }
  unfold mbind, Life_bind, run_callback. cbn [block].
  destruct b as [pt |]; [| discriminate].
  destruct (callback E cb dev pt) as [[[keep pt1] out] |] eqn:Hrun; [| discriminate].
  destruct cb; cbn [callback] in Hrun.
  - destruct (startup_checks_done E pt keep pt1 out Hrun) as (-> & _ & H0).
    unfold when, g_source_remove. cbn [negb G_SOURCE_REMOVE sources block].
    rewrite Hid. intros [= <-]. cbn [sources objects block].
    split; [| split; [intros [H | H]; discriminate | split; [discriminate | reflexivity]]].
    intros _. split; [reflexivity |]. split; [exists pt1; split; [reflexivity | exact H0] |].
    intros E' dev'. unfold handle. cbn [sources]. rewrite lookup_delete_eq. reflexivity.
  - destruct (cb_overcurrent_fd_continues E dev pt keep pt1 out Hrun) as (-> & _ & _).
    cbn [when negb G_SOURCE_CONTINUE]. intros [= <-]. cbn [sources objects].
    split; [discriminate |]. split; [reflexivity |]. split; [discriminate | reflexivity].
  - destruct (cb_lowvoltage_fd_continues E dev pt keep pt1 out Hrun) as (-> & _ & _).
    cbn [when negb G_SOURCE_CONTINUE]. intros [= <-]. cbn [sources objects].
    split; [discriminate |]. split; [reflexivity |]. split; [discriminate | reflexivity].
Qed.

Lemma startup_task_runs_once_witness :
  exists h h',
    power_init (usb_env "1") (mkUdev true true true) fresh_host = Ok (tt, h)
    /\ sources h !! 3 = Some StartupChecks
    /\ handle (Dispatch (reset_env [0; 0; 0; 2]) 3 None) h = Ok (tt, h')
    /\ sources h' = delete 3 (sources h)
    /\ handle (Dispatch (reset_env [0; 0; 0; 2]) 3 None) h' = Ok (tt, h').
Proof.
  assert (Hrun : exists h h',
             power_init (usb_env "1") (mkUdev true true true) fresh_host = Ok (tt, h)
             /\ sources h !! 3 = Some StartupChecks
             /\ handle (Dispatch (reset_env [0; 0; 0; 2]) 3 None) h = Ok (tt, h'))
    by (eexists _, _; split; [| split]; vm_compute; reflexivity).
  destruct Hrun as (h & h' & Hinit & Hid & Hrun).
  destruct (proj1 (startup_task_runs_once _ _ _ _ _ Hrun) Hid) as (Hs & _ & Hagain).
  exists h, h'. split; [exact Hinit |]. split; [exact Hid |]. split; [exact Hrun |].
  split; [exact Hs | apply Hagain].
Defined.

(** *** Nothing is left behind *)

Lemma power_init_owned (E : Env) (U : Udev) :
  exists h pt,
    power_init E U fresh_host = Ok (tt, h) /\ block h = Some pt
    /\ handles_alive_prop h pt /\ owned h pt.
Proof.
  unfold power_init. destruct (is_pi E), U as [[] [] []];
    eexists _, _; (split; [vm_compute; reflexivity |]); (split; [reflexivity |]);
    (split; [apply handles_alive_spec; reflexivity |]);
    apply (bool_decide_unpack _); vm_compute; exact I.
Qed.

Lemma owned_evolves (h h' : Host) (pt pt' : PowerPlugin) :
  owned h pt -> evolves pt pt' -> startup_id pt' = startup_id pt ->
  sources h' = sources h -> objects h' = objects h ->
  owned h' pt'.
Proof.
  intros [Hs Ho] [_ Hu Hmo Hml Hoi Hli _] Hst Hsrc Hobj. unfold owned.
  rewrite Hsrc, Hobj, Hst, Hu, Hmo, Hml, Hoi, Hli.
  split; assumption.
Qed.

Lemma owned_startup_done (h h' : Host) (pt pt' : PowerPlugin) (id : Z) :
  owned h pt -> handles_alive_prop h pt -> evolves pt pt' -> startup_id pt' = 0 ->
  sources h !! id = Some StartupChecks ->
  sources h' = delete id (sources h) -> objects h' = objects h ->
  owned h' pt'.
Proof.
  intros [Hs Ho] Ha [_ Hu Hmo Hml Hoi Hli _] H0 Hid Hsrc Hobj. unfold owned.
  rewrite Hsrc, Hobj, H0, Hu, Hmo, Hml, Hoi, Hli.
  split; [| exact Ho].
  intros id' cb Hl. apply lookup_delete_Some in Hl as [Hne Hl].
  destruct (Hs id' cb Hl) as (Hpos & [Hc | [Hc | [Heq ->]]]).
  - split; [exact Hpos | left; exact Hc].
  - split; [exact Hpos | right; left; exact Hc].
  - exfalso. apply Hne.
    destruct (Hs id _ Hid) as (_ & [[_ Hc] | [[_ Hc] | [Hc _]]]); try discriminate.
    congruence.
Qed.

Lemma handle_keeps_owned (ev : event) (h h' : Host) (pt : PowerPlugin) :
  block h = Some pt -> handles_alive_prop h pt -> owned h pt ->
  handle ev h = Ok (tt, h') ->
  exists pt', block h' = Some pt' /\ handles_alive_prop h' pt' /\ owned h' pt'.
Proof.
  intros Hb Ha Hown Hrun.
  destruct (handle_keeps_alive ev h h' pt Hb Ha Hrun) as (pt' & Hb' & Ha' & Hev).
  exists pt'. split; [exact Hb' |]. split; [exact Ha' |].
  destruct h as [b attached live ni no pn]. cbn [block] in Hb. subst b.
  destruct ev as [E id dev | E]; unfold handle in Hrun.
  - cbn [sources] in Hrun. destruct (attached !! id) as [cb |] eqn:Hid.
    2:{ injection Hrun as <-. cbn [block] in Hb'. injection Hb' as <-. exact Hown. }
    unfold mbind, Life_bind, run_callback in Hrun. cbn [block] in Hrun.
    destruct (callback E cb dev pt) as [[[keep pt1] out] |] eqn:Hcb; [| discriminate].
    destruct cb; cbn [callback] in Hcb.
    + destruct (startup_checks_done E pt keep pt1 out Hcb) as (-> & _ & H0).
      unfold when, g_source_remove in Hrun. cbn [negb G_SOURCE_REMOVE sources block] in Hrun.
      rewrite Hid in Hrun. injection Hrun as <-. cbn [block] in Hb'. injection Hb' as <-.
      eapply owned_startup_done; try eassumption; reflexivity.
    + destruct (cb_overcurrent_fd_continues E dev pt keep pt1 out Hcb) as (-> & _ & Hst).
      cbn [when negb G_SOURCE_CONTINUE] in Hrun. injection Hrun as <-.
      cbn [block] in Hb'. injection Hb' as <-.
      eapply owned_evolves; try eassumption; reflexivity.
    + destruct (cb_lowvoltage_fd_continues E dev pt keep pt1 out Hcb) as (-> & _ & Hst).
      cbn [when negb G_SOURCE_CONTINUE] in Hrun. injection Hrun as <-.
      cbn [block] in Hb'. injection Hb' as <-.
      eapply owned_evolves; try eassumption; reflexivity.
  - unfold run_callback, power_update_display in Hrun. cbn [block] in Hrun.
    destruct (update_icon E pt) as [[[[] pt1] out] |] eqn:Hicon; [| discriminate].
    injection Hrun as <-. cbn [block] in Hb'. injection Hb' as <-.
    assert (pt1 = pt) as -> by exact (proj1 (update_icon_pure E pt) _ _ _ Hicon).
    exact Hown.
Qed.

Lemma handle_all_keeps_owned (evs : list event) (h h' : Host) (pt : PowerPlugin) :
  block h = Some pt -> handles_alive_prop h pt -> owned h pt ->
  handle_all evs h = Ok (tt, h') ->
  exists pt', block h' = Some pt' /\ handles_alive_prop h' pt' /\ owned h' pt'.
Proof.
  revert h pt. induction evs as [| ev evs IH]; intros h pt Hb Ha Hown.
  - intros [= <-]. exists pt. auto.
  - unfold handle_all. cbn [foldr]. unfold mbind at 1, Life_bind at 1.
    destruct (handle ev h) as [[[] h1] |] eqn:Hev; [| discriminate].
    destruct (handle_keeps_owned ev h h1 pt Hb Ha Hown Hev) as (pt1 & Hb1 & Ha1 & Hown1).
    intros Hrest. exact (IH h1 pt1 Hb1 Ha1 Hown1 Hrest).
Qed.

Lemma drop_object_subset (p q : Z) (live : gset Z) :
  p ∈ drop_object q live -> p ∈ live.
Proof.
  unfold drop_object. destruct (truthy q); [| auto].
  rewrite elem_of_difference. tauto.
Qed.

Lemma lookup_drop_source_Some (id id' : Z) (cb : handler) (attached : gmap Z handler) :
  drop_source id' attached !! id = Some cb -> attached !! id = Some cb.
Proof.
  unfold drop_source. destruct (id' >? 0); [| auto].
  rewrite lookup_delete_Some. tauto.
Qed.

Lemma torn_down_empty (h : Host) (pt : PowerPlugin) :
  owned h pt ->
  sources (torn_down h pt) = ∅ /\ objects (torn_down h pt) = ∅.
Proof.
  intros [Hs Ho]. unfold torn_down. cbn [sources objects]. split.
  - apply map_eq. intros id. rewrite lookup_empty.
    destruct (sources h !! id) as [cb |] eqn:Hl.
    + destruct (Hs id cb Hl) as (Hpos & [[-> _] | [[-> _] | [-> _]]]).
      * apply drop_source_gone, drop_source_gone, drop_source_self. lia.
      * apply drop_source_gone, drop_source_self. lia.
      * apply drop_source_self. lia.
    + apply drop_source_gone, drop_source_gone, drop_source_gone, Hl.
  - apply set_eq. intros p. split; [| intros Hp; apply not_elem_of_empty in Hp; contradiction].
    intros Hp. exfalso.
    assert (Hin : p ∈ objects h)
      by (apply (drop_object_subset _ (udev_mon_oc pt)),
            (drop_object_subset _ (udev_mon_lv pt)), (drop_object_subset _ (udev pt)), Hp).
    destruct (Ho p Hin) as (Hnz & [-> | [-> | ->]]); revert Hp.
    + apply drop_object_gone, drop_object_gone, drop_object_self, Hnz.
    + apply drop_object_gone, drop_object_self, Hnz.
    + apply drop_object_self, Hnz.
Qed.

(** X11. Nothing is left behind. Take a process that holds nothing but the
    block, initialise the plugin in any environment, whichever libudev
    constructors succeed, and let the main loop handle any events: if that
    run completes, [power_destructor] succeeds, and afterwards no source
    is attached, no libudev object is alive and the block is freed. *)
Theorem teardown_is_complete (E : Env) (U : Udev) (evs : list event) (h : Host) :
  (power_init E U ;; handle_all evs) fresh_host = Ok (tt, h) ->
  exists h',
    power_destructor h = Ok (tt, h')
    /\ block h' = None /\ sources h' = ∅ /\ objects h' = ∅
    /\ panel h' = panel h.
Proof.
  unfold mbind at 1, Life_bind at 1.
  destruct (power_init_owned E U) as (h0 & pt0 & -> & Hb0 & Ha0 & Hown0).
  intros Hrun.
  destruct (handle_all_keeps_owned evs h0 h pt0 Hb0 Ha0 Hown0 Hrun)
    as (pt & Hb & Ha & Hown).
  exists (torn_down h pt).
  split; [apply power_destructor_run; [exact Hb | apply handles_alive_spec, Ha] |].
  split; [reflexivity |].
  destruct (torn_down_empty h pt Hown) as [Hs Ho]. auto.
Qed.

Lemma teardown_is_complete_witness :
  exists h h',
    (power_init (usb_env "1") (mkUdev true true false)
       ;; handle_all [Dispatch (usb_env "1") 1 (Some (usb_event "7"));
                      Dispatch (reset_env [0; 0; 0; 2]) 2 None;
                      Reconfigure (usb_env "1")]) fresh_host = Ok (tt, h)
    /\ power_destructor h = Ok (tt, h')
    /\ sources h' = ∅ /\ objects h' = ∅.
Proof.
  assert (Hrun : exists h,
             (power_init (usb_env "1") (mkUdev true true false)
                ;; handle_all [Dispatch (usb_env "1") 1 (Some (usb_event "7"));
                               Dispatch (reset_env [0; 0; 0; 2]) 2 None;
                               Reconfigure (usb_env "1")]) fresh_host = Ok (tt, h))
    by (eexists; vm_compute; reflexivity).
  destruct Hrun as (h & Hrun).
  destruct (teardown_is_complete _ _ _ h Hrun) as (h' & Hd & _ & Hs & Ho & _).
  exists h, h'. auto.
Defined.

(** *** The destructor and the rest of the process *)

Lemma lookup_drop_source_other (id id' : Z) (attached : gmap Z handler) :
  id <> id' -> drop_source id' attached !! id = attached !! id.
Proof.
  intros Hne. unfold drop_source. destruct (id' >? 0); [| reflexivity].
  apply lookup_delete_ne. congruence.
Qed.

Lemma elem_of_drop_object_other (p q : Z) (live : gset Z) :
  p <> q -> p ∈ drop_object q live <-> p ∈ live.
Proof.
  intros Hne. unfold drop_object. destruct (truthy q); [| reflexivity].
  rewrite elem_of_difference, elem_of_singleton. tauto.
Qed.

(** X12. [power_destructor] releases what the block names and nothing
    else: a source whose id is not one of the three ids of the block stays
    attached, an object that is not one of its three pointers stays alive,
    nothing is attached or created, and the allocators and the panel are
    as before. *)
Theorem power_destructor_frame (h h' : Host) (pt : PowerPlugin) :
  block h = Some pt -> handles_alive h pt = true ->
  power_destructor h = Ok (tt, h') ->
  (forall id,
     id <> overcurrent_id pt -> id <> lowvoltage_id pt -> id <> startup_id pt ->
     sources h' !! id = sources h !! id)
  /\ (forall p,
        p <> udev_mon_oc pt -> p <> udev_mon_lv pt -> p <> udev pt ->
        (p ∈ objects h' <-> p ∈ objects h))
  /\ (forall id cb, sources h' !! id = Some cb -> sources h !! id = Some cb)
  /\ (forall p, p ∈ objects h' -> p ∈ objects h)
  /\ next_id h' = next_id h /\ next_object h' = next_object h /\ panel h' = panel h.
Proof.
  intros Hb Ha. rewrite (power_destructor_run h pt Hb Ha). intros [= <-].
  unfold torn_down. cbn [sources objects next_id next_object panel].
  split; [| split; [| split; [| split; [| auto]]]].
  - intros id H1 H2 H3. rewrite !lookup_drop_source_other by assumption. reflexivity.
  - intros p H1 H2 H3. rewrite !elem_of_drop_object_other by assumption. reflexivity.
  - intros id cb Hl.
    apply lookup_drop_source_Some, lookup_drop_source_Some, lookup_drop_source_Some in Hl.
    exact Hl.
  - intros p Hp.
    apply drop_object_subset, drop_object_subset, drop_object_subset in Hp. exact Hp.
Qed.

Lemma power_destructor_frame_witness :
  exists h h',
    block h = Some (mkPowerPlugin 0 0 0 0 0 0 0 0)
    /\ handles_alive h (mkPowerPlugin 0 0 0 0 0 0 0 0) = true
    /\ power_destructor h = Ok (tt, h')
    /\ sources h' !! 5 = sources h !! 5
    /\ sources h !! 5 = Some OvercurrentFd.
Proof.
  exists (mkHost (Some zeroed) {[ 5 := OvercurrentFd ]} ∅ 6 1 []).
  assert (Hrun : exists h',
             power_destructor (mkHost (Some zeroed) {[ 5 := OvercurrentFd ]} ∅ 6 1 [])
             = Ok (tt, h')) by (eexists; vm_compute; reflexivity).
  destruct Hrun as (h' & Hrun). exists h'.
  split; [reflexivity |]. split; [reflexivity |]. split; [exact Hrun |].
  split; [| vm_compute; reflexivity].
  apply (proj1 (power_destructor_frame
                  (mkHost (Some zeroed) {[ 5 := OvercurrentFd ]} ∅ 6 1 []) h' zeroed
                  eq_refl eq_refl Hrun)); discriminate.
Defined.

(** *** The user warnings *)

Lemma getlines_next (fp : string) :
  C.getlines fp
  = match C.getline fp with
    | Some (line, rest) => line :: C.getlines rest
    | None => []
    end.
Proof.
  induction fp as [| c fp IH]; [reflexivity |].
  cbn [C.getlines C.getline C.read_line].
  destruct (Ascii.eqb c C.LF); [reflexivity |].
  rewrite IH. destruct fp as [| d fp]; [reflexivity |].
  cbn [C.getline]. destruct (C.read_line (String d fp)) as [line rest]. reflexivity.
Qed.

Lemma glue_getlines (fp : string) : glue (C.getlines fp) = fp.
Proof.
  unfold glue. induction fp as [| c fp IH]; [reflexivity |].
  cbn [C.getlines]. destruct (Ascii.eqb c C.LF).
  - cbn [foldr]. rewrite append_cons, append_nil, IH. reflexivity.
  - destruct (C.getlines fp) as [| line more].
    + cbn [foldr] in *. rewrite append_empty, <- IH. reflexivity.
    + cbn [foldr] in *. rewrite append_cons, IH. reflexivity.
Qed.

Lemma getlines_empty (fp : string) : C.getlines fp = [] -> fp = "".
Proof. intros H. rewrite <- (glue_getlines fp), H. reflexivity. Qed.

Lemma length_getlines (fp : string) :
  length (C.getlines fp)
  = (count_nl fp + if ends_with_nl fp || String.eqb fp "" then 0 else 1)%nat.
Proof.
  induction fp as [| c fp IH]; [reflexivity |].
  cbn [C.getlines count_nl]. destruct (Ascii.eqb c C.LF) eqn:Hc.
  - cbn [length]. rewrite IH. destruct fp as [| d fp].
    + cbn. rewrite Hc. reflexivity.
    + rewrite (ends_with_nl_cons c (String d fp)) by discriminate. reflexivity.
  - destruct (C.getlines fp) as [| line more] eqn:Hl.
    + apply getlines_empty in Hl. subst fp. cbn. rewrite Hc. reflexivity.
    + cbn [length] in *. rewrite IH. destruct fp as [| d fp]; [discriminate |].
      rewrite (ends_with_nl_cons c (String d fp)) by discriminate. reflexivity.
Qed.

Lemma g_strchug_begins (s : string) : begins_with_space (C.g_strchug s) = false.
Proof.
  induction s as [| c s IH]; [reflexivity |].
  cbn [C.g_strchug]. destruct (C.g_ascii_isspace c) eqn:Hc; [exact IH |].
  cbn [begins_with_space]. exact Hc.
Qed.

Lemma g_strchomp_ends (s : string) : ends_with_space (C.g_strchomp s) = false.
Proof.
  induction s as [| c s IH]; [reflexivity |].
  cbn [C.g_strchomp]. destruct (C.g_strchomp s) as [| d kept] eqn:Hk.
  - destruct (C.g_ascii_isspace c) eqn:Hc; [reflexivity |]. cbn. exact Hc.
  - exact IH.
Qed.

Lemma g_strchomp_begins (s : string) :
  begins_with_space s = false -> begins_with_space (C.g_strchomp s) = false.
Proof.
  destruct s as [| c s]; [reflexivity |]. cbn [begins_with_space C.g_strchomp].
  intros Hc. destruct (C.g_strchomp s); [rewrite Hc |]; cbn; exact Hc.
Qed.

Lemma g_strchug_all_space (s : string) : all_space s = true -> C.g_strchug s = "".
Proof.
  induction s as [| c s IH]; [reflexivity |].
  cbn [all_space C.g_strchug]. intros H. apply andb_true_iff in H as [Hc Hs].
  rewrite Hc. apply IH, Hs.
Qed.

Lemma c_str_all_space (s : string) : all_space s = true -> C.c_str s = s.
Proof.
  induction s as [| c s IH]; [reflexivity |].
  cbn [all_space C.c_str]. intros H. apply andb_true_iff in H as [Hc Hs].
  destruct (Ascii.eqb_spec c C.NUL) as [-> | _]; [discriminate |].
  rewrite IH by assumption. reflexivity.
Qed.

Lemma g_strstrip_clean (buf : string) :
  begins_with_space (C.g_strstrip buf) = false
  /\ ends_with_space (C.g_strstrip buf) = false.
Proof.
  unfold C.g_strstrip. split.
  - apply g_strchomp_begins, g_strchug_begins.
  - apply g_strchomp_ends.
Qed.

Lemma g_strstrip_all_space (buf : string) : all_space buf = true -> C.g_strstrip buf = "".
Proof.
  intros H. unfold C.g_strstrip. rewrite c_str_all_space, g_strchug_all_space by assumption.
  reflexivity.
Qed.

Lemma check_user_warnings_run (E : Env) (pt : PowerPlugin) :
  check_user_warnings E pt
  = Ok (tt, pt,
        if access E WARN_FILE then
          match fopen E WARN_FILE with
          | Some fp => map (fun buf => Notify (C.g_strstrip buf)) (C.getlines fp)
          | None => []
          end
        else []).
Proof.
  unfold check_user_warnings. destruct (access E WARN_FILE); [| reflexivity].
  destruct (fopen E WARN_FILE) as [fp |]; [| reflexivity]. apply notify_each.
Qed.

(** X13. The user-warnings check emits one Advisory per line of the file,
    in order, and nothing else: the lines are the file cut after each line
    break (glued together they are the file), so their number is the
    number of line breaks, plus one when the file does not end in a line
    break. No message begins or ends with white space; a line of white
    space only, a blank line for one, still gives an Advisory, with an
    empty text. When the file does not exist, cannot be opened or is
    empty, nothing is emitted. The block is never changed and the file is
    not removed. *)
Theorem check_user_warnings_lines (E : Env) (pt : PowerPlugin) :
  exists out,
    check_user_warnings E pt = Ok (tt, pt, out)
    /\ (access E WARN_FILE = false \/ fopen E WARN_FILE = None
        \/ fopen E WARN_FILE = Some "" -> out = [])
    /\ (forall fp,
          access E WARN_FILE = true -> fopen E WARN_FILE = Some fp ->
          exists lines,
            out = map (fun buf => Notify (C.g_strstrip buf)) lines
            /\ glue lines = fp
            /\ lines = match C.getline fp with
                       | Some (line, rest) => line :: C.getlines rest
                       | None => []
                       end
            /\ length out
               = (count_nl fp + if ends_with_nl fp || String.eqb fp "" then 0 else 1)%nat
            /\ (forall buf, buf ∈ lines ->
                  begins_with_space (C.g_strstrip buf) = false
                  /\ ends_with_space (C.g_strstrip buf) = false
                  /\ (all_space buf = true -> C.g_strstrip buf = ""))).
Proof.
  eexists. split; [apply check_user_warnings_run |]. split.
  - intros [Ha | [Ho | Ho]].
    + rewrite Ha. reflexivity.
    + rewrite Ho. destruct (access E WARN_FILE); reflexivity.
    + rewrite Ho. destruct (access E WARN_FILE); reflexivity.
  - intros fp Ha Ho. rewrite Ha, Ho. exists (C.getlines fp).
    split; [reflexivity |]. split; [apply glue_getlines |].
    split; [apply getlines_next |].
    split; [rewrite length_map; apply length_getlines |].
    intros buf _. destruct (g_strstrip_clean buf) as [Hb He].
    split; [exact Hb |]. split; [exact He | apply g_strstrip_all_space].
Qed.

Lemma check_user_warnings_lines_witness :
  access (warnings_env ("  Fan failure " +:+ C.nl +:+ C.nl +:+ "Overheated")) WARN_FILE = true
  /\ check_user_warnings (warnings_env ("  Fan failure " +:+ C.nl +:+ C.nl +:+ "Overheated"))
       initial
     = Ok (tt, initial, [Notify "Fan failure"; Notify ""; Notify "Overheated"])
  /\ exists out,
       check_user_warnings (warnings_env ("  Fan failure " +:+ C.nl +:+ C.nl +:+ "Overheated"))
         initial = Ok (tt, initial, out)
       /\ length out = 3%nat.
Proof.
  split; [reflexivity |]. split; [vm_compute; reflexivity |].
  destruct (check_user_warnings_lines
              (warnings_env ("  Fan failure " +:+ C.nl +:+ C.nl +:+ "Overheated")) initial)
    as (out & Hrun & _ & Hlines).
  destruct (Hlines _ eq_refl eq_refl) as (lines & _ & _ & _ & Hlen & _).
  exists out. split; [exact Hrun | exact Hlen].
Defined.
